(** * EcoNavix: the eco-route recommendation pipeline of [GreenAIModel.py]

    A shallow embedding of [src/jhuhacks/src/GreenAIModel.py] and the
    properties its specification states about it.

    - Python values coming out of [request.json], [response.json()] and the
      chat completion are modelled by [pyval]; a Python [int] is a [Z], a
      Python [float] is a binary64 primitive float, a Python [str] is the
      list of its code points.
    - Python exceptions are modelled by the error monad [result]; the
      [try/except Exception] blocks of the source are written out.
    - [requests.get], [requests.post] and [openai.ChatCompletion.create]
      are the boundary of the program: they are taken as functions of an
      abstract world, and every call is appended to a log, so that "which
      adapter was invoked" is a statement about the log.
    - [print] only writes to the console and is left out.
    - The view starts from [data], the body [request.json] parsed; a body
      that does not parse is not a [pyval] and is outside the model.
    - The texts of [TypeError], [IndexError] and [AttributeError] are those
      of CPython 3.10; the properties on malformed request bodies quote
      one of them, the [AttributeError] of [get]. *)

From Stdlib Require Import ZArith List String Ascii Bool Lia Floats.
Import ListNotations.
Local Open Scope Z_scope.
Set Warnings "-register-all,-inexact-float".

(** ** Python strings: lists of code points *)

Definition str := list N.

(** A source literal made of ASCII characters. *)
Definition lit (s : string) : str :=
  map N_of_ascii (list_ascii_of_string s).

Fixpoint str_eqb (a b : str) : bool :=
  match a, b with
  | [], [] => true
  | x :: a', y :: b' => N.eqb x y && str_eqb a' b'
  | _, _ => false
  end.

Fixpoint str_prefixb (p s : str) : bool :=
  match p, s with
  | [], _ => true
  | x :: p', y :: s' => N.eqb x y && str_prefixb p' s'
  | _ :: _, [] => false
  end.

(** [p in s] for two strings: [p] occurs in [s] as a substring. *)
Fixpoint str_contains (p s : str) : bool :=
  str_prefixb p s ||
  match s with
  | [] => false
  | _ :: s' => str_contains p s'
  end.

(** ** Python values *)

Inductive pyval : Type :=
| PNone
| PBool (b : bool)
| PInt (n : Z)
| PFloat (f : float)
| PStr (s : str)
| PList (l : list pyval)
| PDict (d : list (str * pyval)).

(** ** Exceptions

    Every exception of the program is a subclass of [Exception]; the
    handlers of the source do not tell them apart, only [str(e)] of the
    outermost handler shows which one it was. [UpstreamError] stands for
    whatever [requests], the JSON decoder or [openai] raise. *)

Inductive exn : Type :=
| KeyError (key : pyval)
| TypeError (msg : str)
| IndexError (msg : str)
| AttributeError (msg : str)
| ValueError (msg : str)
| OverflowError (msg : str)
| UpstreamError (msg : str).

Inductive result (A : Type) : Type :=
| Ok (a : A)
| Raise (e : exn).
Arguments Ok {A} a.
Arguments Raise {A} e.

Definition rbind {A B} (r : result A) (k : A -> result B) : result B :=
  match r with
  | Ok a => k a
  | Raise e => Raise e
  end.

Declare Scope py_scope.
Delimit Scope py_scope with py.
Notation "x <-- r ;; k" := (rbind r (fun x => k))
  (at level 61, r at next level, right associativity) : py_scope.
Local Open Scope py_scope.

(** [for x in l: acc = f acc x], stopping at the first exception. *)
Fixpoint for_each {A B} (f : B -> A -> result B) (l : list A) (acc : B)
  : result B :=
  match l with
  | [] => Ok acc
  | x :: l' => acc' <-- f acc x ;; for_each f l' acc'
  end.

(** [[f x for x in l]]. *)
Fixpoint comprehension {A B} (f : A -> result B) (l : list A)
  : result (list B) :=
  match l with
  | [] => Ok []
  | x :: l' => y <-- f x ;; ys <-- comprehension f l' ;; Ok (y :: ys)
  end.

(** ** The Python operations the program applies to dynamic values *)

Module Py.

Definition type_name (v : pyval) : str :=
  match v with
  | PNone => lit "NoneType"
  | PBool _ => lit "bool"
  | PInt _ => lit "int"
  | PFloat _ => lit "float"
  | PStr _ => lit "str"
  | PList _ => lit "list"
  | PDict _ => lit "dict"
  end.

(** Truth value testing ([if v], [not v], [all]). *)
Definition truthy (v : pyval) : bool :=
  match v with
  | PNone => false
  | PBool b => b
  | PInt n => negb (n =? 0)
  | PFloat f => negb (PrimFloat.eqb f 0%float)
  | PStr s => match s with [] => false | _ => true end
  | PList l => match l with [] => false | _ => true end
  | PDict d => match d with [] => false | _ => true end
  end.

Fixpoint lookup (k : str) (d : list (str * pyval)) : option pyval :=
  match d with
  | [] => None
  | (k', v) :: d' => if str_eqb k k' then Some v else lookup k d'
  end.

(** A sequence index, counted from the end when negative. *)
Definition index {A} (l : list A) (i : Z) : option A :=
  let n := Z.of_nat (List.length l) in
  if (0 <=? i) && (i <? n) then nth_error l (Z.to_nat i)
  else if (i <? 0) && (- n <=? i) then nth_error l (Z.to_nat (n + i))
  else None.

Definition not_subscriptable {A} (v : pyval) : result A :=
  Raise (TypeError
    (lit "'" ++ type_name v ++ lit "' object is not subscriptable")).

(** [v[k]] for a string literal [k]. *)
Definition getitem (v : pyval) (k : str) : result pyval :=
  match v with
  | PDict d =>
      match lookup k d with
      | Some x => Ok x
      | None => Raise (KeyError (PStr k))
      end
  | PList _ =>
      Raise (TypeError (lit "list indices must be integers or slices, not str"))
  | PStr _ => Raise (TypeError (lit "string indices must be integers"))
  | _ => not_subscriptable v
  end.

(** [v[i]] for an integer literal [i]. The keys of a dictionary read from
    JSON are strings, so an integer is never one of them. *)
Definition getindex (v : pyval) (i : Z) : result pyval :=
  match v with
  | PList l =>
      match index l i with
      | Some x => Ok x
      | None => Raise (IndexError (lit "list index out of range"))
      end
  | PStr s =>
      match index s i with
      | Some c => Ok (PStr [c])
      | None => Raise (IndexError (lit "string index out of range"))
      end
  | PDict _ => Raise (KeyError (PInt i))
  | _ => not_subscriptable v
  end.

(** [v.get(k, default)]: only a dictionary has the method. *)
Definition get (v : pyval) (k : str) (default : pyval) : result pyval :=
  match v with
  | PDict d =>
      match lookup k d with
      | Some x => Ok x
      | None => Ok default
      end
  | _ =>
      Raise (AttributeError
        (lit "'" ++ type_name v ++ lit "' object has no attribute 'get'"))
  end.

Definition is_str (k : str) (v : pyval) : bool :=
  match v with
  | PStr s => str_eqb k s
  | _ => false
  end.

(** [k in v] for a string literal [k]. *)
Definition contains (k : str) (v : pyval) : result bool :=
  match v with
  | PDict d => Ok (match lookup k d with Some _ => true | None => false end)
  | PList l => Ok (existsb (is_str k) l)
  | PStr s => Ok (str_contains k s)
  | _ =>
      Raise (TypeError
        (lit "argument of type '" ++ type_name v ++ lit "' is not iterable"))
  end.

(** The elements a [for] loop or a comprehension goes through. *)
Definition iter (v : pyval) : result (list pyval) :=
  match v with
  | PList l => Ok l
  | PStr s => Ok (map (fun c => PStr [c]) s)
  | PDict d => Ok (map (fun kv => PStr (fst kv)) d)
  | _ =>
      Raise (TypeError
        (lit "'" ++ type_name v ++ lit "' object is not iterable"))
  end.

End Py.

(** ** Python arithmetic on [int] and [float] *)

Module Num.

(** The largest magnitude an [int] may have and still convert: from
    [2^1024 - 2^970] on, rounding to nearest even reaches [2^1024] and
    CPython raises [OverflowError]. *)
Definition float_limit : Z := 2 ^ 1024 - 2 ^ 970.

(** [float(n)]: the nearest binary64, ties to even. *)
Definition of_int (n : Z) : result float :=
  if Z.abs n <? float_limit
  then Ok (SF2Prim (binary_normalize prec emax n 0 false))
  else Raise (OverflowError (lit "int too large to convert to float")).

(** [a / b] for two [int]s, [b] positive: the exact quotient rounded
    once to the nearest binary64, ties to even. The numerator is scaled
    until the integer quotient has more than 64 bits, and the remainder
    is kept as a sticky lowest bit, so that [binary_normalize] rounds the
    exact quotient. *)
Definition int_truediv (a b : Z) : result float :=
  let s := Z.max 0 (64 + Z.log2 b - Z.log2 (Z.abs a)) in
  let num := Z.abs a * 2 ^ s in
  let q := num / b in
  let sticky := if num mod b =? 0 then 0 else 1 in
  let m := 2 * q + sticky in
  let f := SF2Prim (binary_normalize prec emax
                      (if a <? 0 then - m else m) (- s - 1) false) in
  if is_infinity f
  then Raise (OverflowError
                (lit "integer division result too large for a float"))
  else Ok f.

(** [v / b] for an integer literal [b] (60 and 1000 in the source). A
    [bool] is an [int]; a [float] divides in binary64. *)
Definition truediv (v : pyval) (b : Z) : result float :=
  match v with
  | PInt n => int_truediv n b
  | PBool t => int_truediv (if t then 1 else 0) b
  | PFloat f =>
      fb <-- of_int b ;; Ok (PrimFloat.div f fb)
  | _ =>
      Raise (TypeError
        (lit "unsupported operand type(s) for /: '" ++ Py.type_name v
         ++ lit "' and 'int'"))
  end.

(** [m * 2^e] rounded to an integer, a tie going to the even neighbour. *)
Definition round_half_even (m e : Z) : Z :=
  if 0 <=? e then m * 2 ^ e
  else
    let d := 2 ^ (- e) in
    let q := m / d in
    let r := m mod d in
    if 2 * r <? d then q
    else if d <? 2 * r then q + 1
    else if Z.even q then q else q + 1.

(** [round(x)] of a [float], with no [ndigits]: an [int]. *)
Definition round (x : float) : result Z :=
  match Prim2SF x with
  | S754_nan =>
      Raise (ValueError (lit "cannot convert float NaN to integer"))
  | S754_infinity _ =>
      Raise (OverflowError (lit "cannot convert float infinity to integer"))
  | S754_zero _ => Ok 0
  | S754_finite s m e =>
      let z := round_half_even (Zpos m) e in
      Ok (if s then - z else z)
  end.

(** [n * x] for an [int] and a [float]. *)
Definition int_mul_float (n : Z) (x : float) : result float :=
  fn <-- of_int n ;; Ok (PrimFloat.mul fn x).

(** Neither an infinity nor NaN. *)
Definition finite (x : float) : Prop :=
  match Prim2SF x with
  | S754_infinity _ | S754_nan => False
  | _ => True
  end.

(** The mantissa of the float the literal [0.95] denotes,
    [mantissa_095 * 2^-53]. *)
Definition mantissa_095 : positive := Eval vm_compute in
  match Prim2SF 0.95 with
  | S754_finite _ m _ => m
  | _ => 1%positive
  end.

End Num.

(** ** The outside world

    The five upstream services are reached through [requests.get],
    [requests.post] and [openai.ChatCompletion.create]. A call is recorded
    with the arguments that depend on the request. *)

Inductive http_call : Type :=
| PostDirections (authorization : pyval) (coordinates : pyval)
| GetPetroleumPrices (api_key : pyval)
| GetWeather (q : str) (appid : pyval)
| PostEstimate (bearer : pyval) (distance_value : float).

(** What the program reads of a [requests] response: [status_code] and
    [json()], which raises when the body is not JSON. *)
Record http_response : Type := {
  status_code : Z;
  json : result pyval
}.

Inductive call : Type :=
| Requests (c : http_call)
| ChatCompletionCreate (api_key : pyval) (prompt : str).

Inductive adapter : Type :=
| RouteAdapter
| EnergyPriceAdapter
| WeatherAdapter
| EmissionsAdapter
| RecommendationAdapter.

Definition adapter_of (c : call) : adapter :=
  match c with
  | Requests (PostDirections _ _) => RouteAdapter
  | Requests (GetPetroleumPrices _) => EnergyPriceAdapter
  | Requests (GetWeather _ _) => WeatherAdapter
  | Requests (PostEstimate _ _) => EmissionsAdapter
  | ChatCompletionCreate _ _ => RecommendationAdapter
  end.

(** The state threaded through a request: the world the services live in
    and the calls made so far. *)
Record state (World : Type) : Type := {
  world : World;
  log : list call
}.
Arguments world {World} s.
Arguments log {World} s.

(** The built-in conversions of Python the program calls on values it does
    not inspect: [str(v)] (an f-string field with no format), [repr(v)]
    (the text of a [KeyError]), the format [.2f] and [str.strip()]. *)
Record builtins : Type := {
  py_str : pyval -> str;
  py_repr : pyval -> str;
  py_format_2f : float -> str;
  str_strip : str -> str
}.

(** ** The data the pipeline builds *)

Record EnergyPrice : Type := {
  price_per_gallon : pyval;
  period : pyval
}.

Record EmissionsResult : Type := {
  carbon_g : pyval;
  carbon_kg : float
}.

Record WeatherConditions : Type := {
  temperature : pyval;
  weather : pyval;
  wind_speed : pyval
}.

(** The dictionary [get_eco_route] returns; [emissions] is the key the
    orchestrator adds to it afterwards. *)
Record RouteResult : Type := {
  distance_km : float;
  duration_minutes : Z;
  coordinates : list pyval;
  directions : list pyval;
  emissions : option EmissionsResult
}.

Definition with_emissions (r : RouteResult) (e : EmissionsResult)
  : RouteResult :=
  {| distance_km := distance_km r;
     duration_minutes := duration_minutes r;
     coordinates := coordinates r;
     directions := directions r;
     emissions := Some e |}.

(** [optimized_carbon_kg] is the [carbon_kg] of the nested dictionary
    [optimized_carbon_emissions]. *)
Record OptimizedRouteEstimate : Type := {
  optimized_distance_km : float;
  optimized_duration_minutes : Z;
  optimized_carbon_kg : float
}.

(** One branch of the comparison; its keys are [distance_km],
    [duration_minutes] and [carbon_emissions_kg]. *)
Record RouteFigures : Type := {
  cmp_distance_km : float;
  cmp_duration_minutes : Z;
  carbon_emissions_kg : float
}.

Record RouteComparison : Type := {
  original : RouteFigures;
  optimized : RouteFigures
}.

Inductive body : Type :=
| BodyError (error : str)
| BodySuccess (route : list pyval) (directions : list pyval)
    (comparison : RouteComparison) (recommendation : str).

(** What the view returns: [jsonify(...)] alone is status 200. *)
Record response : Type := {
  status : Z;
  payload : body
}.

(** The values read from the request, lines 198 to 208. *)
Record inputs : Type := {
  origin_coords : pyval;
  destination_coords : pyval;
  vehicle : pyval;
  EIA_API_KEY : pyval;
  CARBON_INTERFACE_API_KEY : pyval;
  WEATHER_API_KEY : pyval;
  OPENROUTESERVICE_API_KEY : pyval;
  OPENAI_API_KEY : pyval
}.

(** ** The program *)

Section Pipeline.

Context {World : Type}.

(** [requests.get] and [requests.post]: a response, or an exception. *)
Variable http : http_call -> World -> result http_response * World.

(** [openai.ChatCompletion.create]: the response object, or an
    exception. *)
Variable chat : pyval -> str -> World -> result pyval * World.

Variable B : builtins.

(** A computation that cannot raise, and one that can. An exception
    leaves the state as it was when it was raised. *)
Definition T (A : Type) : Type := state World -> A * state World.
Definition M (A : Type) : Type := state World -> result A * state World.

Definition ret {A} (a : A) : M A := fun s => (Ok a, s).

Definition bind {A C} (m : M A) (k : A -> M C) : M C :=
  fun s =>
    match m s with
    | (Ok a, s') => k a s'
    | (Raise e, s') => (Raise e, s')
    end.

Definition lift {A} (r : result A) : M A := fun s => (r, s).

(** A call of a function that handles its own exceptions. *)
Definition run {A} (t : T A) : M A :=
  fun s => let (a, s') := t s in (Ok a, s').

(** [try: m  except Exception as e: return h e]. *)
Definition try_except {A} (m : M A) (h : exn -> A) : T A :=
  fun s =>
    match m s with
    | (Ok a, s') => (a, s')
    | (Raise e, s') => (h e, s')
    end.

Notation "x <- m ;; k" := (bind m (fun x => k))
  (at level 61, m at next level, right associativity).

Definition requests (c : http_call) : M http_response :=
  fun s =>
    let (r, w) := http c (world s) in
    (r, {| world := w; log := log s ++ [Requests c] |}).

Definition ChatCompletion_create (api_key : pyval) (prompt : str)
  : M pyval :=
  fun s =>
    let (r, w) := chat api_key prompt (world s) in
    (r, {| world := w;
           log := log s ++ [ChatCompletionCreate api_key prompt] |}).

(** *** [get_energy_data] *)

Definition get_energy_data (EIA_API_KEY : pyval) : T (option EnergyPrice) :=
  try_except
    (response <- requests (GetPetroleumPrices EIA_API_KEY) ;;
     if status_code response =? 200 then
       data <- lift (json response) ;;
       latest_data <- lift (r <-- Py.getitem data (lit "response") ;;
                            d <-- Py.getitem r (lit "data") ;;
                            Py.getindex d 0) ;;
       value <- lift (Py.getitem latest_data (lit "value")) ;;
       period <- lift (Py.getitem latest_data (lit "period")) ;;
       ret (Some {| price_per_gallon := value; period := period |})
     else ret None)
    (fun _ => None).

(** *** [calculate_emissions] *)

Definition calculate_emissions (distance_km : float)
    (CARBON_INTERFACE_API_KEY : pyval) : T (option EmissionsResult) :=
  try_except
    (response <- requests (PostEstimate CARBON_INTERFACE_API_KEY distance_km) ;;
     if status_code response =? 201 then
       emissions_data <- lift (json response) ;;
       g <- lift (d <-- Py.getitem emissions_data (lit "data") ;;
                  a <-- Py.getitem d (lit "attributes") ;;
                  Py.getitem a (lit "carbon_g")) ;;
       kg <- lift (Num.truediv g 1000) ;;
       ret (Some {| carbon_g := g; carbon_kg := kg |})
     else ret None)
    (fun _ => None).

(** *** [get_weather_data] *)

Definition get_weather_data (location : str) (WEATHER_API_KEY : pyval)
  : T (option WeatherConditions) :=
  try_except
    (response <- requests (GetWeather location WEATHER_API_KEY) ;;
     if status_code response =? 200 then
       weather_data <- lift (json response) ;;
       temp <- lift (m <-- Py.getitem weather_data (lit "main") ;;
                     Py.getitem m (lit "temp")) ;;
       description <- lift (w <-- Py.getitem weather_data (lit "weather") ;;
                            w0 <-- Py.getindex w 0 ;;
                            Py.getitem w0 (lit "description")) ;;
       speed <- lift (w <-- Py.getitem weather_data (lit "wind") ;;
                      Py.getitem w (lit "speed")) ;;
       ret (Some {| temperature := temp;
                    weather := description;
                    wind_speed := speed |})
     else ret None)
    (fun _ => None).

(** *** [get_eco_route] *)

(** [[c[1], c[0]]]: the two axes exchanged, [lat, lon] into [lon, lat]
    for the routing service (lines 84 and 85) and back (line 112). *)
Definition swap_pair (c : pyval) : result pyval :=
  c1 <-- Py.getindex c 1 ;;
  c0 <-- Py.getindex c 0 ;;
  Ok (PList [c1; c0]).

(** The inner loop over the steps of one segment, lines 119 to 121. *)
Definition append_instruction (directions : list pyval) (step : pyval)
  : result (list pyval) :=
  has <-- Py.contains (lit "instruction") step ;;
  if has : bool then
    instruction <-- Py.getitem step (lit "instruction") ;;
    Ok (directions ++ [instruction])
  else Ok directions.

Definition append_segment (directions : list pyval) (segment : pyval)
  : result (list pyval) :=
  steps <-- Py.get segment (lit "steps") (PList []) ;;
  steps <-- Py.iter steps ;;
  for_each append_instruction steps directions.

(** [properties["segments"][0][k]]. *)
Definition first_segment (properties : pyval) (k : str) : result pyval :=
  segments <-- Py.getitem properties (lit "segments") ;;
  segment <-- Py.getindex segments 0 ;;
  Py.getitem segment k.

(** ["features" in route_data and route_data["features"]], as a truth
    value. *)
Definition has_features (route_data : pyval) : result bool :=
  present <-- Py.contains (lit "features") route_data ;;
  if present : bool then
    features <-- Py.getitem route_data (lit "features") ;;
    Ok (Py.truthy features)
  else Ok false.

(** Lines 107 to 128: the route read from a payload that has features. *)
Definition read_route (route_data : pyval) : result RouteResult :=
  features <-- Py.getitem route_data (lit "features") ;;
  route_feature <-- Py.getindex features 0 ;;
  geometry <-- Py.getitem route_feature (lit "geometry") ;;
  coords <-- Py.getitem geometry (lit "coordinates") ;;
  properties <-- Py.getitem route_feature (lit "properties") ;;
  coords <-- Py.iter coords ;;
  converted_coordinates <-- comprehension swap_pair coords ;;
  duration <-- first_segment properties (lit "duration") ;;
  minutes <-- Num.truediv duration 60 ;;
  duration_minutes <-- Num.round minutes ;;
  distance <-- first_segment properties (lit "distance") ;;
  distance_km <-- Num.truediv distance 1000 ;;
  segments <-- Py.getitem properties (lit "segments") ;;
  segments <-- Py.iter segments ;;
  directions <-- for_each append_segment segments [] ;;
  Ok {| distance_km := distance_km;
        duration_minutes := duration_minutes;
        coordinates := converted_coordinates;
        directions := directions;
        emissions := None |}.

Definition get_eco_route (origin_coords destination_coords
    OPENROUTESERVICE_API_KEY : pyval) : T (option RouteResult) :=
  try_except
    (formatted_origin <- lift (swap_pair origin_coords) ;;
     formatted_destination <- lift (swap_pair destination_coords) ;;
     response <- requests (PostDirections OPENROUTESERVICE_API_KEY
                             (PList [formatted_origin;
                                     formatted_destination])) ;;
     if negb (status_code response =? 200) then ret None
     else
       route_data <- lift (json response) ;;
       found <- lift (has_features route_data) ;;
       if found : bool then
         route <- lift (read_route route_data) ;;
         ret (Some route)
       else ret None)
    (fun _ => None).

(** *** [simulate_optimized_route] *)

Definition simulate_optimized_route (route_data : RouteResult)
  : result OptimizedRouteEstimate :=
  let distance := distance_km route_data in
  scaled <-- Num.int_mul_float (duration_minutes route_data) 0.95 ;;
  duration <-- Num.round scaled ;;
  e <-- match emissions route_data with
        | Some e => Ok e
        | None => Raise (KeyError (PStr (lit "emissions")))
        end ;;
  Ok {| optimized_distance_km := distance;
        optimized_duration_minutes := duration;
        optimized_carbon_kg := PrimFloat.mul (carbon_kg e) 0.9 |}.

(** *** [generate_openai_prompt] *)

Definition newline : str := [10%N].
Definition degree_sign : str := [176%N].
Definition subscript_two : str := [8322%N].

Definition prompt_instruction : str :=
  lit " Provide a recommendation for reducing emissions and optimizing energy consumption for this route. Dont number the first part with based on the information part. Then the others should be indented in and then numbered starting a 1 ".

Definition generate_openai_prompt (route_data : RouteResult)
    (energy_data : EnergyPrice) (carbon_emissions : EmissionsResult)
    (weather_origin weather_destination : WeatherConditions)
    (vehicle : pyval) : result str :=
  let head :=
    lit "Based on the following information:" ++ newline
    ++ lit "- Distance: " ++ py_str B (PFloat (distance_km route_data))
    ++ lit " km" ++ newline
    ++ lit "- Estimated Time: "
    ++ py_str B (PInt (duration_minutes route_data))
    ++ lit " minutes" ++ newline
    ++ lit "- Energy Price: $" ++ py_str B (price_per_gallon energy_data)
    ++ lit " per gallon" ++ newline
    ++ lit "- Estimated Carbon Emissions: "
    ++ py_format_2f B (carbon_kg carbon_emissions)
    ++ lit " kg of CO" ++ subscript_two ++ newline
    ++ lit "- Weather at Origin: " ++ py_str B (weather weather_origin)
    ++ lit ",   Temperature: " ++ py_str B (temperature weather_origin)
    ++ degree_sign ++ lit "C,   Wind Speed: "
    ++ py_str B (wind_speed weather_origin) ++ lit " m/s" ++ newline
    ++ lit "- Weather at Destination: "
    ++ py_str B (weather weather_destination)
    ++ lit ",   Temperature: " ++ py_str B (temperature weather_destination)
    ++ degree_sign ++ lit "C,   Wind Speed: "
    ++ py_str B (wind_speed weather_destination) ++ lit " m/s" ++ newline
  in
  type <-- Py.getitem vehicle (lit "type") ;;
  efficiency <-- Py.getitem vehicle (lit "efficiency") ;;
  fuel_type <-- Py.getitem vehicle (lit "fuel_type") ;;
  Ok (head
      ++ lit "- Vehicle Type: " ++ py_str B type
      ++ lit ",   Fuel Efficiency: " ++ py_str B efficiency
      ++ lit " km/l,   Fuel Type: " ++ py_str B fuel_type ++ newline
      ++ prompt_instruction).

(** *** [get_openai_recommendation] *)

(** [content.strip()]: only a string has the method here. *)
Definition strip (content : pyval) : result str :=
  match content with
  | PStr s => Ok (str_strip B s)
  | _ =>
      Raise (AttributeError
        (lit "'" ++ Py.type_name content
         ++ lit "' object has no attribute 'strip'"))
  end.

Definition failed_recommendation : str :=
  lit "Failed to generate recommendation.".

(** [response['choices'][0]['message']['content'].strip()]. *)
Definition read_completion (response : pyval) : result str :=
  choices <-- Py.getitem response (lit "choices") ;;
  choice <-- Py.getindex choices 0 ;;
  message <-- Py.getitem choice (lit "message") ;;
  content <-- Py.getitem message (lit "content") ;;
  strip content.

Definition get_openai_recommendation (prompt : str) (OPENAI_API_KEY : pyval)
  : T str :=
  try_except
    (response <- ChatCompletion_create OPENAI_API_KEY prompt ;;
     lift (read_completion response))
    (fun _ => failed_recommendation).

(** *** [get_route_recommendation] *)

Definition read_inputs (data : pyval) : result inputs :=
  origin_coords <-- Py.get data (lit "origin_coords") PNone ;;
  destination_coords <-- Py.get data (lit "destination_coords") PNone ;;
  vehicle <-- Py.get data (lit "vehicle") PNone ;;
  api_keys <-- Py.get data (lit "api_keys") (PDict []) ;;
  eia <-- Py.get api_keys (lit "EIA_API_KEY") PNone ;;
  carbon <-- Py.get api_keys (lit "CARBON_INTERFACE_API_KEY") PNone ;;
  weather <-- Py.get api_keys (lit "WEATHER_API_KEY") PNone ;;
  ors <-- Py.get api_keys (lit "OPENROUTESERVICE_API_KEY") PNone ;;
  openai <-- Py.get api_keys (lit "OPENAI_API_KEY") PNone ;;
  Ok {| origin_coords := origin_coords;
        destination_coords := destination_coords;
        vehicle := vehicle;
        EIA_API_KEY := eia;
        CARBON_INTERFACE_API_KEY := carbon;
        WEATHER_API_KEY := weather;
        OPENROUTESERVICE_API_KEY := ors;
        OPENAI_API_KEY := openai |}.

(** [all([EIA_API_KEY, ..., OPENAI_API_KEY])]. *)
Definition keys_present (i : inputs) : bool :=
  forallb Py.truthy
    [EIA_API_KEY i; CARBON_INTERFACE_API_KEY i; WEATHER_API_KEY i;
     OPENROUTESERVICE_API_KEY i; OPENAI_API_KEY i].

(** [origin_coords and destination_coords], as a truth value. *)
Definition coords_present (i : inputs) : bool :=
  Py.truthy (origin_coords i) && Py.truthy (destination_coords i).

Definition error_response (code : Z) (message : str) : response :=
  {| status := code; payload := BodyError message |}.

Definition default_weather_origin : WeatherConditions :=
  {| temperature := PInt 20;
     weather := PStr (lit "clear");
     wind_speed := PInt 5 |}.

Definition default_weather_destination : WeatherConditions :=
  {| temperature := PInt 25;
     weather := PStr (lit "clear");
     wind_speed := PInt 5 |}.

(** The [x or default] of lines 229 and 234: an adapter's dictionary is
    never empty, so only [None] is falsy. *)
Definition or_default {A} (x : option A) (default : A) : A :=
  match x with
  | Some a => a
  | None => default
  end.

(** Lines 244 to 247; the literal 2310 converts to a float exactly. *)
Definition fallback_emissions (distance_km : float) : EmissionsResult :=
  {| carbon_g := PFloat (PrimFloat.mul distance_km 2310);
     carbon_kg := PrimFloat.mul distance_km 2.31 |}.

Definition compare (route_data : RouteResult)
    (carbon_emissions : EmissionsResult)
    (optimized_route : OptimizedRouteEstimate) : RouteComparison :=
  {| original :=
       {| cmp_distance_km := distance_km route_data;
          cmp_duration_minutes := duration_minutes route_data;
          carbon_emissions_kg := carbon_kg carbon_emissions |};
     optimized :=
       {| cmp_distance_km := optimized_distance_km optimized_route;
          cmp_duration_minutes := optimized_duration_minutes optimized_route;
          carbon_emissions_kg := optimized_carbon_kg optimized_route |} |}.

(** [str(e)] in the message of the outermost handler. *)
Definition exn_str (e : exn) : str :=
  match e with
  | KeyError key => py_repr B key
  | TypeError msg | IndexError msg | AttributeError msg
  | ValueError msg | OverflowError msg | UpstreamError msg => msg
  end.

Definition get_route_recommendation (data : pyval) : T response :=
  try_except
    (i <- lift (read_inputs data) ;;
     if negb (keys_present i) then
       ret (error_response 400 (lit "All five API keys are required."))
     else if negb (coords_present i) then
       ret (error_response 400
              (lit "Both origin_coords and destination_coords must be provided."))
     else
       route_data <- run (get_eco_route (origin_coords i)
                            (destination_coords i)
                            (OPENROUTESERVICE_API_KEY i)) ;;
       match route_data with
       | None =>
           ret (error_response 400
                  (lit "Unable to calculate route with provided coordinates."))
       | Some route_data =>
           energy_data <- run (get_energy_data (EIA_API_KEY i)) ;;
           match energy_data with
           | None =>
               ret (error_response 400
                      (lit "Unable to retrieve energy data from EIA API."))
           | Some energy_data =>
               found <- run (get_weather_data (lit "San Francisco")
                               (WEATHER_API_KEY i)) ;;
               let weather_origin :=
                 or_default found default_weather_origin in
               found <- run (get_weather_data (lit "Los Angeles")
                               (WEATHER_API_KEY i)) ;;
               let weather_destination :=
                 or_default found default_weather_destination in
               found <- run (calculate_emissions (distance_km route_data)
                               (CARBON_INTERFACE_API_KEY i)) ;;
               let carbon_emissions :=
                 or_default found
                   (fallback_emissions (distance_km route_data)) in
               let route_data := with_emissions route_data carbon_emissions in
               optimized_route <- lift (simulate_optimized_route route_data) ;;
               prompt <- lift (generate_openai_prompt route_data energy_data
                                 carbon_emissions weather_origin
                                 weather_destination (vehicle i)) ;;
               recommendation <- run (get_openai_recommendation prompt
                                        (OPENAI_API_KEY i)) ;;
               ret {| status := 200;
                      payload :=
                        BodySuccess (coordinates route_data)
                          (directions route_data)
                          (compare route_data carbon_emissions
                             optimized_route)
                          recommendation |}
           end
       end)
    (fun e =>
       error_response 500 (lit "Internal server error: " ++ exn_str e)).

End Pipeline.

Arguments get_route_recommendation {World} http chat B data s.
Arguments get_eco_route {World} http origin_coords destination_coords
  OPENROUTESERVICE_API_KEY s.
Arguments get_energy_data {World} http EIA_API_KEY s.
Arguments get_weather_data {World} http location WEATHER_API_KEY s.
Arguments calculate_emissions {World} http distance_km
  CARBON_INTERFACE_API_KEY s.
Arguments get_openai_recommendation {World} chat B prompt OPENAI_API_KEY s.


(** ** The notions the properties are stated with *)

(** The request went through lines 211 to 215: every lookup of lines 198
    to 208 worked, the five keys are there and so are both coordinates. *)
Definition passes_validation (data : pyval) (i : inputs) : Prop :=
  read_inputs data = Ok i
  /\ keys_present i = true
  /\ coords_present i = true.

(** A credential or a coordinate pair the caller left out: the key is not
    in the dictionary, or it is there with a value Python takes for
    false ([null], an empty string, an empty list). *)
Definition missing (d : list (str * pyval)) (k : str) : bool :=
  match Py.lookup k d with
  | Some v => negb (Py.truthy v)
  | None => true
  end.

Definition credential_names : list str :=
  [lit "EIA_API_KEY"; lit "CARBON_INTERFACE_API_KEY"; lit "WEATHER_API_KEY";
   lit "OPENROUTESERVICE_API_KEY"; lit "OPENAI_API_KEY"].

(** The credentials of a request body: the object under [api_keys], none
    when the key is absent. *)
Definition credentials (fields keys : list (str * pyval)) : Prop :=
  match Py.lookup (lit "api_keys") fields with
  | Some v => v = PDict keys
  | None => keys = []
  end.






(** The locations the weather service was asked about, in order. *)
Definition weather_queries (calls : list call) : list str :=
  flat_map (fun c => match c with
                     | Requests (GetWeather q _) => [q]
                     | _ => []
                     end) calls.

(** The three failures of the routing service the specification lists:
    the call raises, the status is not 200, the payload has no features
    (a body that is not JSON counts as a call that raised). *)
Definition upstream_failure (reply : result http_response) : Prop :=
  match reply with
  | Raise _ => True
  | Ok response =>
      status_code response <> 200
      \/ match json response with
         | Raise _ => True
         | Ok payload => has_features payload <> Ok true
         end
  end.

(** The routing service answered with a payload from which lines 107 to 128
    cannot read a route: a key is missing, a value has the wrong type, a
    number does not round. *)
Definition unreadable_route (reply : result http_response) : Prop :=
  exists response payload e,
    reply = Ok response
    /\ json response = Ok payload
    /\ read_route payload = Raise e.

(** The points of the geometry of the first feature, as the routing
    service sent them. *)
Definition feature_coordinates (payload : pyval) : result (list pyval) :=
  features <-- Py.getitem payload (lit "features") ;;
  feature <-- Py.getindex features 0 ;;
  geometry <-- Py.getitem feature (lit "geometry") ;;
  coords <-- Py.getitem geometry (lit "coordinates") ;;
  Py.iter coords.

(** [p] is the point [c] of the routing service, [lon, lat], in the order
    [lat, lon]. *)
Definition lat_lon (c p : pyval) : Prop :=
  exists lon lat,
    Py.getindex c 0 = Ok lon /\ Py.getindex c 1 = Ok lat
    /\ p = PList [lat; lon].

(** [kilograms = grams / 1000], with Python's division. *)
Definition consistent (e : EmissionsResult) : Prop :=
  Num.truediv (carbon_g e) 1000 = Ok (carbon_kg e).

(** The vehicle lacks what the prompt reads from it: there is no vehicle,
    or one of its three keys is not there. *)
Definition incomplete_vehicle (vehicle : pyval) : Prop :=
  vehicle = PNone
  \/ exists fields k,
       vehicle = PDict fields
       /\ In k [lit "type"; lit "efficiency"; lit "fuel_type"]
       /\ Py.lookup k fields = None.

(** The vehicle has the three keys the prompt reads. *)
Definition complete_vehicle (vehicle : pyval) : Prop :=
  exists fields,
    vehicle = PDict fields
    /\ forall k, In k [lit "type"; lit "efficiency"; lit "fuel_type"] ->
                 Py.lookup k fields <> None.

(** The recommendation adapter failed: the call raised, or the text could
    not be read from what it returned. *)
Definition recommendation_failure (B : builtins) (reply : result pyval)
  : Prop :=
  exists e, rbind reply (read_completion B) = Raise e.

(** *** A run of the pipeline, and three sentences of the specification as
    they are written

    Each sentence is stated for one request in one world, so that it can
    be tested on a concrete one. *)

Section AsStated.

Context {World : Type}.
Variable http : http_call -> World -> result http_response * World.
Variable chat : pyval -> str -> World -> result pyval * World.
Variable B : builtins.

(** The run went as far as the emissions adapter: the request was
    validated, the route [rd] and the energy price [en] were found, the
    two weather lookups returned [ow] and [dw], and the emissions lookup
    returned [found], leaving the state [s5]. *)
Definition gathers (data : pyval) (s : state World) (i : inputs)
    (rd : RouteResult) (en : EnergyPrice)
    (ow dw : option WeatherConditions) (found : option EmissionsResult)
    (s5 : state World) : Prop :=
  exists s1 s2 s3 s4,
    passes_validation data i
    /\ get_eco_route http (origin_coords i) (destination_coords i)
         (OPENROUTESERVICE_API_KEY i) s = (Some rd, s1)
    /\ get_energy_data http (EIA_API_KEY i) s1 = (Some en, s2)
    /\ get_weather_data http (lit "San Francisco") (WEATHER_API_KEY i) s2
       = (ow, s3)
    /\ get_weather_data http (lit "Los Angeles") (WEATHER_API_KEY i) s3
       = (dw, s4)
    /\ calculate_emissions http (distance_km rd)
         (CARBON_INTERFACE_API_KEY i) s4 = (found, s5).


(** "If the emissions adapter fails, the pipeline does not abort and the
    kilograms of the original branch are [distance_km * 2.31]." *)
Definition emissions_fallback_as_stated (data : pyval) (s : state World)
  : Prop :=
  forall i rd en ow dw s5,
    gathers data s i rd en ow dw None s5 ->
    exists route directions comparison recommendation,
      fst (get_route_recommendation http chat B data s)
      = {| status := 200;
           payload := BodySuccess route directions comparison
                        recommendation |}
      /\ carbon_emissions_kg (original comparison)
         = PrimFloat.mul (distance_km rd) 2.31.

(** "Every EmissionsResult used by the pipeline, returned by the service
    or produced by the fallback, has [kilograms = grams / 1000]." *)
Definition emissions_consistency_as_stated (data : pyval) (s : state World)
  : Prop :=
  forall i rd en ow dw found s5,
    gathers data s i rd en ow dw found s5 ->
    consistent (or_default found (fallback_emissions (distance_km rd))).

(** "The route adapter fails exactly when the call errors, the status is
    not a success, or the payload has no route features." *)
Definition route_failure_as_stated (origin destination key : pyval)
    (s : state World) : Prop :=
  forall formatted_origin formatted_destination,
    swap_pair origin = Ok formatted_origin ->
    swap_pair destination = Ok formatted_destination ->
    (fst (get_eco_route http origin destination key s) = None
     <-> upstream_failure
           (fst (http (PostDirections key
                         (PList [formatted_origin; formatted_destination]))
                   (world s)))).

End AsStated.

(** ** A scripted world

    Concrete upstream services, to run the pipeline on a request: each
    service answers with a fixed reply. The figures are those of the
    end-to-end scenario of the specification: San Francisco to Los
    Angeles, 559 km, 300 minutes, 50 kg of CO2. *)

Module Scenario.

Record script : Type := {
  directions_reply : result http_response;
  prices_reply : result http_response;
  weather_reply : str -> result http_response;
  estimate_reply : result http_response;
  completion_reply : result pyval
}.

Definition http (sc : script) (c : http_call) (w : unit)
  : result http_response * unit :=
  (match c with
   | PostDirections _ _ => directions_reply sc
   | GetPetroleumPrices _ => prices_reply sc
   | GetWeather q _ => weather_reply sc q
   | PostEstimate _ _ => estimate_reply sc
   end, w).

Definition chat (sc : script) (api_key : pyval) (prompt : str) (w : unit)
  : result pyval * unit :=
  (completion_reply sc, w).

Definition start : state unit := {| world := tt; log := [] |}.

Definition answer (code : Z) (v : pyval) : result http_response :=
  Ok {| status_code := code; json := Ok v |}.

Definition unreachable : result http_response :=
  Raise (UpstreamError (lit "connection refused")).

Definition key (k : string) : pyval := PStr (lit k).

Definition directions_json : pyval :=
  PDict [(lit "features", PList [PDict [
    (lit "geometry", PDict [(lit "coordinates", PList [
       PList [PFloat (-122.4194); PFloat 37.7749];
       PList [PFloat (-118.2437); PFloat 34.0522]])]);
    (lit "properties", PDict [(lit "segments", PList [PDict [
       (lit "distance", PFloat 559000);
       (lit "duration", PFloat 18000);
       (lit "steps", PList [
          PDict [(lit "instruction", PStr (lit "Head south"))];
          PDict [(lit "distance", PFloat 12)];
          PDict [(lit "instruction", PStr (lit "Arrive"))]])]])])]])].

Definition prices_json : pyval :=
  PDict [(lit "response", PDict [(lit "data", PList [PDict [
    (lit "value", PFloat 4.5); (lit "period", PStr (lit "2025-01-06"))]])])].

Definition weather_json : pyval :=
  PDict [(lit "main", PDict [(lit "temp", PFloat 14.5)]);
         (lit "weather", PList [PDict [
            (lit "description", PStr (lit "mist"))]]);
         (lit "wind", PDict [(lit "speed", PFloat 3.5)])].

Definition estimate_json : pyval :=
  PDict [(lit "data", PDict [(lit "attributes", PDict [
    (lit "carbon_g", PInt 50000)])])].

Definition completion_json : pyval :=
  PDict [(lit "choices", PList [PDict [(lit "message", PDict [
    (lit "content", PStr (lit " Keep a steady speed. "))])]])].

(** Every service answers. *)
Definition all_up : script :=
  {| directions_reply := answer 200 directions_json;
     prices_reply := answer 200 prices_json;
     weather_reply := fun _ => answer 200 weather_json;
     estimate_reply := answer 201 estimate_json;
     completion_reply := Ok completion_json |}.

(** The routing service cannot be reached. *)
Definition route_down : script :=
  {| directions_reply := unreachable;
     prices_reply := answer 200 prices_json;
     weather_reply := fun _ => answer 200 weather_json;
     estimate_reply := answer 201 estimate_json;
     completion_reply := Ok completion_json |}.

(** The price service answers 503. *)
Definition energy_down : script :=
  {| directions_reply := answer 200 directions_json;
     prices_reply := answer 503 (PDict []);
     weather_reply := fun _ => answer 200 weather_json;
     estimate_reply := answer 201 estimate_json;
     completion_reply := Ok completion_json |}.

(** The weather service fails for San Francisco only. *)
Definition origin_weather_down : script :=
  {| directions_reply := answer 200 directions_json;
     prices_reply := answer 200 prices_json;
     weather_reply := fun q =>
       if str_eqb q (lit "San Francisco") then unreachable
       else answer 200 weather_json;
     estimate_reply := answer 201 estimate_json;
     completion_reply := Ok completion_json |}.

(** The emissions service answers 401. *)
Definition emissions_down : script :=
  {| directions_reply := answer 200 directions_json;
     prices_reply := answer 200 prices_json;
     weather_reply := fun _ => answer 200 weather_json;
     estimate_reply := answer 401 (PDict []);
     completion_reply := Ok completion_json |}.

(** The chat completion raises. *)
Definition chat_down : script :=
  {| directions_reply := answer 200 directions_json;
     prices_reply := answer 200 prices_json;
     weather_reply := fun _ => answer 200 weather_json;
     estimate_reply := answer 201 estimate_json;
     completion_reply := Raise (UpstreamError (lit "rate limit reached")) |}.

(** A route of 27 km, and no emissions service. *)
Definition short_trip_json : pyval :=
  PDict [(lit "features", PList [PDict [
    (lit "geometry", PDict [(lit "coordinates", PList [
       PList [PFloat (-122.4194); PFloat 37.7749];
       PList [PFloat (-122.2712); PFloat 37.8044]])]);
    (lit "properties", PDict [(lit "segments", PList [PDict [
       (lit "distance", PInt 27000);
       (lit "duration", PInt 1800)]])])]])].

Definition short_trip : script :=
  {| directions_reply := answer 200 short_trip_json;
     prices_reply := answer 200 prices_json;
     weather_reply := fun _ => answer 200 weather_json;
     estimate_reply := answer 401 (PDict []);
     completion_reply := Ok completion_json |}.

(** The routing service answers 200 with a feature that has a geometry
    and no segments. *)
Definition no_segments_json : pyval :=
  PDict [(lit "features", PList [PDict [
    (lit "geometry", PDict [(lit "coordinates", PList [
       PList [PFloat (-122.4194); PFloat 37.7749];
       PList [PFloat (-118.2437); PFloat 34.0522]])]);
    (lit "properties", PDict [(lit "summary", PDict [])])]])].

Definition no_segments : script :=
  {| directions_reply := answer 200 no_segments_json;
     prices_reply := answer 200 prices_json;
     weather_reply := fun _ => answer 200 weather_json;
     estimate_reply := answer 201 estimate_json;
     completion_reply := Ok completion_json |}.

(** San Francisco and Los Angeles, as [lat, lon]. *)
Definition origin : pyval := PList [PFloat 37.7749; PFloat (-122.4194)].
Definition destination : pyval := PList [PFloat 34.0522; PFloat (-118.2437)].

Definition request_with (vehicle : list (str * pyval)) : pyval :=
  PDict ([(lit "origin_coords", origin);
          (lit "destination_coords", destination)]
         ++ vehicle
         ++ [(lit "api_keys", PDict [
               (lit "EIA_API_KEY", key "eia");
               (lit "CARBON_INTERFACE_API_KEY", key "carbon");
               (lit "WEATHER_API_KEY", key "weather");
               (lit "OPENROUTESERVICE_API_KEY", key "ors");
               (lit "OPENAI_API_KEY", key "openai")])]).

Definition car : pyval :=
  PDict [(lit "type", PStr (lit "sedan"));
         (lit "efficiency", PInt 15);
         (lit "fuel_type", PStr (lit "gasoline"))].

Definition request : pyval := request_with [(lit "vehicle", car)].

(** The request of a caller that sends no vehicle. *)
Definition request_no_vehicle : pyval := request_with [].


(** The way back: Los Angeles to San Francisco. *)
Definition request_back : pyval :=
  PDict [(lit "origin_coords", destination);
         (lit "destination_coords", origin);
         (lit "vehicle", car);
         (lit "api_keys", PDict [
            (lit "EIA_API_KEY", key "eia");
            (lit "CARBON_INTERFACE_API_KEY", key "carbon");
            (lit "WEATHER_API_KEY", key "weather");
            (lit "OPENROUTESERVICE_API_KEY", key "ors");
            (lit "OPENAI_API_KEY", key "openai")])].

(** What lines 198 to 208 read from [request_back]. *)
Definition sent_back : inputs :=
  {| origin_coords := destination;
     destination_coords := origin;
     vehicle := car;
     EIA_API_KEY := key "eia";
     CARBON_INTERFACE_API_KEY := key "carbon";
     WEATHER_API_KEY := key "weather";
     OPENROUTESERVICE_API_KEY := key "ors";
     OPENAI_API_KEY := key "openai" |}.

(** What lines 198 to 208 read from [request_with]. *)
Definition sent (vehicle : pyval) : inputs :=
  {| origin_coords := origin;
     destination_coords := destination;
     vehicle := vehicle;
     EIA_API_KEY := key "eia";
     CARBON_INTERFACE_API_KEY := key "carbon";
     WEATHER_API_KEY := key "weather";
     OPENROUTESERVICE_API_KEY := key "ors";
     OPENAI_API_KEY := key "openai" |}.

(** The fields of a request whose [api_keys] has no [OPENAI_API_KEY]. *)
Definition fields_without_openai_key : list (str * pyval) :=
  [(lit "origin_coords", origin);
   (lit "destination_coords", destination);
   (lit "vehicle", car);
   (lit "api_keys", PDict [
      (lit "EIA_API_KEY", key "eia");
      (lit "CARBON_INTERFACE_API_KEY", key "carbon");
      (lit "WEATHER_API_KEY", key "weather");
      (lit "OPENROUTESERVICE_API_KEY", key "ors")])].

(** Stand-ins for the built-in conversions, enough to run the pipeline:
    a string is shown as it is and anything else by the name of its
    type; [strip] removes the ASCII blanks at both ends. The theorems
    below hold for all [builtins]. *)
Definition show (v : pyval) : str :=
  match v with
  | PStr s => s
  | _ => lit "<" ++ Py.type_name v ++ lit ">"
  end.

Definition blank (c : N) : bool :=
  (c =? 32)%N || ((9 <=? c)%N && (c <=? 13)%N).

Fixpoint lstrip (s : str) : str :=
  match s with
  | c :: s' => if blank c then lstrip s' else s
  | [] => []
  end.

Definition plain : builtins :=
  {| py_str := show;
     py_repr := fun v => lit "'" ++ show v ++ lit "'";
     py_format_2f := fun _ => lit "<float>";
     str_strip := fun s => rev (lstrip (rev (lstrip s))) |}.

Definition serve (sc : script) (data : pyval) : response * state unit :=
  get_route_recommendation (http sc) (chat sc) plain data start.

End Scenario.



(** ** Notions for further properties of the code *)

(** A value that is no JSON object: it has no method [get]. *)
Definition not_an_object (v : pyval) : Prop :=
  match v with
  | PDict _ => False
  | _ => True
  end.

Definition is_object (v : pyval) : Prop :=
  exists fields, v = PDict fields.

(** What one step adds to the directions: its instruction, when it has
    one. *)
Definition step_instruction (step : pyval) : list pyval :=
  match step with
  | PDict fields =>
      match Py.lookup (lit "instruction") fields with
      | Some instruction => [instruction]
      | None => []
      end
  | _ => []
  end.

Definition segment_steps (segment : pyval) : list pyval :=
  match segment with
  | PDict fields =>
      match Py.lookup (lit "steps") fields with
      | Some (PList steps) => steps
      | _ => []
      end
  | _ => []
  end.

(** The instructions of all the steps of all the segments, in order. *)
Definition instructions (segments : list pyval) : list pyval :=
  flat_map (fun segment => flat_map step_instruction (segment_steps segment))
    segments.

(** A segment as the routing service sends it: an object whose [steps],
    when there, is a list of objects. *)
Definition plain_segment (segment : pyval) : Prop :=
  exists fields,
    segment = PDict fields
    /\ match Py.lookup (lit "steps") fields with
       | None => True
       | Some (PList steps) => Forall is_object steps
       | Some _ => False
       end.

(** [route_data["features"][0]["properties"]["segments"]]. *)
Definition route_segments (payload : pyval) : result pyval :=
  features <-- Py.getitem payload (lit "features") ;;
  feature <-- Py.getindex features 0 ;;
  properties <-- Py.getitem feature (lit "properties") ;;
  Py.getitem properties (lit "segments").

(** The fields the weather adapter reads from a payload. *)
Definition weather_temp (data : pyval) : result pyval :=
  main <-- Py.getitem data (lit "main") ;; Py.getitem main (lit "temp").

Definition weather_description (data : pyval) : result pyval :=
  w <-- Py.getitem data (lit "weather") ;;
  first <-- Py.getindex w 0 ;;
  Py.getitem first (lit "description").

Definition weather_wind (data : pyval) : result pyval :=
  wind <-- Py.getitem data (lit "wind") ;; Py.getitem wind (lit "speed").

(** The newest entry of the price series, [data['response']['data'][0]]. *)
Definition latest_price (data : pyval) : result pyval :=
  r <-- Py.getitem data (lit "response") ;;
  series <-- Py.getitem r (lit "data") ;;
  Py.getindex series 0.

(** [response['choices'][0]['message']['content']]. *)
Definition completion_content (response : pyval) : result pyval :=
  choices <-- Py.getitem response (lit "choices") ;;
  choice <-- Py.getindex choices 0 ;;
  message <-- Py.getitem choice (lit "message") ;;
  Py.getitem message (lit "content").

(** A mantissa and an exponent as an integer, in units of [2^-1200]: every
    exponent of a binary64 float and of a product of two is above -1200. *)
Definition scaled (m e : Z) : Z := m * 2 ^ (e + 1200).

(** The value of a float in units of [2^-1200]; 0 for what is not
    finite. *)
Definition units (x : float) : Z :=
  match Prim2SF x with
  | S754_finite s m e => if s then - scaled (Zpos m) e else scaled (Zpos m) e
  | _ => 0
  end.

(** The mantissa of the float the literal [2.31] denotes,
    [mantissa_231 * 2^-51]. *)
Definition mantissa_231 : positive := Eval vm_compute in
  match Prim2SF 2.31 with
  | S754_finite _ m _ => m
  | _ => 1%positive
  end.

(** A positive normal float between [2^-948] and [2^953]: as a distance
    in kilometres, any a route can have. *)
Definition ordinary (d : float) : Prop :=
  exists m e,
    Prim2SF d = S754_finite false m e
    /\ 2 ^ 52 <= Zpos m /\ -1000 <= e <= 900.

(** ** Proof steps that come back *)

(** Splits on the next [result] the goal analyses. *)
Ltac case_result :=
  match goal with
  | |- context [match ?x with Ok _ => _ | Raise _ => _ end] => destruct x
  end.

(** Names the outcome of the first statement of a block that ran to its
    end. *)
Ltac bind_ok H :=
  match type of H with
  | rbind ?r _ = Ok _ =>
      let E := fresh "E" in
      destruct r eqn:E; cbn [rbind] in H; [|discriminate H]
  end.

(** Runs the adapters of a scripted world up to the emissions lookup. *)
Ltac gather :=
  unfold gathers, passes_validation; do 4 eexists;
  repeat split; vm_compute; reflexivity.

(** * Facts on binary64 arithmetic

    What the pipeline needs of floats: the integer [round] returns converts
    back to a float, and scaling it by [0.95] stays finite, so that
    [simulate_optimized_route] raises nothing on a resolved route; and a
    product or a quotient of normal floats is within [2^-52] of the exact
    value, which bounds the distance between the grams and the kilograms
    of the fallback emissions. *)

Lemma digits2_size p : digits2_pos p = Pos.size p.
Proof. induction p; simpl; congruence. Qed.

Lemma digits_bounds p :
  2 ^ (Zpos (digits2_pos p) - 1) <= Zpos p < 2 ^ Zpos (digits2_pos p).
Proof.
  rewrite digits2_size. split.
  - pose proof (Pos.size_le p) as H.
    apply Pos2Z.pos_le_pos in H. rewrite Pos2Z.inj_pow in H.
    replace (Zpos (Pos.size p)) with (Z.succ (Zpos (Pos.size p) - 1)) in H by lia.
    rewrite Z.pow_succ_r in H by lia. change (Zpos 2) with 2 in H. lia.
  - pose proof (Pos.size_gt p) as H.
    apply Pos2Z.pos_lt_pos in H. now rewrite Pos2Z.inj_pow in H.
Qed.

Lemma digits_le p n : Zpos p < 2 ^ n -> Zpos (digits2_pos p) <= n.
Proof.
  intros H. destruct (digits_bounds p) as [Hlo _].
  destruct (Z.le_gt_cases (Zpos (digits2_pos p)) n) as [|Hgt]; [assumption|].
  assert (2 ^ n <= 2 ^ (Zpos (digits2_pos p) - 1)).
  { destruct (Z.le_gt_cases 0 n).
    - apply Z.pow_le_mono_r; lia.
    - rewrite (Z.pow_neg_r 2 n) by lia. apply Z.pow_nonneg. lia. }
  lia.
Qed.

Lemma digits_unique p n : 2 ^ (n - 1) <= Zpos p < 2 ^ n -> Zpos (digits2_pos p) = n.
Proof.
  intros [Hlo Hhi]. pose proof (digits_le p n Hhi).
  destruct (digits_bounds p) as [_ Hp].
  destruct (Z.eq_dec (Zpos (digits2_pos p)) n) as [|Hne]; [assumption|].
  assert (2 ^ Zpos (digits2_pos p) <= 2 ^ (n - 1)) by (apply Z.pow_le_mono_r; lia).
  lia.
Qed.

Lemma iter_pos_iter {A} (f : A -> A) p : forall x, iter_pos f p x = Pos.iter f x p.
Proof.
  induction p; intros x; cbn [iter_pos Pos.iter].
  - rewrite !IHp, <- !Pos.iter_swap. reflexivity.
  - rewrite !IHp. reflexivity.
  - reflexivity.
Qed.

Lemma shr_1_m r : 0 <= shr_m r -> shr_m (shr_1 r) = shr_m r / 2.
Proof.
  destruct r as [m r s]. simpl. intros Hm.
  destruct m as [|p|p]; try lia; [reflexivity|].
  destruct p; simpl shr_m.
  - rewrite Pos2Z.inj_xI. apply Z.div_unique with 1; lia.
  - rewrite Pos2Z.inj_xO. apply Z.div_unique with 0; lia.
  - reflexivity.
Qed.

Lemma shr_iter_m r k :
  0 <= shr_m r -> shr_m (iter_pos shr_1 k r) = shr_m r / 2 ^ Zpos k.
Proof.
  intros Hm. rewrite iter_pos_iter.
  apply (Pos.iter_ind _ shr_1 r (fun k r' => shr_m r' = shr_m r / 2 ^ Zpos k)).
  - rewrite shr_1_m by assumption. reflexivity.
  - intros p a' IH. rewrite shr_1_m.
    + rewrite IH, Pos2Z.inj_succ, Z.pow_succ_r by lia.
      rewrite Z.div_div by (try apply Z.pow_pos_nonneg; lia).
      f_equal. lia.
    + rewrite IH. apply Z.div_pos; [assumption|]. apply Z.pow_pos_nonneg; lia.
Qed.

Lemma shr_1_double a :
  0 <= a ->
  shr_1 {| shr_m := 2 * a; shr_r := false; shr_s := false |}
  = {| shr_m := a; shr_r := false; shr_s := false |}.
Proof. destruct a as [|p|p]; try lia; reflexivity. Qed.

Lemma shr_iter_exact k : forall a,
  0 <= a ->
  iter_pos shr_1 k {| shr_m := a * 2 ^ Zpos k; shr_r := false; shr_s := false |}
  = {| shr_m := a; shr_r := false; shr_s := false |}.
Proof.
  induction k using Pos.peano_ind; intros a Ha; rewrite iter_pos_iter.
  - replace (a * 2 ^ 1) with (2 * a) by lia. now apply shr_1_double.
  - rewrite Pos.iter_succ_r.
    replace (a * 2 ^ Zpos (Pos.succ k)) with (2 * (a * 2 ^ Zpos k)).
    2:{ rewrite Pos2Z.inj_succ, Z.pow_succ_r by lia. ring. }
    rewrite shr_1_double.
    + rewrite <- iter_pos_iter. now apply IHk.
    + apply Z.mul_nonneg_nonneg; [lia|apply Z.pow_nonneg; lia].
Qed.

Lemma round_nearest_even_bounds m l :
  m <= round_nearest_even m l <= m + 1.
Proof.
  destruct l as [|[| |]]; simpl; try lia.
  destruct (Z.even m); lia.
Qed.

Lemma fexp64 x : fexp prec emax x = Z.max (x - 53) (-1074).
Proof. reflexivity. Qed.

Lemma shr_fexp_exact m e :
  0 <= m ->
  let e' := Z.max e (fexp prec emax (Zdigits2 m + e)) in
  shr_fexp prec emax m e loc_Exact
  = (fst (shr_fexp prec emax m e loc_Exact), e')
  /\ shr_m (fst (shr_fexp prec emax m e loc_Exact)) = m / 2 ^ (e' - e).
Proof.
  intros Hm e'. subst e'. unfold shr_fexp, shr.
  set (f := fexp prec emax (Zdigits2 m + e)).
  destruct (f - e) as [|k|k] eqn:Hk; cbn [fst shr_record_of_loc shr_m].
  - replace (Z.max e f) with e by lia. rewrite Z.sub_diag, Z.div_1_r. auto.
  - replace (Z.max e f) with (e + Zpos k) by lia.
    rewrite shr_iter_m by assumption. cbn [shr_m].
    replace (e + Zpos k - e) with (Zpos k) by lia. auto.
  - replace (Z.max e f) with e by lia. rewrite Z.sub_diag, Z.div_1_r. auto.
Qed.

Lemma Zdigits2_le m n : 0 <= m < 2 ^ n -> 0 <= n -> Zdigits2 m <= n.
Proof.
  intros [H0 H1] Hn. destruct m as [|p|p]; cbn [Zdigits2]; try lia.
  now apply digits_le.
Qed.

(** Rounding a positive mantissa never gives NaN, and gives no infinity
    when the exponent it settles on leaves room. *)
Lemma binary_round_aux_finite s M E :
  let e1 := Z.max E (fexp prec emax (Zpos (digits2_pos M) + E)) in
  let m1 := Zpos M / 2 ^ (e1 - E) in
  e1 + 1 <= 971 \/ (e1 <= 971 /\ m1 + 1 < 2 ^ 53) ->
  match binary_round_aux prec emax s (Zpos M) E loc_Exact with
  | S754_infinity _ | S754_nan => False
  | _ => True
  end.
Proof.
  intros e1 m1 Hroom.
  unfold binary_round_aux.
  destruct (shr_fexp_exact (Zpos M) E ltac:(lia)) as [H1 H1m].
  cbn [Zdigits2] in H1, H1m. fold e1 in H1, H1m. fold m1 in H1m.
  rewrite H1. set (r1 := fst (shr_fexp prec emax (Zpos M) E loc_Exact)) in *.
  set (m2 := round_nearest_even (shr_m r1) (loc_of_shr_record r1)).
  assert (Hm2 : m1 <= m2 <= m1 + 1).
  { subst m2. rewrite <- H1m. apply round_nearest_even_bounds. }
  assert (He1 : -1074 <= e1 /\ Zpos (digits2_pos M) + E - 53 <= e1 /\ E <= e1).
  { subst e1. rewrite fexp64. lia. }
  assert (Hm1 : 0 <= m1 < 2 ^ 53).
  { subst m1. split.
    - apply Z.div_pos; [lia|]. apply Z.pow_pos_nonneg; lia.
    - apply Z.div_lt_upper_bound; [apply Z.pow_pos_nonneg; lia|].
      rewrite <- Z.pow_add_r by lia.
      destruct (digits_bounds M) as [_ Hhi].
      apply Z.lt_le_trans with (1 := Hhi).
      apply Z.pow_le_mono_r; lia. }
  destruct (shr_fexp_exact m2 e1 ltac:(lia)) as [H2 H2m].
  rewrite H2. set (r3 := fst (shr_fexp prec emax m2 e1 loc_Exact)) in *.
  set (e3 := Z.max e1 (fexp prec emax (Zdigits2 m2 + e1))) in *.
  assert (Hd2 : Zdigits2 m2 <= 54).
  { apply Zdigits2_le; [|lia]. change (2 ^ 54) with (2 * 2 ^ 53). lia. }
  assert (He3 : e3 <= 971).
  { subst e3. rewrite fexp64. destruct Hroom as [Hr|[Hr Hr']]; [lia|].
    assert (Zdigits2 m2 <= 53) by (apply Zdigits2_le; lia). lia. }
  assert (Hm3 : 0 <= shr_m r3).
  { rewrite H2m. apply Z.div_pos; [lia|]. apply Z.pow_pos_nonneg; lia. }
  destruct (shr_m r3) as [|q|q]; [exact I| |lia].
  replace (e3 <=? emax - prec) with true; [exact I|].
  symmetry. apply Z.leb_le. change (emax - prec) with 971. exact He3.
Qed.

(** A canonical mantissa within the exponent range is left as it is. *)
Lemma binary_round_aux_canonical s M E :
  bounded prec emax M E = true ->
  binary_round_aux prec emax s (Zpos M) E loc_Exact = S754_finite s M E.
Proof.
  unfold bounded, canonical_mantissa. intros H.
  apply andb_true_iff in H. destruct H as [Hc Hb].
  apply Z.eqb_eq in Hc. apply Z.leb_le in Hb.
  unfold binary_round_aux, shr_fexp. cbn [Zdigits2].
  rewrite Hc, Z.sub_diag. cbn [shr shr_record_of_loc loc_of_shr_record
    round_nearest_even shr_m Zdigits2].
  rewrite Hc, Z.sub_diag. cbn [shr shr_record_of_loc shr_m].
  apply Z.leb_le in Hb. now rewrite Hb.
Qed.

Lemma valid_finite s m e :
  valid_binary (S754_finite s m e) = true ->
  Zpos m < 2 ^ 53 /\ -1074 <= e <= 971
  /\ Z.max (Zpos (digits2_pos m) + e - 53) (-1074) = e.
Proof.
  cbn [SpecFloat.valid_binary]. unfold bounded, canonical_mantissa.
  rewrite fexp64. intros H.
  apply andb_true_iff in H. destruct H as [Hc Hb].
  apply Z.eqb_eq in Hc. apply Z.leb_le in Hb. change (emax - prec) with 971 in Hb.
  repeat split; try lia.
  destruct (digits_bounds m) as [_ Hhi].
  apply Z.lt_le_trans with (1 := Hhi). apply Z.pow_le_mono_r; lia.
Qed.

Lemma Prim2SF_095 : Prim2SF 0.95 = S754_finite false Num.mantissa_095 (-53).
Proof. vm_compute. reflexivity. Qed.

(** Scaling a finite float by 0.95 cannot overflow. *)
Lemma SFmul_095_finite s m e :
  valid_binary (S754_finite s m e) = true ->
  match SF64mul (S754_finite s m e) (Prim2SF 0.95) with
  | S754_infinity _ | S754_nan => False
  | _ => True
  end.
Proof.
  intros Hv. destruct (valid_finite s m e Hv) as (Hm & He & Hc).
  rewrite Prim2SF_095. unfold SF64mul, SFmul.
  apply binary_round_aux_finite. rewrite fexp64.
  set (M := (m * Num.mantissa_095)%positive).
  assert (HM : Zpos M < Zpos m * 2 ^ 53).
  { subst M. rewrite Pos2Z.inj_mul. apply Z.mul_lt_mono_pos_l; [lia|].
    vm_compute. reflexivity. }
  assert (HL : Zpos (digits2_pos M) <= Zpos (digits2_pos m) + 53).
  { apply digits_le. rewrite Z.pow_add_r by lia.
    destruct (digits_bounds m) as [_ Hhi].
    apply Z.lt_trans with (1 := HM).
    apply Z.mul_lt_mono_pos_r; [apply Z.pow_pos_nonneg; lia|exact Hhi]. }
  set (e1 := Z.max (e + -53) (Z.max (Zpos (digits2_pos M) + (e + -53) - 53) (-1074))).
  destruct (Z.le_gt_cases e1 970) as [Hle|Hgt]; [left; lia|right].
  assert (He1 : e1 = 971) by lia.
  split; [lia|].
  assert (Hsh : e1 - (e + -53) = 53) by lia.
  rewrite Hsh.
  assert (Zpos M / 2 ^ 53 < Zpos m).
  { apply Z.div_lt_upper_bound; [apply Z.pow_pos_nonneg; lia|]. lia. }
  lia.
Qed.

Lemma pos_iter_xO q d : Zpos (Pos.iter xO q d) = Zpos q * 2 ^ Zpos d.
Proof.
  induction d using Pos.peano_ind.
  - cbn [Pos.iter]. lia.
  - rewrite Pos.iter_succ, Pos2Z.inj_xO, IHd, Pos2Z.inj_succ, Z.pow_succ_r by lia.
    ring.
Qed.

Lemma digits_shift q k :
  0 <= k -> forall p, Zpos p = Zpos q * 2 ^ k ->
  Zpos (digits2_pos p) = Zpos (digits2_pos q) + k.
Proof.
  intros Hk p Hp. apply digits_unique. rewrite Hp.
  destruct (digits_bounds q) as [Hlo Hhi].
  assert (0 < 2 ^ k) by (apply Z.pow_pos_nonneg; lia).
  replace (Zpos (digits2_pos q) + k - 1) with (Zpos (digits2_pos q) - 1 + k) by lia.
  rewrite !Z.pow_add_r by lia. split.
  - apply Z.mul_le_mono_nonneg_r; lia.
  - apply Z.mul_lt_mono_pos_r; lia.
Qed.

(** An integer that is a float already converts to that float. *)
Lemma binary_round_exact s q m e :
  valid_binary (S754_finite s m e) = true ->
  0 <= e -> Zpos q = Zpos m * 2 ^ e ->
  binary_round prec emax s q 0 = S754_finite s m e.
Proof.
  intros Hv He Hq.
  destruct (valid_finite s m e Hv) as (Hm & Hr & Hc).
  pose proof (digits_shift m e He q Hq) as HL.
  unfold binary_round. rewrite fexp64.
  replace (Z.max (Zpos (digits2_pos q) + 0 - 53) (-1074)) with e by lia.
  unfold shl_align.
  assert (Hal : match e - 0 with
                | Z.neg d => (Pos.iter xO q d, e)
                | _ => (q, 0)
                end = (q, 0)).
  { destruct (e - 0) eqn:E0; try reflexivity. lia. }
  rewrite Hal. unfold binary_round_aux, shr_fexp. cbn [Zdigits2].
  rewrite fexp64.
  replace (Z.max (Zpos (digits2_pos q) + 0 - 53) (-1074) - 0) with e by lia.
  assert (Hshr : shr (shr_record_of_loc (Zpos q) loc_Exact) 0 e
                 = ({| shr_m := Zpos m; shr_r := false; shr_s := false |}, e)).
  { unfold shr. cbn [shr_record_of_loc]. destruct e as [|k|k]; try lia.
    - f_equal. f_equal. lia.
    - rewrite Hq, shr_iter_exact by lia. reflexivity. }
  rewrite Hshr.
  cbn [loc_of_shr_record round_nearest_even shr_m Zdigits2].
  rewrite fexp64.
  replace (Z.max (Zpos (digits2_pos m) + e - 53) (-1074) - e) with 0 by lia.
  cbn [shr shr_record_of_loc shr_m].
  replace (e <=? emax - prec) with true; [reflexivity|].
  symmetry. apply Z.leb_le. change (emax - prec) with 971. lia.
Qed.

(** An integer below [2^53] converts exactly. *)
Lemma binary_round_small s q :
  Zpos q < 2 ^ 53 ->
  exists M E, binary_round prec emax s q 0 = S754_finite s M E
              /\ valid_binary (S754_finite s M E) = true.
Proof.
  intros Hq. pose proof (digits_le q 53 Hq) as HL.
  unfold binary_round. rewrite fexp64.
  replace (Z.max (Zpos (digits2_pos q) + 0 - 53) (-1074))
    with (Zpos (digits2_pos q) - 53) by lia.
  unfold shl_align.
  destruct (Zpos (digits2_pos q) - 53 - 0) as [|d|d] eqn:Hd; try lia.
  - exists q, 0.
    assert (Hb : bounded prec emax q 0 = true).
    { unfold bounded, canonical_mantissa. rewrite fexp64.
      apply andb_true_iff. split; [apply Z.eqb_eq; lia|reflexivity]. }
    split; [now apply binary_round_aux_canonical|exact Hb].
  - exists (Pos.iter xO q d), (Zpos (digits2_pos q) - 53).
    assert (Hb : bounded prec emax (Pos.iter xO q d) (Zpos (digits2_pos q) - 53) = true).
    { unfold bounded, canonical_mantissa. rewrite fexp64.
      rewrite (digits_shift q (Zpos d)) by (try apply pos_iter_xO; lia).
      apply andb_true_iff. split; [apply Z.eqb_eq; lia|].
      apply Z.leb_le. change (emax - prec) with 971. lia. }
    split; [now apply binary_round_aux_canonical|exact Hb].
Qed.

Lemma round_half_even_range m e :
  valid_binary (S754_finite false m e) = true ->
  let r := Num.round_half_even (Zpos m) e in
  (0 <= e /\ r = Zpos m * 2 ^ e) \/ (e < 0 /\ 0 <= r < 2 ^ 53).
Proof.
  intros Hv r. destruct (valid_finite _ m e Hv) as (Hm & Hr & Hc).
  subst r. unfold Num.round_half_even.
  destruct (0 <=? e) eqn:He.
  - left. apply Z.leb_le in He. auto.
  - right. apply Z.leb_gt in He. split; [assumption|].
    set (d := 2 ^ (- e)).
    assert (Hd : 2 <= d).
    { subst d. change 2 with (2 ^ 1) at 1. apply Z.pow_le_mono_r; lia. }
    assert (Hq : 0 <= Zpos m / d < 2 ^ 52).
    { split; [apply Z.div_pos; lia|].
      apply Z.div_lt_upper_bound; [lia|].
      change (2 ^ 53) with (2 * 2 ^ 52) in Hm. nia. }
    change (2 ^ 53) with (2 * 2 ^ 52).
    destruct (2 * (Zpos m mod d) <? d); [lia|].
    destruct (d <? 2 * (Zpos m mod d)); [lia|].
    destruct (Z.even (Zpos m / d)); lia.
Qed.

Lemma of_int_finite s q :
  (exists m e, valid_binary (S754_finite s m e) = true
               /\ 0 <= e /\ Zpos q = Zpos m * 2 ^ e)
  \/ Zpos q < 2 ^ 53 ->
  Num.finite (SF2Prim (binary_round prec emax s q 0)).
Proof.
  intros H.
  assert (exists M E, binary_round prec emax s q 0 = S754_finite s M E
                      /\ valid_binary (S754_finite s M E) = true)
    as (M & E & HM & Hv).
  { destruct H as [(m & e & Hv & He & Hq)|Hq].
    - exists m, e. split; [now apply binary_round_exact|exact Hv].
    - now apply binary_round_small. }
  unfold Num.finite. rewrite HM, Prim2SF_SF2Prim by exact Hv. exact I.
Qed.

Lemma float_limit_max m e :
  Zpos m < 2 ^ 53 -> 0 <= e <= 971 -> Zpos m * 2 ^ e < Num.float_limit.
Proof.
  intros Hm He.
  assert (Zpos m * 2 ^ e <= (2 ^ 53 - 1) * 2 ^ 971).
  { apply Z.mul_le_mono_nonneg.
    - lia.
    - lia.
    - apply Z.pow_nonneg; lia.
    - apply Z.pow_le_mono_r; lia. }
  assert ((2 ^ 53 - 1) * 2 ^ 971 < Num.float_limit) by (vm_compute; reflexivity).
  lia.
Qed.

(** The integer [round] returns converts back to a finite float. *)
Lemma of_int_round x z :
  Num.round x = Ok z ->
  exists y, Num.of_int z = Ok y /\ Num.finite y.
Proof.
  unfold Num.round. pose proof (Prim2SF_valid x) as Hv.
  destruct (Prim2SF x) as [s|s| |s m e] eqn:Hx; try discriminate.
  - intros [= <-]. eexists. split; [reflexivity|]. vm_compute. exact I.
  - intros [= <-].
    assert (Hv' : valid_binary (S754_finite false m e) = true) by exact Hv.
    destruct (valid_finite _ m e Hv') as (Hm & Hr & _).
    pose proof (round_half_even_range m e Hv') as Hrange.
    set (r := Num.round_half_even (Zpos m) e) in *.
    assert (Hlim : 0 <= r < Num.float_limit).
    { destruct Hrange as [[He ->]|[He Hr']].
      - split; [|apply float_limit_max; lia].
        apply Z.mul_nonneg_nonneg; [lia|apply Z.pow_nonneg; lia].
      - assert (2 ^ 53 < Num.float_limit) by (vm_compute; reflexivity). lia. }
    unfold Num.of_int.
    assert (Habs : (Z.abs (if s then - r else r) <? Num.float_limit) = true).
    { apply Z.ltb_lt. destruct s; lia. }
    rewrite Habs. eexists. split; [reflexivity|].
    destruct r as [|q|q] eqn:Hq; try lia.
    + destruct s; vm_compute; exact I.
    + assert (Hq' : (exists m0 e0, valid_binary (S754_finite false m0 e0) = true
                        /\ 0 <= e0 /\ Zpos q = Zpos m0 * 2 ^ e0)
                    \/ Zpos q < 2 ^ 53).
      { destruct Hrange as [[He Hr']|[He Hr']]; [left|right; lia].
        exists m, e. auto. }
      destruct s; cbn [Z.opp binary_normalize]; apply of_int_finite.
      * destruct Hq' as [(m0 & e0 & H0 & H1 & H2)|H0]; [left|right; exact H0].
        exists m0, e0. auto.
      * exact Hq'.
Qed.

(** [round(n * 0.95)] is defined for every [n] that [round] returned. *)
Lemma scaled_round_total x z :
  Num.round x = Ok z ->
  exists y n, Num.int_mul_float z 0.95 = Ok y /\ Num.round y = Ok n.
Proof.
  intros Hz. destruct (of_int_round x z Hz) as (f & Hf & Hfin).
  unfold Num.int_mul_float. rewrite Hf. cbn [rbind].
  exists (PrimFloat.mul f 0.95).
  unfold Num.round. rewrite mul_spec.
  pose proof (Prim2SF_valid f) as Hv. unfold Num.finite in Hfin.
  destruct (Prim2SF f) as [s|s| |s m e] eqn:Hp; try contradiction.
  - rewrite Prim2SF_095. cbn. eexists. split; reflexivity.
  - pose proof (SFmul_095_finite s m e Hv) as Hmul.
    destruct (SF64mul (S754_finite s m e) (Prim2SF 0.95)); try contradiction;
      eexists; split; reflexivity.
Qed.

(** ** Rounding on both sides

    Values are compared as integers in units of [2^-1200], see [scaled]. *)


Lemma scaled_shift m k e :
  0 <= k -> -1200 <= e -> scaled (m * 2 ^ k) e = scaled m (e + k).
Proof.
  intros Hk He. unfold scaled.
  replace (e + k + 1200) with (k + (e + 1200)) by lia.
  rewrite (Z.pow_add_r 2 k (e + 1200)) by lia. ring.
Qed.

Lemma scaled_le m n e : -1200 <= e -> m <= n -> scaled m e <= scaled n e.
Proof.
  intros He H. unfold scaled. apply Z.mul_le_mono_nonneg_r; [|exact H].
  apply Z.pow_nonneg. lia.
Qed.

Lemma scaled_le_inv m n e : -1200 <= e -> scaled m e <= scaled n e -> m <= n.
Proof.
  intros He H. unfold scaled in H.
  apply Z.mul_le_mono_pos_r in H; [exact H|]. apply Z.pow_pos_nonneg; lia.
Qed.

Lemma shr_record_m m l : shr_m (shr_record_of_loc m l) = m.
Proof. destruct l as [|[| |]]; reflexivity. Qed.

(** The first shift of a rounding, whatever the location. *)
Lemma shr_fexp_any m e l :
  0 <= m ->
  let e' := Z.max e (fexp prec emax (Zdigits2 m + e)) in
  shr_fexp prec emax m e l = (fst (shr_fexp prec emax m e l), e')
  /\ shr_m (fst (shr_fexp prec emax m e l)) = m / 2 ^ (e' - e).
Proof.
  intros Hm e'. subst e'. unfold shr_fexp, shr.
  set (f := fexp prec emax (Zdigits2 m + e)).
  destruct (f - e) as [|k|k] eqn:Hk; cbn [fst].
  - replace (Z.max e f) with e by lia.
    rewrite Z.sub_diag, Z.div_1_r, shr_record_m. auto.
  - replace (Z.max e f) with (e + Zpos k) by lia.
    rewrite shr_iter_m by (rewrite shr_record_m; assumption).
    rewrite shr_record_m.
    replace (e + Zpos k - e) with (Zpos k) by lia. auto.
  - replace (Z.max e f) with e by lia.
    rewrite Z.sub_diag, Z.div_1_r, shr_record_m. auto.
Qed.

(** Rounding a mantissa of at least 53 bits, away from overflow and
    underflow: the result is a normal float within [2^-52] of every value
    the mantissa and its location can stand for. The true value [X] is
    counted in units of [2^-1200 / c]. *)
Lemma round_near c s p e l X :
  0 < c -> -1200 <= e ->
  let n := Zpos (digits2_pos p) in
  let e1 := e + (n - 53) in
  53 <= n -> -1074 <= e1 <= 970 ->
  c * scaled (Zpos p) e <= X <= c * scaled (Zpos p + 1) e ->
  exists m' e',
    binary_round_aux prec emax s (Zpos p) e l = S754_finite s m' e'
    /\ 2 ^ 52 <= Zpos m' < 2 ^ 53
    /\ e1 <= e' <= e1 + 1
    /\ Z.abs (c * scaled (Zpos m') e' - X) * 2 ^ 52 <= X.
Proof.
  intros Hc He n e1 Hn He1 HX.
  set (k := n - 53). assert (Hk : 0 <= k) by lia.
  assert (He1k : e1 = e + k) by reflexivity.
  destruct (digits_bounds p) as [Hlo Hhi]. fold n in Hlo, Hhi.
  assert (Hp2 : 0 < 2 ^ k) by (apply Z.pow_pos_nonneg; lia).
  set (m1 := Zpos p / 2 ^ k).
  assert (Hdiv : m1 * 2 ^ k <= Zpos p < (m1 + 1) * 2 ^ k).
  { subst m1. pose proof (Z.div_mod (Zpos p) (2 ^ k) ltac:(lia)) as Hd.
    pose proof (Z.mod_pos_bound (Zpos p) (2 ^ k) Hp2) as Hr. nia. }
  assert (Hm1 : 2 ^ 52 <= m1 < 2 ^ 53).
  { subst m1. split.
    - apply Z.div_le_lower_bound; [exact Hp2|].
      rewrite Z.mul_comm, <- Z.pow_add_r by lia.
      now replace (52 + k) with (n - 1) by lia.
    - apply Z.div_lt_upper_bound; [exact Hp2|].
      rewrite <- Z.pow_add_r by lia.
      now replace (k + 53) with n by lia. }
  unfold binary_round_aux.
  destruct (shr_fexp_any (Zpos p) e l ltac:(lia)) as [H1 H1m].
  cbn [Zdigits2] in H1, H1m. fold n in H1, H1m. rewrite fexp64 in H1, H1m.
  replace (Z.max e (Z.max (n + e - 53) (-1074))) with e1 in H1, H1m by lia.
  replace (e1 - e) with k in H1m by lia. fold m1 in H1m.
  rewrite H1. set (r1 := fst (shr_fexp prec emax (Zpos p) e l)) in *.
  set (m2 := round_nearest_even (shr_m r1) (loc_of_shr_record r1)).
  assert (Hm2 : m1 <= m2 <= m1 + 1).
  { subst m2. rewrite <- H1m. apply round_nearest_even_bounds. }
  destruct (shr_fexp_exact m2 e1 ltac:(lia)) as [H2 H2m].
  rewrite H2. set (r3 := fst (shr_fexp prec emax m2 e1 loc_Exact)) in *.
  rewrite fexp64 in H2m.
  set (W := 2 ^ (e1 + 1200)).
  assert (HW : 0 < W) by (apply Z.pow_pos_nonneg; lia).
  assert (HWe : W = 2 ^ k * 2 ^ (e + 1200)).
  { subst W. rewrite <- Z.pow_add_r by lia. f_equal. lia. }
  set (A := c * W). assert (HA : 0 < A) by (subst A; nia).
  assert (HX1 : m1 * A <= X <= m1 * A + A).
  { unfold scaled in HX. subst A. rewrite HWe.
    set (V := 2 ^ (e + 1200)) in *.
    assert (0 < V) by (apply Z.pow_pos_nonneg; lia).
    destruct HX as [HXl HXu]. split.
    - apply Z.le_trans with (2 := HXl).
      replace (m1 * (c * (2 ^ k * V))) with (c * ((m1 * 2 ^ k) * V)) by ring.
      apply Z.mul_le_mono_nonneg_l; [lia|].
      apply Z.mul_le_mono_nonneg_r; lia.
    - apply Z.le_trans with (1 := HXu).
      replace (m1 * (c * (2 ^ k * V)) + c * (2 ^ k * V))
        with (c * (((m1 + 1) * 2 ^ k) * V)) by ring.
      apply Z.mul_le_mono_nonneg_l; [lia|].
      apply Z.mul_le_mono_nonneg_r; lia. }
  assert (HA52 : 2 ^ 52 * A <= m1 * A).
  { apply Z.mul_le_mono_nonneg_r; lia. }
  assert (Hres : forall T, T = m2 * A -> Z.abs (T - X) * 2 ^ 52 <= X).
  { intros T ->.
    assert (m2 * A = m1 * A \/ m2 * A = m1 * A + A) as [-> | ->].
    { assert (m2 = m1 \/ m2 = m1 + 1) as [-> | ->] by lia;
        [left; reflexivity|right; ring]. }
    - lia.
    - lia. }
  destruct (Z.eq_dec m2 (2 ^ 53)) as [Heq|Hne].
  - (* the mantissa came to [2^53]: one more shift *)
    assert (Hd : Zdigits2 m2 = 54).
    { rewrite Heq. reflexivity. }
    rewrite Hd in H2m.
    replace (Z.max e1 (Z.max (54 + e1 - 53) (-1074))) with (e1 + 1)
      in H2m by lia.
    replace (e1 + 1 - e1) with 1 in H2m by lia.
    rewrite Heq in H2m. change (2 ^ 53 / 2 ^ 1) with (2 ^ 52) in H2m.
    rewrite H2m. change (2 ^ 52) with (Zpos (2 ^ 52)%positive) at 1.
    cbv iota. rewrite Hd, fexp64.
    replace (Z.max e1 (Z.max (54 + e1 - 53) (-1074))) with (e1 + 1) by lia.
    replace (e1 + 1 <=? emax - prec) with true
      by (symmetry; apply Z.leb_le; change (emax - prec) with 971; lia).
    exists (2 ^ 52)%positive, (e1 + 1).
    split; [reflexivity|]. split; [split; reflexivity|]. split; [lia|].
    apply Hres. unfold scaled. rewrite Heq. subst A W.
    replace (e1 + 1 + 1200) with (1 + (e1 + 1200)) by lia.
    rewrite Z.pow_add_r by lia.
    change (Zpos (2 ^ 52)%positive) with (2 ^ 52).
    change (2 ^ 53) with (2 ^ 52 * 2 ^ 1). ring.
  - assert (Hd : Zdigits2 m2 = 53).
    { destruct m2 as [|q|q]; try lia. cbn [Zdigits2].
      apply digits_unique. change (53 - 1) with 52. lia. }
    rewrite Hd in H2m.
    replace (Z.max e1 (Z.max (53 + e1 - 53) (-1074))) with e1 in H2m by lia.
    rewrite Z.sub_diag, Z.div_1_r in H2m.
    rewrite H2m, Hd, fexp64.
    replace (Z.max e1 (Z.max (53 + e1 - 53) (-1074))) with e1 by lia.
    destruct m2 as [|q|q]; try lia.
    replace (e1 <=? emax - prec) with true
      by (symmetry; apply Z.leb_le; change (emax - prec) with 971; lia).
    exists q, e1. split; [reflexivity|]. split; [lia|]. split; [lia|].
    apply Hres. unfold scaled. subst A W. ring.
Qed.

(** The product of two normal floats, away from overflow and underflow. *)
Lemma mul_near M E Mc Ec :
  2 ^ 52 <= Zpos M < 2 ^ 53 -> 2 ^ 52 <= Zpos Mc < 2 ^ 53 ->
  -1126 <= E + Ec <= 917 ->
  exists m' e',
    SFmul prec emax (S754_finite false M E) (S754_finite false Mc Ec)
    = S754_finite false m' e'
    /\ 2 ^ 52 <= Zpos m' < 2 ^ 53
    /\ E + Ec + 52 <= e' <= E + Ec + 54
    /\ Z.abs (scaled (Zpos m') e' - scaled (Zpos M * Zpos Mc) (E + Ec))
       * 2 ^ 52
       <= scaled (Zpos M * Zpos Mc) (E + Ec).
Proof.
  intros HM HMc HE. unfold SFmul. cbn [xorb].
  set (P := (M * Mc)%positive).
  assert (HP : Zpos P = Zpos M * Zpos Mc) by apply Pos2Z.inj_mul.
  assert (HPb : 2 ^ 104 <= Zpos P < 2 ^ 106).
  { rewrite HP. change (2 ^ 104) with (2 ^ 52 * 2 ^ 52).
    change (2 ^ 106) with (2 ^ 53 * 2 ^ 53). nia. }
  assert (Hn : 105 <= Zpos (digits2_pos P) <= 106).
  { split.
    - destruct (digits_bounds P) as [_ Hhi].
      destruct (Z.le_gt_cases 105 (Zpos (digits2_pos P))) as [|Hlt];
        [assumption|].
      assert (2 ^ Zpos (digits2_pos P) <= 2 ^ 104)
        by (apply Z.pow_le_mono_r; lia).
      lia.
    - apply digits_le. lia. }
  destruct (round_near 1 false P (E + Ec) loc_Exact
              (scaled (Zpos P) (E + Ec)))
    as (m' & e' & Hr & Hm' & He' & Hb).
  - lia.
  - lia.
  - lia.
  - lia.
  - rewrite !Z.mul_1_l. split; [lia|]. apply scaled_le; lia.
  - exists m', e'. rewrite Hr. split; [reflexivity|]. split; [exact Hm'|].
    split; [lia|]. rewrite Z.mul_1_l, HP in Hb. exact Hb.
Qed.

Lemma div_eucl_div_mod a b : Z.div_eucl a b = (a / b, a mod b).
Proof. unfold Z.div, Z.modulo. destruct (Z.div_eucl a b). reflexivity. Qed.

(** The quotient of a normal float by 1000, away from underflow. *)
Lemma div_1000_near Mg Eg :
  2 ^ 52 <= Zpos Mg < 2 ^ 53 -> -1064 <= Eg <= 971 ->
  exists m' e',
    SFdiv prec emax (S754_finite false Mg Eg)
      (S754_finite false 8796093022208000 (-43))
    = S754_finite false m' e'
    /\ Z.abs (1000 * scaled (Zpos m') e' - scaled (Zpos Mg) Eg) * 2 ^ 52
       <= scaled (Zpos Mg) Eg.
Proof.
  intros HM HE. unfold SFdiv, SFdiv_core_binary. cbn [xorb Zdigits2].
  assert (Hd1 : Zpos (digits2_pos Mg) = 53)
    by (apply digits_unique; change (53 - 1) with 52; lia).
  assert (Hd2 : Zpos (digits2_pos 8796093022208000) = 53) by reflexivity.
  rewrite Hd1, Hd2, fexp64.
  replace (Z.min (Z.max (53 + Eg - (53 + -43) - 53) (-1074)) (Eg - -43))
    with (Eg - 10) by lia.
  replace (Eg - -43 - (Eg - 10)) with 53 by lia.
  rewrite Z.shiftl_mul_pow2 by lia. rewrite div_eucl_div_mod.
  set (q := Zpos Mg * 2 ^ 53 / 8796093022208000).
  assert (Hq : 8796093022208000 * q <= Zpos Mg * 2 ^ 53
               < 8796093022208000 * (q + 1)).
  { subst q.
    pose proof (Z.div_mod (Zpos Mg * 2 ^ 53) 8796093022208000 ltac:(lia)).
    pose proof (Z.mod_pos_bound (Zpos Mg * 2 ^ 53) 8796093022208000
                  ltac:(lia)).
    lia. }
  assert (Hq' : 1000 * q <= 1024 * Zpos Mg < 1000 * (q + 1)).
  { change (2 ^ 53) with (1024 * 8796093022208) in Hq. lia. }
  assert (Hqb : 2 ^ 52 <= q < 2 ^ 54).
  { change (2 ^ 54) with (2 * 2 ^ 53). lia. }
  destruct q as [|pq|pq] eqn:Eq; try lia.
  assert (Hn : 53 <= Zpos (digits2_pos pq) <= 54).
  { split.
    - destruct (digits_bounds pq) as [_ Hhi].
      destruct (Z.le_gt_cases 53 (Zpos (digits2_pos pq))) as [|Hlt];
        [assumption|].
      assert (2 ^ Zpos (digits2_pos pq) <= 2 ^ 52)
        by (apply Z.pow_le_mono_r; lia).
      lia.
    - apply digits_le. lia. }
  destruct (round_near 1000 false pq (Eg - 10)
              (new_location 8796093022208000
                 (Zpos Mg * 2 ^ 53 mod 8796093022208000))
              (scaled (Zpos Mg) Eg))
    as (m' & e' & Hr & _ & _ & Hb).
  - lia.
  - lia.
  - lia.
  - lia.
  - unfold scaled.
    replace (Eg + 1200) with (10 + (Eg - 10 + 1200)) by lia.
    rewrite (Z.pow_add_r 2 10 (Eg - 10 + 1200)) by lia.
    change (2 ^ 10) with 1024.
    set (V := 2 ^ (Eg - 10 + 1200)).
    assert (0 < V) by (apply Z.pow_pos_nonneg; lia).
    split.
    + replace (1000 * (Zpos pq * V)) with ((1000 * Zpos pq) * V) by ring.
      replace (Zpos Mg * (1024 * V)) with ((1024 * Zpos Mg) * V) by ring.
      apply Z.mul_le_mono_nonneg_r; lia.
    + replace (1000 * ((Zpos pq + 1) * V))
        with ((1000 * (Zpos pq + 1)) * V) by ring.
      replace (Zpos Mg * (1024 * V)) with ((1024 * Zpos Mg) * V) by ring.
      apply Z.mul_le_mono_nonneg_r; lia.
  - exists m', e'. rewrite Hr. split; [reflexivity|exact Hb].
Qed.

Lemma Prim2SF_231 : Prim2SF 2.31 = S754_finite false mantissa_231 (-51).
Proof. vm_compute. reflexivity. Qed.

Lemma Prim2SF_2310 :
  Prim2SF 2310 = S754_finite false 5079743720325120 (-41).
Proof. vm_compute. reflexivity. Qed.

Lemma Prim2SF_1000 :
  Prim2SF 1000 = S754_finite false 8796093022208000 (-43).
Proof. vm_compute. reflexivity. Qed.

Lemma of_int_1000 : Num.of_int 1000 = Ok 1000%float.
Proof. vm_compute. reflexivity. Qed.

(** For an ordinary distance the kilograms of the fallback and its grams
    divided by 1000 are two finite floats that differ by no more than
    [2^-49] of the kilograms. *)
Lemma fallback_near d :
  ordinary d ->
  exists q,
    Num.truediv (carbon_g (fallback_emissions d)) 1000 = Ok q
    /\ Num.finite q
    /\ Num.finite (carbon_kg (fallback_emissions d))
    /\ 0 < units (carbon_kg (fallback_emissions d))
    /\ Z.abs (units q - units (carbon_kg (fallback_emissions d))) * 2 ^ 49
       <= units (carbon_kg (fallback_emissions d)).
Proof.
  intros (M & E & Hd & HM & HE).
  pose proof (Prim2SF_valid d) as Hv. rewrite Hd in Hv.
  destruct (valid_finite false M E Hv) as (HM' & _ & _).
  unfold fallback_emissions. cbn [carbon_g carbon_kg Num.truediv].
  rewrite of_int_1000. cbn [rbind].
  exists (PrimFloat.div (PrimFloat.mul d 2310) 1000).
  split; [reflexivity|].
  (* the grams *)
  destruct (mul_near M E 5079743720325120 (-41)) as
    (mg & eg & Hg & Hmg & Heg & Hgb);
    [lia|split; [vm_compute; discriminate|reflexivity]|lia|].
  assert (Hgp : Prim2SF (PrimFloat.mul d 2310) = S754_finite false mg eg).
  { rewrite mul_spec, Hd, Prim2SF_2310. exact Hg. }
  (* the grams over 1000 *)
  destruct (div_1000_near mg eg Hmg ltac:(lia)) as (mq & eq & Hq & Hqb).
  assert (Hqp : Prim2SF (PrimFloat.div (PrimFloat.mul d 2310) 1000)
                = S754_finite false mq eq).
  { rewrite div_spec, Hgp, Prim2SF_1000. exact Hq. }
  (* the kilograms *)
  destruct (mul_near M E mantissa_231 (-51)) as
    (mk & ek & Hk & Hmk & Hek & Hkb);
    [lia|split; [vm_compute; discriminate|reflexivity]|lia|].
  assert (Hkp : Prim2SF (PrimFloat.mul d 2.31) = S754_finite false mk ek).
  { rewrite mul_spec, Hd, Prim2SF_231. exact Hk. }
  unfold Num.finite, units. rewrite Hqp, Hkp.
  split; [exact I|]. split; [exact I|].
  (* the values, in units of [2^-1200] *)
  set (D := scaled (Zpos M) E).
  assert (HD : 0 < D).
  { subst D. unfold scaled. apply Z.mul_pos_pos; [lia|].
    apply Z.pow_pos_nonneg; lia. }
  assert (HG : scaled (Zpos M * 5079743720325120) (E + -41) = 2310 * D).
  { change 5079743720325120 with (2310 * 2 ^ 41).
    replace (Zpos M * (2310 * 2 ^ 41)) with ((2310 * Zpos M) * 2 ^ 41)
      by ring.
    rewrite scaled_shift by lia.
    replace (E + -41 + 41) with E by lia. subst D. unfold scaled. ring. }
  assert (HK : 2 ^ 51 * scaled (Zpos M * Zpos mantissa_231) (E + -51)
               = Zpos mantissa_231 * D).
  { replace (2 ^ 51 * scaled (Zpos M * Zpos mantissa_231) (E + -51))
      with (scaled ((Zpos M * Zpos mantissa_231) * 2 ^ 51) (E + -51))
      by (unfold scaled; ring).
    rewrite scaled_shift by lia.
    replace (E + -51 + 51) with E by lia. subst D. unfold scaled. ring. }
  rewrite HG in Hgb.
  set (G := scaled (Zpos mg) eg) in *.
  set (Q := scaled (Zpos mq) eq) in *.
  set (K := scaled (Zpos mk) ek) in *.
  set (Xk := scaled (Zpos M * Zpos mantissa_231) (E + -51)) in *.
  clearbody G Q K Xk D.
  unfold mantissa_231 in HK.
  change (2 ^ 51) with 2251799813685248 in HK.
  change (2 ^ 52) with 4503599627370496 in Hgb, Hqb, Hkb.
  change (2 ^ 49) with 562949953421312.
  clear - HD HK Hgb Hqb Hkb.
  lia.
Qed.

(** * Facts on the pipeline *)

Lemma read_route_duration payload rd :
  read_route payload = Ok rd ->
  exists minutes, Num.round minutes = Ok (duration_minutes rd).
Proof.
  unfold read_route. intros H. repeat bind_ok H.
  injection H as <-. cbn [duration_minutes]. eauto.
Qed.

Lemma read_route_no_emissions payload rd :
  read_route payload = Ok rd -> emissions rd = None.
Proof.
  unfold read_route. intros H. repeat bind_ok H.
  injection H as <-. reflexivity.
Qed.

Lemma read_route_coordinates payload rd :
  read_route payload = Ok rd ->
  exists points,
    feature_coordinates payload = Ok points
    /\ comprehension swap_pair points = Ok (coordinates rd).
Proof.
  unfold read_route. intros H. repeat bind_ok H.
  injection H as <-. cbn [coordinates]. unfold feature_coordinates.
  rewrite E. cbn [rbind]. rewrite E0. cbn [rbind]. rewrite E1. cbn [rbind].
  rewrite E2. cbn [rbind]. eauto.
Qed.

Lemma comprehension_swap points : forall path,
  comprehension swap_pair points = Ok path ->
  Forall2 lat_lon points path.
Proof.
  induction points as [|c points IH]; cbn [comprehension]; intros path H.
  - injection H as <-. constructor.
  - repeat bind_ok H. injection H as <-. constructor; [|now apply IH].
    unfold swap_pair in E. repeat bind_ok E. injection E as <-.
    unfold lat_lon. eauto.
Qed.

Lemma simulate_optimized_route_resolved payload rd em :
  read_route payload = Ok rd ->
  exists scaled minutes,
    Num.int_mul_float (duration_minutes rd) 0.95 = Ok scaled
    /\ Num.round scaled = Ok minutes
    /\ simulate_optimized_route (with_emissions rd em)
       = Ok {| optimized_distance_km := distance_km rd;
               optimized_duration_minutes := minutes;
               optimized_carbon_kg := PrimFloat.mul (carbon_kg em) 0.9 |}.
Proof.
  intros H. destruct (read_route_duration payload rd H) as (x & Hx).
  destruct (scaled_round_total x _ Hx) as (scaled & minutes & Hs & Hm).
  exists scaled, minutes. repeat split; try assumption.
  unfold simulate_optimized_route. cbn [with_emissions duration_minutes
    distance_km emissions].
  rewrite Hs. cbn [rbind]. rewrite Hm. reflexivity.
Qed.

Section Facts.

Context {World : Type}.
Variable http : http_call -> World -> result http_response * World.
Variable chat : pyval -> str -> World -> result pyval * World.
Variable B : builtins.

Lemma requests_log c s :
  log (snd (requests http c s)) = log s ++ [Requests c].
Proof. unfold requests. destruct (http c (world s)). reflexivity. Qed.

Lemma requests_reply c s :
  fst (requests http c s) = fst (http c (world s)).
Proof. unfold requests. destruct (http c (world s)). reflexivity. Qed.

(** Each of the four single-call adapters makes its call first and does
    nothing else to the state. *)

Lemma get_energy_data_state key s :
  snd (get_energy_data http key s)
  = snd (requests http (GetPetroleumPrices key) s).
Proof.
  unfold get_energy_data, try_except, bind, lift, ret.
  destruct (requests http (GetPetroleumPrices key) s) as [[r|e] s'];
    [|reflexivity].
  destruct (status_code r =? 200); [|reflexivity].
  repeat (cbv beta iota; case_result); reflexivity.
Qed.

Lemma get_weather_data_state location key s :
  snd (get_weather_data http location key s)
  = snd (requests http (GetWeather location key) s).
Proof.
  unfold get_weather_data, try_except, bind, lift, ret.
  destruct (requests http (GetWeather location key) s) as [[r|e] s'];
    [|reflexivity].
  destruct (status_code r =? 200); [|reflexivity].
  repeat (cbv beta iota; case_result); reflexivity.
Qed.

Lemma calculate_emissions_state distance key s :
  snd (calculate_emissions http distance key s)
  = snd (requests http (PostEstimate key distance) s).
Proof.
  unfold calculate_emissions, try_except, bind, lift, ret.
  destruct (requests http (PostEstimate key distance) s) as [[r|e] s'];
    [|reflexivity].
  destruct (status_code r =? 201); [|reflexivity].
  repeat (cbv beta iota; case_result); reflexivity.
Qed.

Lemma get_openai_recommendation_run prompt key s :
  get_openai_recommendation chat B prompt key s
  = (match rbind (fst (chat key prompt (world s))) (read_completion B) with
     | Ok text => text
     | Raise _ => lit "Failed to generate recommendation."
     end,
     {| world := snd (chat key prompt (world s));
        log := log s ++ [ChatCompletionCreate key prompt] |}).
Proof.
  unfold get_openai_recommendation, try_except, bind, lift,
    ChatCompletion_create.
  destruct (chat key prompt (world s)) as [[r|e] w]; cbn [fst snd rbind];
    [|reflexivity].
  destruct (read_completion B r); reflexivity.
Qed.

(** The route adapter, outcome by outcome. *)
Lemma get_eco_route_run origin destination key s :
  get_eco_route http origin destination key s
  = match swap_pair origin, swap_pair destination with
    | Ok formatted_origin, Ok formatted_destination =>
        let c := PostDirections key
                   (PList [formatted_origin; formatted_destination]) in
        (match fst (requests http c s) with
         | Ok response =>
             if status_code response =? 200 then
               match json response with
               | Ok payload =>
                   match has_features payload with
                   | Ok true =>
                       match read_route payload with
                       | Ok route => Some route
                       | Raise _ => None
                       end
                   | _ => None
                   end
               | Raise _ => None
               end
             else None
         | Raise _ => None
         end, snd (requests http c s))
    | _, _ => (None, s)
    end.
Proof.
  unfold get_eco_route, try_except, bind, lift, ret.
  destruct (swap_pair origin) as [fo|]; [|reflexivity].
  destruct (swap_pair destination) as [fd|]; [|reflexivity].
  cbv beta iota zeta.
  destruct (requests http _ s) as [[r|e] s']; cbn [fst snd]; [|reflexivity].
  destruct (status_code r =? 200); cbn [negb]; [|reflexivity].
  destruct (json r) as [payload|]; [|reflexivity].
  destruct (has_features payload) as [[|]|]; try reflexivity.
  destruct (read_route payload); reflexivity.
Qed.

Lemma get_eco_route_found origin destination key s rd s1 :
  get_eco_route http origin destination key s = (Some rd, s1) ->
  exists formatted_origin formatted_destination response payload,
    swap_pair origin = Ok formatted_origin
    /\ swap_pair destination = Ok formatted_destination
    /\ requests http (PostDirections key
                        (PList [formatted_origin; formatted_destination])) s
       = (Ok response, s1)
    /\ status_code response = 200
    /\ json response = Ok payload
    /\ has_features payload = Ok true
    /\ read_route payload = Ok rd.
Proof.
  rewrite get_eco_route_run.
  destruct (swap_pair origin) as [fo|]; [|discriminate].
  destruct (swap_pair destination) as [fd|]; [|discriminate].
  cbv zeta.
  destruct (requests http _ s) as [[r|e] s'] eqn:Hr; cbn [fst snd];
    [|discriminate].
  destruct (status_code r =? 200) eqn:Hs; [|discriminate].
  destruct (json r) as [payload|] eqn:Hj; [|discriminate].
  destruct (has_features payload) as [[|]|] eqn:Hf; try discriminate.
  destruct (read_route payload) eqn:Hp; [|discriminate].
  intros [= <- <-]. apply Z.eqb_eq in Hs.
  exists fo, fd, r, payload. auto 10.
Qed.

Lemma get_eco_route_log origin destination key s :
  exists calls,
    log (snd (get_eco_route http origin destination key s)) = log s ++ calls
    /\ (calls = []
        \/ exists coordinates,
             calls = [Requests (PostDirections key coordinates)]).
Proof.
  rewrite get_eco_route_run.
  destruct (swap_pair origin) as [fo|];
    [|exists []; rewrite app_nil_r; auto].
  destruct (swap_pair destination) as [fd|];
    [|exists []; rewrite app_nil_r; auto].
  cbv zeta. cbn [snd]. rewrite requests_log. eexists. split; [reflexivity|].
  right. eexists. reflexivity.
Qed.

(** The orchestrator, exit by exit. *)

Lemma run_bad_request data e s :
  read_inputs data = Raise e ->
  get_route_recommendation http chat B data s
  = (error_response 500 (lit "Internal server error: " ++ exn_str B e), s).
Proof.
  intros H. unfold get_route_recommendation, try_except, bind, lift.
  rewrite H. reflexivity.
Qed.

Lemma run_keys_missing data i s :
  read_inputs data = Ok i -> keys_present i = false ->
  get_route_recommendation http chat B data s
  = (error_response 400 (lit "All five API keys are required."), s).
Proof.
  intros H Hk. unfold get_route_recommendation, try_except, bind, lift, ret.
  rewrite H. cbv beta iota. rewrite Hk. reflexivity.
Qed.

Lemma run_coords_missing data i s :
  read_inputs data = Ok i -> keys_present i = true ->
  coords_present i = false ->
  get_route_recommendation http chat B data s
  = (error_response 400
       (lit "Both origin_coords and destination_coords must be provided."),
     s).
Proof.
  intros H Hk Hc.
  unfold get_route_recommendation, try_except, bind, lift, ret.
  rewrite H. cbv beta iota. rewrite Hk, Hc. reflexivity.
Qed.

Section Validated.

Variables (data : pyval) (i : inputs) (s : state World).
Hypothesis valid : passes_validation data i.

Lemma run_route_failed s1 :
  get_eco_route http (origin_coords i) (destination_coords i)
    (OPENROUTESERVICE_API_KEY i) s = (None, s1) ->
  get_route_recommendation http chat B data s
  = (error_response 400
       (lit "Unable to calculate route with provided coordinates."), s1).
Proof.
  destruct valid as (Hi & Hk & Hc). intros Hr.
  unfold get_route_recommendation, try_except, bind, lift, ret, run.
  rewrite Hi. cbv beta iota. rewrite Hk, Hc. cbn [negb].
  rewrite Hr. reflexivity.
Qed.

Variables (rd : RouteResult) (s1 : state World).
Hypothesis route_found :
  get_eco_route http (origin_coords i) (destination_coords i)
    (OPENROUTESERVICE_API_KEY i) s = (Some rd, s1).

Lemma run_energy_failed s2 :
  get_energy_data http (EIA_API_KEY i) s1 = (None, s2) ->
  get_route_recommendation http chat B data s
  = (error_response 400
       (lit "Unable to retrieve energy data from EIA API."), s2).
Proof.
  destruct valid as (Hi & Hk & Hc). intros He.
  unfold get_route_recommendation, try_except, bind, lift, ret, run.
  rewrite Hi. cbv beta iota. rewrite Hk, Hc. cbn [negb].
  rewrite route_found. cbv beta iota. rewrite He. reflexivity.
Qed.

Variables (en : EnergyPrice) (s2 : state World).
Hypothesis energy_found :
  get_energy_data http (EIA_API_KEY i) s1 = (Some en, s2).

Variables (ow dw : option WeatherConditions) (s3 s4 : state World).
Hypothesis origin_weather :
  get_weather_data http (lit "San Francisco") (WEATHER_API_KEY i) s2
  = (ow, s3).
Hypothesis destination_weather :
  get_weather_data http (lit "Los Angeles") (WEATHER_API_KEY i) s3
  = (dw, s4).

Variables (found : option EmissionsResult) (s5 : state World).
Hypothesis emissions_outcome :
  calculate_emissions http (distance_km rd) (CARBON_INTERFACE_API_KEY i) s4
  = (found, s5).

(** From the emissions on, the run is decided by the prompt: built, the
    request ends in a 200 whatever the recommendation adapter does;
    not built, in the 500 of the outermost handler. *)
Lemma run_after_emissions :
  let carbon := or_default found (fallback_emissions (distance_km rd)) in
  let route_data := with_emissions rd carbon in
  exists scaled minutes,
    Num.int_mul_float (duration_minutes rd) 0.95 = Ok scaled
    /\ Num.round scaled = Ok minutes
    /\ get_route_recommendation http chat B data s
       = match generate_openai_prompt B route_data en carbon
                 (or_default ow default_weather_origin)
                 (or_default dw default_weather_destination)
                 (vehicle i) with
         | Ok prompt =>
             let (recommendation, s6) :=
               get_openai_recommendation chat B prompt (OPENAI_API_KEY i)
                 s5 in
             ({| status := 200;
                 payload :=
                   BodySuccess (coordinates rd) (directions rd)
                     {| original :=
                          {| cmp_distance_km := distance_km rd;
                             cmp_duration_minutes := duration_minutes rd;
                             carbon_emissions_kg := carbon_kg carbon |};
                        optimized :=
                          {| cmp_distance_km := distance_km rd;
                             cmp_duration_minutes := minutes;
                             carbon_emissions_kg :=
                               PrimFloat.mul (carbon_kg carbon) 0.9 |} |}
                     recommendation |}, s6)
         | Raise e =>
             (error_response 500
                (lit "Internal server error: " ++ exn_str B e), s5)
         end.
Proof.
  intros carbon route_data.
  destruct (get_eco_route_found _ _ _ _ _ _ route_found)
    as (fo & fd & r & payload & _ & _ & _ & _ & _ & _ & Hread).
  destruct (simulate_optimized_route_resolved payload rd carbon Hread)
    as (scaled & minutes & Hs & Hm & Hsim).
  exists scaled, minutes. split; [exact Hs|]. split; [exact Hm|].
  destruct valid as (Hi & Hk & Hc).
  unfold get_route_recommendation, try_except, bind, lift, ret, run.
  rewrite Hi. cbv beta iota. rewrite Hk, Hc. cbn [negb].
  rewrite route_found. cbv beta iota. rewrite energy_found. cbv beta iota.
  rewrite origin_weather. cbv beta iota.
  rewrite destination_weather. cbv beta iota.
  rewrite emissions_outcome. cbv beta iota zeta.
  fold carbon. rewrite Hsim. subst route_data.
  destruct (generate_openai_prompt B (with_emissions rd carbon) en carbon
              _ _ _);
    [|reflexivity].
  destruct (get_openai_recommendation chat B a (OPENAI_API_KEY i) s5).
  reflexivity.
Qed.

Lemma run_log_to_emissions :
  exists calls,
    log s5 = log s ++ calls
    /\ map adapter_of calls
       = [RouteAdapter; EnergyPriceAdapter; WeatherAdapter;
          WeatherAdapter; EmissionsAdapter]
    /\ weather_queries calls = [lit "San Francisco"; lit "Los Angeles"].
Proof.
  destruct (get_eco_route_found _ _ _ _ _ _ route_found)
    as (fo & fd & r & payload & _ & _ & Hreq & _).
  pose proof (requests_log (PostDirections (OPENROUTESERVICE_API_KEY i)
                              (PList [fo; fd])) s) as H1.
  rewrite Hreq in H1. cbn [snd] in H1.
  pose proof (get_energy_data_state (EIA_API_KEY i) s1) as H2.
  rewrite energy_found in H2. cbn [snd] in H2.
  pose proof (get_weather_data_state (lit "San Francisco")
                (WEATHER_API_KEY i) s2) as H3.
  rewrite origin_weather in H3. cbn [snd] in H3.
  pose proof (get_weather_data_state (lit "Los Angeles")
                (WEATHER_API_KEY i) s3) as H4.
  rewrite destination_weather in H4. cbn [snd] in H4.
  pose proof (calculate_emissions_state (distance_km rd)
                (CARBON_INTERFACE_API_KEY i) s4) as H5.
  rewrite emissions_outcome in H5. cbn [snd] in H5.
  rewrite H5, requests_log, H4, requests_log, H3, requests_log, H2,
    requests_log, H1.
  rewrite <- !app_assoc. cbn [app]. eexists. split; [reflexivity|].
  split; reflexivity.
Qed.

End Validated.

End Facts.

(** * The properties of the specification *)

Lemma Ok_inj {A} (a b : A) : Ok a = Ok b -> a = b.
Proof. now intros [= ->]. Qed.

Lemma get_object d k default :
  Py.get (PDict d) k default
  = Ok (match Py.lookup k d with Some x => x | None => default end).
Proof. unfold Py.get. destruct (Py.lookup k d); reflexivity. Qed.

Lemma truthy_field d k :
  Py.truthy (match Py.lookup k d with Some x => x | None => PNone end)
  = negb (missing d k).
Proof.
  unfold missing. destruct (Py.lookup k d); [|reflexivity].
  now rewrite negb_involutive.
Qed.

(** What lines 198 to 215 make of a body that is an object. *)
Lemma read_inputs_object fields keys :
  credentials fields keys ->
  exists i,
    read_inputs (PDict fields) = Ok i
    /\ keys_present i = negb (existsb (missing keys) credential_names)
    /\ coords_present i
       = negb (missing fields (lit "origin_coords"))
         && negb (missing fields (lit "destination_coords")).
Proof.
  unfold credentials, read_inputs. intros Hk.
  rewrite !get_object. cbn [rbind].
  assert (Hkeys : match Py.lookup (lit "api_keys") fields with
                  | Some x => x
                  | None => PDict []
                  end = PDict keys).
  { destruct (Py.lookup (lit "api_keys") fields); congruence. }
  rewrite Hkeys, !get_object. cbn [rbind].
  eexists. split; [reflexivity|].
  unfold keys_present, coords_present, credential_names.
  cbn [forallb existsb EIA_API_KEY CARBON_INTERFACE_API_KEY WEATHER_API_KEY
       OPENROUTESERVICE_API_KEY OPENAI_API_KEY origin_coords
       destination_coords].
  rewrite !truthy_field, !negb_orb. cbn [negb]. rewrite !andb_true_r.
  split; reflexivity.
Qed.



Section Claims.

Context {World : Type}.
Variable http : http_call -> World -> result http_response * World.
Variable chat : pyval -> str -> World -> result pyval * World.
Variable B : builtins.

Lemma complete_vehicle_prompt rd en carbon wo wd v :
  complete_vehicle v ->
  exists prompt, generate_openai_prompt B rd en carbon wo wd v = Ok prompt.
Proof.
  intros (fields & -> & Hk). unfold generate_openai_prompt, Py.getitem.
  destruct (Py.lookup (lit "type") fields) eqn:H1;
    [|exfalso; apply (Hk (lit "type")); cbn; auto].
  destruct (Py.lookup (lit "efficiency") fields) eqn:H2;
    [|exfalso; apply (Hk (lit "efficiency")); cbn; auto].
  destruct (Py.lookup (lit "fuel_type") fields) eqn:H3;
    [|exfalso; apply (Hk (lit "fuel_type")); cbn; auto].
  cbn [rbind]. eauto.
Qed.

Lemma incomplete_vehicle_prompt rd en carbon wo wd v :
  incomplete_vehicle v ->
  exists e, generate_openai_prompt B rd en carbon wo wd v = Raise e.
Proof.
  unfold generate_openai_prompt.
  intros [->|(fields & k & -> & Hin & Hk)]; [cbn; eauto|].
  unfold Py.getitem.
  destruct (Py.lookup (lit "type") fields) eqn:H1; [|cbn; eauto].
  destruct (Py.lookup (lit "efficiency") fields) eqn:H2; [|cbn; eauto].
  destruct (Py.lookup (lit "fuel_type") fields) eqn:H3; [|cbn; eauto].
  exfalso. cbn [In] in Hin.
  destruct Hin as [<-|[<-|[<-|[]]]]; congruence.
Qed.

(** C1. Fatal-abort propagation. For a request that passed validation:
    when the route adapter returns nothing, the answer is the 400 of the
    route and the only call made, if any, is the one to the routing
    service; when the route is found and the energy-price adapter returns
    nothing, the answer is the 400 of the energy price and the calls made
    are the routing one and the price one, so that weather, emissions,
    the optimized route, the recommendation and the assembly are all
    skipped. *)
Theorem fatal_abort_propagation data i s :
  passes_validation data i ->
  (forall s1,
      get_eco_route http (origin_coords i) (destination_coords i)
        (OPENROUTESERVICE_API_KEY i) s = (None, s1) ->
      get_route_recommendation http chat B data s
      = ({| status := 400;
            payload := BodyError
              (lit "Unable to calculate route with provided coordinates.") |},
         s1)
      /\ exists calls,
           log s1 = log s ++ calls
           /\ (map adapter_of calls = []
               \/ map adapter_of calls = [RouteAdapter]))
  /\ (forall rd s1 s2,
        get_eco_route http (origin_coords i) (destination_coords i)
          (OPENROUTESERVICE_API_KEY i) s = (Some rd, s1) ->
        get_energy_data http (EIA_API_KEY i) s1 = (None, s2) ->
        get_route_recommendation http chat B data s
        = ({| status := 400;
              payload := BodyError
                (lit "Unable to retrieve energy data from EIA API.") |},
           s2)
        /\ exists calls,
             log s2 = log s ++ calls
             /\ map adapter_of calls = [RouteAdapter; EnergyPriceAdapter]).
Proof.
  intros Hv. split.
  - intros s1 Hr. split; [now apply run_route_failed with (i := i)|].
    pose proof (get_eco_route_log http (origin_coords i)
                  (destination_coords i) (OPENROUTESERVICE_API_KEY i) s)
      as Hlog.
    rewrite Hr in Hlog. destruct Hlog as (calls & Hlog & Hcalls).
    exists calls. split; [exact Hlog|].
    destruct Hcalls as [->|(c & ->)]; [left|right]; reflexivity.
  - intros rd s1 s2 Hr He.
    split; [now apply run_energy_failed with (i := i) (rd := rd) (s1 := s1)|].
    destruct (get_eco_route_found http _ _ _ _ _ _ Hr)
      as (fo & fd & r & payload & _ & _ & Hreq & _).
    pose proof (requests_log http (PostDirections (OPENROUTESERVICE_API_KEY i)
                                     (PList [fo; fd])) s) as H1.
    rewrite Hreq in H1. cbn [snd] in H1.
    pose proof (get_energy_data_state http (EIA_API_KEY i) s1) as H2.
    rewrite He in H2. cbn [snd] in H2.
    rewrite H2, requests_log, H1, <- app_assoc. cbn [app].
    eexists. split; reflexivity.
Qed.

(** C2. Weather failures are absorbed, location by location. In a run that
    found the route and the energy price, the conditions handed on are,
    for each location, the fetched ones when the lookup returned them and
    otherwise the defaults: 20, "clear", 5 for the origin and 25, "clear",
    5 for the destination. The run goes on with them: the prompt is built
    from exactly these conditions and given to the recommendation adapter,
    and the answer is a 200; the only other end is the 500 of a prompt
    that cannot be built, which the weather has no part in. *)
Theorem weather_failure_substituted data s i rd en ow dw found s5 :
  gathers http data s i rd en ow dw found s5 ->
  let weather_origin :=
    match ow with
    | Some conditions => conditions
    | None => {| temperature := PInt 20;
                 weather := PStr (lit "clear");
                 wind_speed := PInt 5 |}
    end in
  let weather_destination :=
    match dw with
    | Some conditions => conditions
    | None => {| temperature := PInt 25;
                 weather := PStr (lit "clear");
                 wind_speed := PInt 5 |}
    end in
  let carbon := or_default found (fallback_emissions (distance_km rd)) in
  match generate_openai_prompt B (with_emissions rd carbon) en carbon
          weather_origin weather_destination (vehicle i) with
  | Ok prompt =>
      exists comparison,
        get_route_recommendation http chat B data s
        = let (recommendation, s6) :=
            get_openai_recommendation chat B prompt (OPENAI_API_KEY i) s5 in
          ({| status := 200;
              payload := BodySuccess (coordinates rd) (directions rd)
                           comparison recommendation |}, s6)
  | Raise e =>
      get_route_recommendation http chat B data s
      = ({| status := 500;
            payload := BodyError
              (lit "Internal server error: " ++ exn_str B e) |}, s5)
  end.
Proof.
  intros (s1 & s2 & s3 & s4 & Hv & Hr & He & Hwo & Hwd & Hem).
  intros weather_origin weather_destination carbon.
  destruct (run_after_emissions http chat B _ _ _ Hv _ _ Hr _ _ He
              _ _ _ _ Hwo Hwd _ _ Hem) as (scaled & minutes & _ & _ & Hrun).
  cbv zeta in Hrun. fold carbon in Hrun.
  change (or_default ow default_weather_origin) with weather_origin in Hrun.
  change (or_default dw default_weather_destination)
    with weather_destination in Hrun.
  destruct (generate_openai_prompt B (with_emissions rd carbon) en carbon
              weather_origin weather_destination (vehicle i)).
  - eexists. exact Hrun.
  - exact Hrun.
Qed.

(** C3, as amended. Emissions fallback. In a run that found the route and
    in which the emissions adapter returned nothing, for a request whose
    vehicle has its three keys: the answer is a 200 and the kilograms of
    the original branch of the comparison are the float product
    [distance_km * 2.31]. *)
Theorem emissions_fallback_value data s i rd en ow dw s5 :
  gathers http data s i rd en ow dw None s5 ->
  complete_vehicle (vehicle i) ->
  exists minutes recommendation s6,
    get_route_recommendation http chat B data s
    = ({| status := 200;
          payload :=
            BodySuccess (coordinates rd) (directions rd)
              {| original :=
                   {| cmp_distance_km := distance_km rd;
                      cmp_duration_minutes := duration_minutes rd;
                      carbon_emissions_kg :=
                        PrimFloat.mul (distance_km rd) 2.31 |};
                 optimized :=
                   {| cmp_distance_km := distance_km rd;
                      cmp_duration_minutes := minutes;
                      carbon_emissions_kg :=
                        PrimFloat.mul (PrimFloat.mul (distance_km rd) 2.31)
                          0.9 |} |}
              recommendation |}, s6).
Proof.
  intros (s1 & s2 & s3 & s4 & Hv & Hr & He & Hwo & Hwd & Hem) Hc.
  destruct (run_after_emissions http chat B _ _ _ Hv _ _ Hr _ _ He
              _ _ _ _ Hwo Hwd _ _ Hem) as (scaled & minutes & _ & _ & Hrun).
  cbv zeta in Hrun. cbn [or_default] in Hrun.
  destruct (complete_vehicle_prompt
              (with_emissions rd (fallback_emissions (distance_km rd))) en
              (fallback_emissions (distance_km rd))
              (or_default ow default_weather_origin)
              (or_default dw default_weather_destination) _ Hc)
    as (prompt & Hp).
  rewrite Hp in Hrun.
  destruct (get_openai_recommendation chat B prompt (OPENAI_API_KEY i) s5)
    as [recommendation s6].
  exists minutes, recommendation, s6. exact Hrun.
Qed.

(** C4. Optimized-route derivation. For a route read from a payload of the
    routing service, with any emissions attached to it, the derivation
    returns (it raises nothing): the distance is the route's, the duration
    is [round(duration_minutes * 0.95)] with Python's product and
    rounding, both of which are defined here, and the kilograms are the
    float product [carbon_kg * 0.9]. *)
Theorem optimized_route_derivation payload rd e :
  read_route payload = Ok rd ->
  exists scaled minutes,
    Num.int_mul_float (duration_minutes rd) 0.95 = Ok scaled
    /\ Num.round scaled = Ok minutes
    /\ simulate_optimized_route (with_emissions rd e)
       = Ok {| optimized_distance_km := distance_km rd;
               optimized_duration_minutes := minutes;
               optimized_carbon_kg := PrimFloat.mul (carbon_kg e) 0.9 |}.
Proof.
  intros Hread.
  destruct (simulate_optimized_route_resolved payload rd e Hread)
    as (scaled & minutes & Hs & Hm & Hsim).
  exists scaled, minutes. auto.
Qed.

(** C5. A failing recommendation adapter degrades, it does not abort. In a
    run that found the route and the energy price and built the prompt,
    when the chat completion raises or its answer cannot be read, the
    answer is still a 200, its recommendation is exactly "Failed to
    generate recommendation.", and the comparison has its six figures. *)
Theorem recommendation_failure_degrades data s i rd en ow dw found s5 prompt :
  gathers http data s i rd en ow dw found s5 ->
  let carbon := or_default found (fallback_emissions (distance_km rd)) in
  generate_openai_prompt B (with_emissions rd carbon) en carbon
    (or_default ow default_weather_origin)
    (or_default dw default_weather_destination) (vehicle i) = Ok prompt ->
  recommendation_failure B
    (fst (chat (OPENAI_API_KEY i) prompt (world s5))) ->
  exists minutes,
    get_route_recommendation http chat B data s
    = ({| status := 200;
          payload :=
            BodySuccess (coordinates rd) (directions rd)
              {| original :=
                   {| cmp_distance_km := distance_km rd;
                      cmp_duration_minutes := duration_minutes rd;
                      carbon_emissions_kg := carbon_kg carbon |};
                 optimized :=
                   {| cmp_distance_km := distance_km rd;
                      cmp_duration_minutes := minutes;
                      carbon_emissions_kg :=
                        PrimFloat.mul (carbon_kg carbon) 0.9 |} |}
              (lit "Failed to generate recommendation.") |},
       {| world := snd (chat (OPENAI_API_KEY i) prompt (world s5));
          log := log s5
                 ++ [ChatCompletionCreate (OPENAI_API_KEY i) prompt] |}).
Proof.
  intros (s1 & s2 & s3 & s4 & Hv & Hr & He & Hwo & Hwd & Hem) carbon Hp
    (e & Hfail).
  destruct (run_after_emissions http chat B _ _ _ Hv _ _ Hr _ _ He
              _ _ _ _ Hwo Hwd _ _ Hem) as (scaled & minutes & _ & _ & Hrun).
  cbv zeta in Hrun. fold carbon in Hrun. rewrite Hp in Hrun.
  rewrite get_openai_recommendation_run, Hfail in Hrun.
  exists minutes. exact Hrun.
Qed.


(** C7, as amended. What holds of the two kinds of EmissionsResult. One
    the emissions adapter returns has [kilograms = grams / 1000] exactly,
    with Python's division. The fallback has the kilograms
    [distance * 2.31] and the grams [distance * 2310], two float products
    rounded apart, and the identity holds for it only nearly: for an
    ordinary distance, [grams / 1000] and the kilograms are two finite
    floats that differ by no more than [2^-49] of the kilograms. Beyond
    that range not even this holds: there is a finite distance whose grams
    are infinite and whose kilograms are finite. *)
Theorem emissions_consistency :
  (forall distance key s e s',
      calculate_emissions http distance key s = (Some e, s') ->
      consistent e)
  /\ (forall distance,
        carbon_kg (fallback_emissions distance)
        = PrimFloat.mul distance 2.31
        /\ carbon_g (fallback_emissions distance)
           = PFloat (PrimFloat.mul distance 2310))
  /\ (forall distance,
        ordinary distance ->
        exists q,
          Num.truediv (carbon_g (fallback_emissions distance)) 1000 = Ok q
          /\ Num.finite q
          /\ Num.finite (carbon_kg (fallback_emissions distance))
          /\ 0 < units (carbon_kg (fallback_emissions distance))
          /\ Z.abs (units q
                    - units (carbon_kg (fallback_emissions distance)))
             * 2 ^ 49
             <= units (carbon_kg (fallback_emissions distance)))
  /\ (exists distance,
        Num.finite distance
        /\ Num.truediv (carbon_g (fallback_emissions distance)) 1000
           = Ok infinity
        /\ Num.finite (carbon_kg (fallback_emissions distance))).
Proof.
  split; [|split; [intros; split; reflexivity|split]].
  - intros distance key s e s'.
    unfold calculate_emissions, try_except, bind, lift, ret.
    destruct (requests http (PostEstimate key distance) s) as [[r|x] s0];
      [|discriminate].
    destruct (status_code r =? 201); [|discriminate].
    destruct (json r) as [payload|]; [|discriminate].
    cbv beta iota.
    destruct (rbind (Py.getitem payload (lit "data")) _) as [g|];
      [|discriminate].
    destruct (Num.truediv g 1000) as [kg|] eqn:Hkg; [|discriminate].
    intros [= <- <-]. exact Hkg.
  - exact fallback_near.
  - exists 1e305%float. split; [vm_compute; exact I|].
    split; [vm_compute; reflexivity|vm_compute; exact I].
Qed.

(** Whatever the request, the weather service is asked either nothing or
    "San Francisco" and then "Los Angeles". *)
Lemma weather_queries_none_or_both data s :
  exists calls,
    log (snd (get_route_recommendation http chat B data s)) = log s ++ calls
    /\ (weather_queries calls = []
        \/ weather_queries calls
           = [lit "San Francisco"; lit "Los Angeles"]).
Proof.
  assert (Hnone : forall s', s' = s ->
            exists calls, log s' = log s ++ calls
              /\ (weather_queries calls = []
                  \/ weather_queries calls
                     = [lit "San Francisco"; lit "Los Angeles"])).
  { intros s' ->. exists []. rewrite app_nil_r. auto. }
  destruct (read_inputs data) as [i|e] eqn:Hi;
    [|rewrite (run_bad_request http chat B data e s Hi); now apply Hnone].
  destruct (keys_present i) eqn:Hk;
    [|rewrite (run_keys_missing http chat B data i s Hi Hk); now apply Hnone].
  destruct (coords_present i) eqn:Hc;
    [|rewrite (run_coords_missing http chat B data i s Hi Hk Hc);
      now apply Hnone].
  assert (Hv : passes_validation data i) by (repeat split; assumption).
  destruct (get_eco_route http (origin_coords i) (destination_coords i)
              (OPENROUTESERVICE_API_KEY i) s) as [[rd|] s1] eqn:Hr.
  2:{ rewrite (run_route_failed http chat B data i s Hv s1 Hr). cbn [snd].
      destruct (get_eco_route_log http (origin_coords i)
                  (destination_coords i) (OPENROUTESERVICE_API_KEY i) s)
        as (calls & Hlog & Hcalls).
      rewrite Hr in Hlog. exists calls. split; [exact Hlog|].
      destruct Hcalls as [->|(c & ->)]; left; reflexivity. }
  destruct (get_energy_data http (EIA_API_KEY i) s1) as [[en|] s2] eqn:He.
  2:{ rewrite (run_energy_failed http chat B data i s Hv rd s1 Hr s2 He).
      cbn [snd].
      destruct (get_eco_route_found http _ _ _ _ _ _ Hr)
        as (fo & fd & r & payload & _ & _ & Hreq & _).
      pose proof (requests_log http
                    (PostDirections (OPENROUTESERVICE_API_KEY i)
                       (PList [fo; fd])) s) as H1.
      rewrite Hreq in H1. cbn [snd] in H1.
      pose proof (get_energy_data_state http (EIA_API_KEY i) s1) as H2.
      rewrite He in H2. cbn [snd] in H2.
      rewrite H2, requests_log, H1, <- app_assoc. cbn [app].
      eexists. split; [reflexivity|]. left. reflexivity. }
  destruct (get_weather_data http (lit "San Francisco") (WEATHER_API_KEY i)
              s2) as [ow s3] eqn:Hwo.
  destruct (get_weather_data http (lit "Los Angeles") (WEATHER_API_KEY i)
              s3) as [dw s4] eqn:Hwd.
  destruct (calculate_emissions http (distance_km rd)
              (CARBON_INTERFACE_API_KEY i) s4) as [found s5] eqn:Hem.
  destruct (run_after_emissions http chat B _ _ _ Hv _ _ Hr _ _ He
              _ _ _ _ Hwo Hwd _ _ Hem) as (scaled & minutes & _ & _ & Hrun).
  destruct (run_log_to_emissions http _ _ _ _ Hr _ _ He
              _ _ _ _ Hwo Hwd _ _ Hem) as (calls & Hlog & _ & Hq).
  cbv zeta in Hrun. rewrite Hrun.
  destruct (generate_openai_prompt B _ en _ _ _ (vehicle i)) as [prompt|e].
  - rewrite get_openai_recommendation_run. cbn [snd log].
    exists (calls ++ [ChatCompletionCreate (OPENAI_API_KEY i) prompt]).
    rewrite Hlog, app_assoc. split; [reflexivity|]. right.
    unfold weather_queries in *. rewrite flat_map_app, Hq. reflexivity.
  - cbn [snd]. exists calls. auto.
Qed.

(** Once the route and the energy price are found, both lookups are
    made. *)
Lemma weather_queries_after_energy data s i rd s1 en s2 :
  passes_validation data i ->
  get_eco_route http (origin_coords i) (destination_coords i)
    (OPENROUTESERVICE_API_KEY i) s = (Some rd, s1) ->
  get_energy_data http (EIA_API_KEY i) s1 = (Some en, s2) ->
  exists calls,
    log (snd (get_route_recommendation http chat B data s)) = log s ++ calls
    /\ weather_queries calls = [lit "San Francisco"; lit "Los Angeles"].
Proof.
  intros Hv Hr He.
  destruct (get_weather_data http (lit "San Francisco") (WEATHER_API_KEY i)
              s2) as [ow s3] eqn:Hwo.
  destruct (get_weather_data http (lit "Los Angeles") (WEATHER_API_KEY i)
              s3) as [dw s4] eqn:Hwd.
  destruct (calculate_emissions http (distance_km rd)
              (CARBON_INTERFACE_API_KEY i) s4) as [found s5] eqn:Hem.
  destruct (run_after_emissions http chat B _ _ _ Hv _ _ Hr _ _ He
              _ _ _ _ Hwo Hwd _ _ Hem) as (scaled & minutes & _ & _ & Hrun).
  destruct (run_log_to_emissions http _ _ _ _ Hr _ _ He
              _ _ _ _ Hwo Hwd _ _ Hem) as (calls & Hlog & _ & Hq).
  cbv zeta in Hrun. rewrite Hrun.
  destruct (generate_openai_prompt B _ en _ _ _ (vehicle i)) as [prompt|e].
  - rewrite get_openai_recommendation_run. cbn [snd log].
    exists (calls ++ [ChatCompletionCreate (OPENAI_API_KEY i) prompt]).
    rewrite Hlog, app_assoc. split; [reflexivity|].
    unfold weather_queries in *. rewrite flat_map_app, Hq. reflexivity.
  - cbn [snd]. exists calls. auto.
Qed.

(** A request answered 200 was validated and found its route and its
    energy price. *)
Lemma run_ok_found data s :
  status (fst (get_route_recommendation http chat B data s)) = 200 ->
  exists i rd s1 en s2,
    passes_validation data i
    /\ get_eco_route http (origin_coords i) (destination_coords i)
         (OPENROUTESERVICE_API_KEY i) s = (Some rd, s1)
    /\ get_energy_data http (EIA_API_KEY i) s1 = (Some en, s2).
Proof.
  destruct (read_inputs data) as [i|e] eqn:Hi;
    [|rewrite (run_bad_request http chat B data e s Hi); discriminate].
  destruct (keys_present i) eqn:Hk;
    [|rewrite (run_keys_missing http chat B data i s Hi Hk); discriminate].
  destruct (coords_present i) eqn:Hc;
    [|rewrite (run_coords_missing http chat B data i s Hi Hk Hc);
      discriminate].
  assert (Hv : passes_validation data i) by (repeat split; assumption).
  destruct (get_eco_route http (origin_coords i) (destination_coords i)
              (OPENROUTESERVICE_API_KEY i) s) as [[rd|] s1] eqn:Hr;
    [|rewrite (run_route_failed http chat B data i s Hv s1 Hr);
      discriminate].
  destruct (get_energy_data http (EIA_API_KEY i) s1) as [[en|] s2] eqn:He;
    [|rewrite (run_energy_failed http chat B data i s Hv rd s1 Hr s2 He);
      discriminate].
  intros _. exists i, rd, s1, en, s2. auto.
Qed.

(** C8. Fixed weather locations. Whatever the request, the weather service
    is asked either nothing or "San Francisco" and then "Los Angeles".
    Both lookups are made, with these names and in this order, by every
    request that passes validation and finds its route and its energy
    price, whatever its coordinates are; so by every request that is
    answered 200. The locations are constants of the program. *)
Theorem fixed_weather_locations data s :
  exists calls,
    log (snd (get_route_recommendation http chat B data s)) = log s ++ calls
    /\ (weather_queries calls = []
        \/ weather_queries calls
           = [lit "San Francisco"; lit "Los Angeles"])
    /\ (forall i rd s1 en s2,
          passes_validation data i ->
          get_eco_route http (origin_coords i) (destination_coords i)
            (OPENROUTESERVICE_API_KEY i) s = (Some rd, s1) ->
          get_energy_data http (EIA_API_KEY i) s1 = (Some en, s2) ->
          weather_queries calls = [lit "San Francisco"; lit "Los Angeles"])
    /\ (status (fst (get_route_recommendation http chat B data s)) = 200 ->
        weather_queries calls = [lit "San Francisco"; lit "Los Angeles"]).
Proof.
  destruct (weather_queries_none_or_both data s) as (calls & Hlog & Hq).
  assert (Hfound : forall i rd s1 en s2,
            passes_validation data i ->
            get_eco_route http (origin_coords i) (destination_coords i)
              (OPENROUTESERVICE_API_KEY i) s = (Some rd, s1) ->
            get_energy_data http (EIA_API_KEY i) s1 = (Some en, s2) ->
            weather_queries calls
            = [lit "San Francisco"; lit "Los Angeles"]).
  { intros i rd s1 en s2 Hv Hr He.
    destruct (weather_queries_after_energy data s i rd s1 en s2 Hv Hr He)
      as (calls' & Hlog' & Hq').
    rewrite Hlog in Hlog'. apply app_inv_head in Hlog'. now subst calls'. }
  exists calls. split; [exact Hlog|]. split; [exact Hq|].
  split; [exact Hfound|].
  intros Hok.
  destruct (run_ok_found data s Hok) as (i & rd & s1 & en & s2 & Hv & Hr & He).
  exact (Hfound i rd s1 en s2 Hv Hr He).
Qed.

(** C9, as amended. The route adapter. With coordinates that cannot be
    indexed it fails before any call. Otherwise it fails exactly when the
    call raises, the status is not 200, the body is not JSON, the payload
    has no features, or no route can be read from the first feature. When
    it returns a route, the service answered 200 with a payload that has
    features, and every point of the path is the point of the service,
    [lon, lat], in the order [lat, lon]. *)
Theorem route_adapter_contract origin destination key s :
  (forall e,
      swap_pair origin = Raise e \/ swap_pair destination = Raise e ->
      get_eco_route http origin destination key s = (None, s))
  /\ (forall formatted_origin formatted_destination,
        swap_pair origin = Ok formatted_origin ->
        swap_pair destination = Ok formatted_destination ->
        let reply :=
          fst (http (PostDirections key
                       (PList [formatted_origin; formatted_destination]))
                 (world s)) in
        fst (get_eco_route http origin destination key s) = None
        <-> upstream_failure reply \/ unreadable_route reply)
  /\ (forall rd,
        fst (get_eco_route http origin destination key s) = Some rd ->
        exists formatted_origin formatted_destination response payload points,
          swap_pair origin = Ok formatted_origin
          /\ swap_pair destination = Ok formatted_destination
          /\ fst (http (PostDirections key
                          (PList [formatted_origin; formatted_destination]))
                    (world s)) = Ok response
          /\ status_code response = 200
          /\ json response = Ok payload
          /\ has_features payload = Ok true
          /\ feature_coordinates payload = Ok points
          /\ Forall2 lat_lon points (coordinates rd)).
Proof.
  split; [|split].
  - intros e [Ho|Hd]; rewrite get_eco_route_run.
    + now rewrite Ho.
    + rewrite Hd. destruct (swap_pair origin); reflexivity.
  - intros fo fd Ho Hd reply. rewrite get_eco_route_run, Ho, Hd.
    cbv zeta. cbn [fst]. rewrite requests_reply. fold reply.
    unfold upstream_failure, unreadable_route.
    destruct reply as [r|x]; [|split; auto].
    destruct (status_code r =? 200) eqn:Hs.
    2:{ apply Z.eqb_neq in Hs. split; auto. }
    apply Z.eqb_eq in Hs.
    destruct (json r) as [payload|x] eqn:Hj; [|split; auto].
    destruct (has_features payload) as [[|]|x] eqn:Hf;
      try (split; [intros _; left; right; discriminate|reflexivity]).
    destruct (read_route payload) as [rd|x] eqn:Hread.
    + split; [discriminate|].
      intros [[Hn|Hn]|(r' & p' & x & Hr' & Hj' & Hx)].
      * contradiction.
      * now contradiction Hn.
      * injection Hr' as <-. rewrite Hj in Hj'. injection Hj' as <-.
        rewrite Hread in Hx. discriminate Hx.
    + split; [|reflexivity]. intros _. right. exists r, payload, x. auto.
  - intros rd Hrd.
    destruct (get_eco_route http origin destination key s) as [r s1] eqn:Hr.
    cbn [fst] in Hrd. subst r.
    destruct (get_eco_route_found http _ _ _ _ _ _ Hr)
      as (fo & fd & r & payload & Ho & Hd & Hreq & Hs & Hj & Hf & Hread).
    destruct (read_route_coordinates payload rd Hread) as (points & Hp & Hc).
    exists fo, fd, r, payload, points.
    rewrite <- requests_reply, Hreq.
    repeat split; try assumption. now apply comprehension_swap.
Qed.

(** C10. The vehicle is not validated. A request that has the five
    credentials and both coordinate pairs and no vehicle, or a vehicle
    lacking one of [type], [efficiency], [fuel_type], passes validation;
    with the route and the energy price found, the run calls the routing,
    price, weather (twice) and emissions services, in this order, then
    fails on building the prompt: the answer is the 500 of the outermost
    handler, not a 400, and the recommendation adapter is never called. *)
Theorem vehicle_not_validated data s i rd en ow dw found s5 :
  gathers http data s i rd en ow dw found s5 ->
  incomplete_vehicle (vehicle i) ->
  exists e calls,
    get_route_recommendation http chat B data s
    = ({| status := 500;
          payload := BodyError
            (lit "Internal server error: " ++ exn_str B e) |}, s5)
    /\ log s5 = log s ++ calls
    /\ map adapter_of calls
       = [RouteAdapter; EnergyPriceAdapter; WeatherAdapter; WeatherAdapter;
          EmissionsAdapter].
Proof.
  intros (s1 & s2 & s3 & s4 & Hv & Hr & He & Hwo & Hwd & Hem) Hinc.
  destruct (run_after_emissions http chat B _ _ _ Hv _ _ Hr _ _ He
              _ _ _ _ Hwo Hwd _ _ Hem) as (scaled & minutes & _ & _ & Hrun).
  cbv zeta in Hrun.
  destruct (incomplete_vehicle_prompt
              (with_emissions rd
                 (or_default found (fallback_emissions (distance_km rd))))
              en (or_default found (fallback_emissions (distance_km rd)))
              (or_default ow default_weather_origin)
              (or_default dw default_weather_destination) _ Hinc)
    as (e & Hp).
  rewrite Hp in Hrun.
  destruct (run_log_to_emissions http _ _ _ _ Hr _ _ He
              _ _ _ _ Hwo Hwd _ _ Hem) as (calls & Hlog & Hmap & _).
  exists e, calls. auto.
Qed.

End Claims.

(** * The properties at work on the scripted world *)

Import Scenario.

(** C1 at work: the routing service is down in one world, the price service
    in another; both requests end in their 400. *)
Lemma fatal_abort_propagation_witness :
  exists s1 rd s1' s2,
    passes_validation request (sent car)
    /\ get_eco_route (http route_down) origin destination (key "ors") start
       = (None, s1)
    /\ get_eco_route (http energy_down) origin destination (key "ors") start
       = (Some rd, s1')
    /\ get_energy_data (http energy_down) (key "eia") s1' = (None, s2)
    /\ (serve route_down request
        = ({| status := 400;
              payload := BodyError
                (lit "Unable to calculate route with provided coordinates.") |},
           s1)
        /\ exists calls,
             log s1 = log start ++ calls
             /\ (map adapter_of calls = []
                 \/ map adapter_of calls = [RouteAdapter]))
    /\ (serve energy_down request
        = ({| status := 400;
              payload := BodyError
                (lit "Unable to retrieve energy data from EIA API.") |}, s2)
        /\ exists calls,
             log s2 = log start ++ calls
             /\ map adapter_of calls = [RouteAdapter; EnergyPriceAdapter]).
Proof.
  assert (V : passes_validation request (sent car)).
  { unfold passes_validation. repeat split; vm_compute; reflexivity. }
  eassert (R1 : get_eco_route (http route_down) origin destination (key "ors")
                  start = (None, _))
    by (vm_compute; reflexivity).
  eassert (R2 : get_eco_route (http energy_down) origin destination
                  (key "ors") start = (Some _, _))
    by (vm_compute; reflexivity).
  eassert (E2 : get_energy_data (http energy_down) (key "eia") _ = (None, _))
    by (vm_compute; reflexivity).
  do 4 eexists.
  split; [exact V|]. split; [exact R1|]. split; [exact R2|].
  split; [exact E2|]. split.
  - exact (proj1 (fatal_abort_propagation (http route_down) (chat route_down)
                    plain request (sent car) start V) _ R1).
  - exact (proj2 (fatal_abort_propagation (http energy_down)
                    (chat energy_down) plain request (sent car) start V)
             _ _ _ R2 E2).
Defined.

(** C2 at work: the weather service fails for San Francisco and answers
    for Los Angeles; the prompt carries 20, "clear", 5 for the origin and
    what was fetched for the destination. *)
Lemma weather_failure_substituted_witness :
  exists rd en there found s5,
    gathers (http origin_weather_down) request start (sent car) rd en
      None (Some there) found s5
    /\ let weather_origin :=
         {| temperature := PInt 20;
            weather := PStr (lit "clear");
            wind_speed := PInt 5 |} in
       let carbon := or_default found (fallback_emissions (distance_km rd)) in
       match generate_openai_prompt plain (with_emissions rd carbon) en carbon
               weather_origin there car with
       | Ok prompt =>
           exists comparison,
             serve origin_weather_down request
             = let (recommendation, s6) :=
                 get_openai_recommendation (chat origin_weather_down) plain
                   prompt (key "openai") s5 in
               ({| status := 200;
                   payload := BodySuccess (coordinates rd) (directions rd)
                                comparison recommendation |}, s6)
       | Raise e =>
           serve origin_weather_down request
           = ({| status := 500;
                 payload := BodyError
                   (lit "Internal server error: " ++ exn_str plain e) |}, s5)
       end.
Proof.
  eassert (G : gathers (http origin_weather_down) request start (sent car)
                 _ _ None (Some _) _ _) by gather.
  do 5 eexists. split; [exact G|].
  exact (weather_failure_substituted (http origin_weather_down)
           (chat origin_weather_down) plain request start (sent car)
           _ _ _ _ _ _ G).
Defined.

(** C3 as it is written fails: the emissions service is down and the
    caller sent no vehicle; the route is found, the fallback is taken, and
    the request ends in a 500 with no comparison. *)
Lemma emissions_fallback_needs_vehicle :
  ~ emissions_fallback_as_stated (http emissions_down) (chat emissions_down)
      plain request_no_vehicle start.
Proof.
  intros H.
  eassert (G : gathers (http emissions_down) request_no_vehicle start
                 (sent PNone) _ _ _ _ None _) by gather.
  destruct (H _ _ _ _ _ _ G) as (r & d & c & t & Hrun & _).
  vm_compute in Hrun. discriminate Hrun.
Qed.

(** C3, as amended, at work: the same world, a request with its vehicle. *)
Lemma emissions_fallback_value_witness :
  exists rd en ow dw s5,
    gathers (http emissions_down) request start (sent car) rd en ow dw
      None s5
    /\ complete_vehicle car
    /\ exists minutes recommendation s6,
         serve emissions_down request
         = ({| status := 200;
               payload :=
                 BodySuccess (coordinates rd) (directions rd)
                   {| original :=
                        {| cmp_distance_km := distance_km rd;
                           cmp_duration_minutes := duration_minutes rd;
                           carbon_emissions_kg :=
                             PrimFloat.mul (distance_km rd) 2.31 |};
                      optimized :=
                        {| cmp_distance_km := distance_km rd;
                           cmp_duration_minutes := minutes;
                           carbon_emissions_kg :=
                             PrimFloat.mul
                               (PrimFloat.mul (distance_km rd) 2.31) 0.9 |} |}
                   recommendation |}, s6).
Proof.
  eassert (G : gathers (http emissions_down) request start (sent car)
                 _ _ _ _ None _) by gather.
  assert (V : complete_vehicle car).
  { eexists. split; [reflexivity|]. intros k Hk. cbn [In] in Hk.
    destruct Hk as [<-|[<-|[<-|[]]]]; vm_compute; discriminate. }
  do 5 eexists. split; [exact G|]. split; [exact V|].
  exact (emissions_fallback_value (http emissions_down) (chat emissions_down)
           plain request start (sent car) _ _ _ _ _ G V).
Defined.

(** C4 at work: the route of the scenario, 559 km in 300 minutes with
    50 kg attached, gives 559 km, 285 minutes and 45 kg. *)
Lemma optimized_route_derivation_witness :
  exists rd,
    read_route directions_json = Ok rd
    /\ duration_minutes rd = 300
    /\ (exists scaled minutes,
          Num.int_mul_float (duration_minutes rd) 0.95 = Ok scaled
          /\ Num.round scaled = Ok minutes
          /\ simulate_optimized_route
               (with_emissions rd {| carbon_g := PInt 50000; carbon_kg := 50 |})
             = Ok {| optimized_distance_km := distance_km rd;
                     optimized_duration_minutes := minutes;
                     optimized_carbon_kg := PrimFloat.mul 50 0.9 |})
    /\ simulate_optimized_route
         (with_emissions rd {| carbon_g := PInt 50000; carbon_kg := 50 |})
       = Ok {| optimized_distance_km := 559;
               optimized_duration_minutes := 285;
               optimized_carbon_kg := 45 |}.
Proof.
  eassert (R : read_route directions_json = Ok _) by (vm_compute; reflexivity).
  eexists. split; [exact R|]. split; [reflexivity|]. split.
  - exact (optimized_route_derivation directions_json _
             {| carbon_g := PInt 50000; carbon_kg := 50 |} R).
  - vm_compute. reflexivity.
Defined.

(** C5 at work: the chat completion raises; the answer is a 200 with the
    fixed text. *)
Lemma recommendation_failure_degrades_witness :
  exists rd en ow dw found s5 prompt,
    gathers (http chat_down) request start (sent car) rd en ow dw found s5
    /\ (let carbon := or_default found (fallback_emissions (distance_km rd)) in
        generate_openai_prompt plain (with_emissions rd carbon) en carbon
          (or_default ow default_weather_origin)
          (or_default dw default_weather_destination) car = Ok prompt)
    /\ recommendation_failure plain
         (fst (chat chat_down (key "openai") prompt (world s5)))
    /\ exists minutes,
         serve chat_down request
         = ({| status := 200;
               payload :=
                 BodySuccess (coordinates rd) (directions rd)
                   {| original :=
                        {| cmp_distance_km := distance_km rd;
                           cmp_duration_minutes := duration_minutes rd;
                           carbon_emissions_kg :=
                             carbon_kg
                               (or_default found
                                  (fallback_emissions (distance_km rd))) |};
                      optimized :=
                        {| cmp_distance_km := distance_km rd;
                           cmp_duration_minutes := minutes;
                           carbon_emissions_kg :=
                             PrimFloat.mul
                               (carbon_kg
                                  (or_default found
                                     (fallback_emissions (distance_km rd))))
                               0.9 |} |}
                   (lit "Failed to generate recommendation.") |},
            {| world := snd (chat chat_down (key "openai") prompt (world s5));
               log := log s5
                      ++ [ChatCompletionCreate (key "openai") prompt] |}).
Proof.
  eassert (G : gathers (http chat_down) request start (sent car)
                 _ _ _ _ _ _) by gather.
  do 7 eexists. split; [exact G|].
  match goal with
  | |- ?P /\ _ => assert (HP : P) by (vm_compute; reflexivity)
  end.
  split; [exact HP|].
  match goal with
  | |- ?F /\ _ => assert (HF : F) by (eexists; vm_compute; reflexivity)
  end.
  split; [exact HF|].
  exact (recommendation_failure_degrades (http chat_down) (chat chat_down)
           plain request start (sent car) _ _ _ _ _ _ _ G HP HF).
Defined.



(** C7 as it is written fails: on a route of 27 km with the emissions
    service down, the fallback has 62370 grams and 62.370000000000005
    kilograms, while [62370 / 1000] is 62.37. *)
Lemma fallback_grams_inconsistent :
  ~ emissions_consistency_as_stated (http short_trip) request start.
Proof.
  intros H.
  eassert (G : gathers (http short_trip) request start (sent car)
                 _ _ _ _ None _) by gather.
  pose proof (H _ _ _ _ _ _ _ G) as Hc.
  unfold consistent in Hc.
  assert (E := f_equal (fun r => match r with
                                 | Ok kg => PrimFloat.eqb kg 62.37
                                 | Raise _ => false
                                 end) Hc).
  vm_compute in E. discriminate E.
Qed.

(** C7, as amended, at work: the emissions service answers 50000 grams;
    on 27 km the fallback has 62370 grams and kilograms one unit in the
    last place above 62.37. *)
Lemma emissions_consistency_witness :
  exists e s' q,
    calculate_emissions (http all_up) 559 (key "carbon") start = (Some e, s')
    /\ consistent e
    /\ carbon_kg (fallback_emissions 27) = PrimFloat.mul 27 2.31
    /\ carbon_g (fallback_emissions 27) = PFloat (PrimFloat.mul 27 2310)
    /\ ordinary 27
    /\ Num.truediv (carbon_g (fallback_emissions 27)) 1000 = Ok q
    /\ q = 62.37%float
    /\ Z.abs (units q - units (carbon_kg (fallback_emissions 27))) * 2 ^ 49
       <= units (carbon_kg (fallback_emissions 27)).
Proof.
  eassert (C : calculate_emissions (http all_up) 559 (key "carbon") start
               = (Some _, _)) by (vm_compute; reflexivity).
  assert (O : ordinary 27).
  { do 2 eexists. split; [vm_compute; reflexivity|].
    split; [vm_compute; discriminate|split; vm_compute; discriminate]. }
  assert (Q : Num.truediv (carbon_g (fallback_emissions 27)) 1000
              = Ok 62.37%float) by (vm_compute; reflexivity).
  destruct (proj1 (proj2 (proj2 (emissions_consistency (http all_up))))
              27%float O) as (q & Hq & _ & _ & _ & Hb).
  do 2 eexists. exists q. split; [exact C|]. split.
  - exact (proj1 (emissions_consistency (http all_up)) _ _ _ _ _ C).
  - split; [reflexivity|]. split; [reflexivity|]. split; [exact O|].
    split; [exact Hq|]. split; [|exact Hb].
    rewrite Q in Hq. symmetry. exact (Ok_inj _ _ Hq).
Defined.

(** C8 at work: the trip from San Francisco to Los Angeles and the way
    back, with the two coordinate pairs exchanged, both ask the weather
    service about "San Francisco" and then "Los Angeles". *)
Lemma fixed_weather_locations_witness :
  (exists calls,
     log (snd (serve all_up request)) = log start ++ calls
     /\ weather_queries calls = [lit "San Francisco"; lit "Los Angeles"])
  /\ (exists calls,
        log (snd (serve all_up request_back)) = log start ++ calls
        /\ weather_queries calls = [lit "San Francisco"; lit "Los Angeles"]).
Proof.
  assert (V : passes_validation request (sent car)).
  { unfold passes_validation. repeat split; vm_compute; reflexivity. }
  eassert (R : get_eco_route (http all_up) origin destination (key "ors")
                 start = (Some _, _)) by (vm_compute; reflexivity).
  eassert (E : get_energy_data (http all_up) (key "eia") _ = (Some _, _))
    by (vm_compute; reflexivity).
  assert (V' : passes_validation request_back sent_back).
  { unfold passes_validation. repeat split; vm_compute; reflexivity. }
  eassert (R' : get_eco_route (http all_up) destination origin (key "ors")
                  start = (Some _, _)) by (vm_compute; reflexivity).
  eassert (E' : get_energy_data (http all_up) (key "eia") _ = (Some _, _))
    by (vm_compute; reflexivity).
  split.
  - destruct (fixed_weather_locations (http all_up) (chat all_up) plain
                request start) as (calls & Hlog & _ & Hfound & _).
    exists calls. split; [exact Hlog|].
    exact (Hfound (sent car) _ _ _ _ V R E).
  - destruct (fixed_weather_locations (http all_up) (chat all_up) plain
                request_back start) as (calls & Hlog & _ & Hfound & _).
    exists calls. split; [exact Hlog|].
    exact (Hfound sent_back _ _ _ _ V' R' E').
Defined.

(** C9 as it is written fails: the routing service answers 200 with a
    feature that has a geometry and no segments; the call did not raise,
    the status is 200, the payload has features, and the adapter fails. *)
Lemma route_failure_beyond_the_three :
  ~ route_failure_as_stated (http no_segments) origin destination (key "ors")
      start.
Proof.
  intros H.
  eassert (Ho : swap_pair origin = Ok _) by reflexivity.
  eassert (Hd : swap_pair destination = Ok _) by reflexivity.
  destruct (H _ _ Ho Hd) as [Hfail _].
  assert (Hnone : fst (get_eco_route (http no_segments) origin destination
                         (key "ors") start) = None)
    by (vm_compute; reflexivity).
  apply Hfail in Hnone. cbn in Hnone.
  destruct Hnone as [Hs|Hf]; [now apply Hs|].
  apply Hf. vm_compute. reflexivity.
Qed.

(** C9, as amended, at work: the adapter fails when the routing service is
    down, and returns the two points as [lat, lon] when it answers. *)
Lemma route_adapter_contract_witness :
  exists formatted_origin formatted_destination rd,
    swap_pair origin = Ok formatted_origin
    /\ swap_pair destination = Ok formatted_destination
    /\ fst (get_eco_route (http route_down) origin destination (key "ors")
              start) = None
    /\ (let reply :=
          fst (http route_down
                 (PostDirections (key "ors")
                    (PList [formatted_origin; formatted_destination]))
                 (world start)) in
        upstream_failure reply \/ unreadable_route reply)
    /\ fst (get_eco_route (http all_up) origin destination (key "ors") start)
       = Some rd
    /\ coordinates rd = [origin; destination]
    /\ exists formatted_origin formatted_destination response payload points,
         swap_pair origin = Ok formatted_origin
         /\ swap_pair destination = Ok formatted_destination
         /\ fst (http all_up
                   (PostDirections (key "ors")
                      (PList [formatted_origin; formatted_destination]))
                   (world start)) = Ok response
         /\ status_code response = 200
         /\ json response = Ok payload
         /\ has_features payload = Ok true
         /\ feature_coordinates payload = Ok points
         /\ Forall2 lat_lon points (coordinates rd).
Proof.
  eassert (Ho : swap_pair origin = Ok _) by reflexivity.
  eassert (Hd : swap_pair destination = Ok _) by reflexivity.
  assert (Hn : fst (get_eco_route (http route_down) origin destination
                      (key "ors") start) = None)
    by (vm_compute; reflexivity).
  eassert (Hr : fst (get_eco_route (http all_up) origin destination
                       (key "ors") start) = Some _)
    by (vm_compute; reflexivity).
  do 3 eexists. split; [exact Ho|]. split; [exact Hd|].
  split; [exact Hn|]. split.
  - exact (proj1 (proj1 (proj2 (route_adapter_contract (http route_down)
                                  origin destination (key "ors") start))
                    _ _ Ho Hd) Hn).
  - split; [exact Hr|]. split; [reflexivity|].
    exact (proj2 (proj2 (route_adapter_contract (http all_up) origin
                           destination (key "ors") start)) _ Hr).
Defined.

(** C10 at work: every service answers and the caller sent no vehicle; five
    calls are made and the answer is a 500. *)
Lemma vehicle_not_validated_witness :
  exists rd en ow dw found s5,
    gathers (http all_up) request_no_vehicle start (sent PNone) rd en ow dw
      found s5
    /\ incomplete_vehicle PNone
    /\ exists e calls,
         serve all_up request_no_vehicle
         = ({| status := 500;
               payload := BodyError
                 (lit "Internal server error: " ++ exn_str plain e) |}, s5)
         /\ log s5 = log start ++ calls
         /\ map adapter_of calls
            = [RouteAdapter; EnergyPriceAdapter; WeatherAdapter;
               WeatherAdapter; EmissionsAdapter].
Proof.
  eassert (G : gathers (http all_up) request_no_vehicle start (sent PNone)
                 _ _ _ _ _ _) by gather.
  assert (V : incomplete_vehicle PNone) by (left; reflexivity).
  do 6 eexists. split; [exact G|]. split; [exact V|].
  exact (vehicle_not_validated (http all_up) (chat all_up) plain
           request_no_vehicle start (sent PNone) _ _ _ _ _ _ G V).
Defined.

(** * Further properties of the code

    What the adapters and the handler do beyond the properties of the
    specification: the answers to malformed bodies, the order of the
    checks, the calls by status, what each adapter reads and sends, and the
    arithmetic of the optimized duration. *)

(** ** Python's [get] and the two loops of the route adapter *)

(** [get] is a method of objects only. *)
Lemma get_not_an_object v k default :
  not_an_object v ->
  Py.get v k default
  = Raise (AttributeError
             (lit "'" ++ Py.type_name v
              ++ lit "' object has no attribute 'get'")).
Proof. destruct v; cbn; intros H; try reflexivity. contradiction. Qed.

(** The inner loop appends the instructions of the steps, in order. *)
Lemma for_each_steps steps : forall directions,
  Forall is_object steps ->
  for_each append_instruction steps directions
  = Ok (directions ++ flat_map step_instruction steps).
Proof.
  induction steps as [|step steps IH]; intros directions Hs; cbn [for_each flat_map].
  - now rewrite app_nil_r.
  - inversion Hs as [|? ? (fields & ->) Hrest]; subst.
    unfold append_instruction at 1. cbn [Py.contains Py.getitem rbind step_instruction].
    destruct (Py.lookup (lit "instruction") fields) as [instruction|];
      cbn [rbind]; rewrite IH by assumption.
    + now rewrite <- app_assoc.
    + reflexivity.
Qed.

(** The outer loop does so segment by segment. *)
Lemma for_each_segments segments : forall directions,
  Forall plain_segment segments ->
  for_each append_segment segments directions
  = Ok (directions ++ instructions segments).
Proof.
  unfold instructions.
  induction segments as [|segment segments IH]; intros directions Hs;
    cbn [for_each flat_map].
  - now rewrite app_nil_r.
  - inversion Hs as [|? ? (fields & -> & Hsteps) Hrest]; subst.
    unfold append_segment at 1. cbn [Py.get segment_steps].
    destruct (Py.lookup (lit "steps") fields) as [[| | | | |steps|]|];
      try contradiction; cbn [rbind Py.iter].
    + rewrite for_each_steps by assumption. cbn [rbind].
      rewrite IH by assumption. now rewrite <- app_assoc.
    + cbn [for_each rbind flat_map app]. rewrite IH by assumption.
      reflexivity.
Qed.

Lemma read_completion_content B response :
  read_completion B response
  = (content <-- completion_content response ;; strip B content).
Proof.
  unfold read_completion, completion_content.
  destruct (Py.getitem response (lit "choices")) as [choices|];
    [|reflexivity]. cbn [rbind].
  destruct (Py.getindex choices 0) as [choice|]; [|reflexivity].
  cbn [rbind].
  destruct (Py.getitem choice (lit "message")) as [message|]; reflexivity.
Qed.

(** ** The value of a product by 0.95

    Values are compared as integers in units of [2^-1200], see [scaled]. *)

(** Rounding to an integer does not pass an integer above the value. *)
Lemma round_half_even_le m e z :
  0 <= m -> -1200 <= e -> scaled m e <= scaled z 0 ->
  0 <= Num.round_half_even m e <= z.
Proof.
  intros Hm He H. unfold Num.round_half_even.
  destruct (0 <=? e) eqn:Hs.
  - apply Z.leb_le in Hs. split.
    + apply Z.mul_nonneg_nonneg; [lia|apply Z.pow_nonneg; lia].
    + rewrite <- (Z.add_0_l e), <- scaled_shift in H by lia.
      now apply scaled_le_inv in H.
  - apply Z.leb_gt in Hs. set (d := 2 ^ (- e)).
    assert (Hd : 0 < d) by (apply Z.pow_pos_nonneg; lia).
    assert (Hz : m <= z * d).
    { replace 0 with (e + - e) in H by lia.
      rewrite <- scaled_shift in H by lia. now apply scaled_le_inv in H. }
    pose proof (Z.div_mod m d ltac:(lia)) as Hdm.
    pose proof (Z.mod_pos_bound m d Hd) as Hr.
    assert (Hq : 0 <= m / d) by (apply Z.div_pos; lia).
    assert (Hqz : m / d <= z).
    { apply Z.div_le_upper_bound; [lia|]. lia. }
    assert (Hqz' : 0 < m mod d -> m / d + 1 <= z).
    { intros Hp. assert (d * (m / d) < d * z) by lia.
      apply Z.mul_lt_mono_pos_l in H0; lia. }
    destruct (2 * (m mod d) <? d) eqn:H1; [lia|].
    apply Z.ltb_ge in H1.
    destruct (d <? 2 * (m mod d)); [lia|].
    destruct (Z.even (m / d)); lia.
Qed.

(** A rounded float lies at most one unit of the first shift above the
    exact value. *)
Lemma binary_round_aux_le s P E U :
  let e1 := Z.max E (fexp prec emax (Zpos (digits2_pos P) + E)) in
  -1200 <= E ->
  scaled (Zpos P / 2 ^ (e1 - E) + 1) e1 <= U ->
  match binary_round_aux prec emax s (Zpos P) E loc_Exact with
  | S754_finite _ m e => -1200 <= e /\ scaled (Zpos m) e <= U
  | _ => True
  end.
Proof.
  intros e1 HE HU. set (m1 := Zpos P / 2 ^ (e1 - E)) in *.
  unfold binary_round_aux.
  destruct (shr_fexp_exact (Zpos P) E ltac:(lia)) as [H1 H1m].
  cbn [Zdigits2] in H1, H1m. fold e1 in H1, H1m. fold m1 in H1m.
  rewrite H1. set (r1 := fst (shr_fexp prec emax (Zpos P) E loc_Exact)) in *.
  set (m2 := round_nearest_even (shr_m r1) (loc_of_shr_record r1)).
  assert (Hm2 : m1 <= m2 <= m1 + 1).
  { subst m2. rewrite <- H1m. apply round_nearest_even_bounds. }
  assert (He1 : E <= e1) by (subst e1; lia).
  assert (Hm1 : 0 <= m1).
  { subst m1. apply Z.div_pos; [lia|]. apply Z.pow_pos_nonneg; lia. }
  destruct (shr_fexp_exact m2 e1 ltac:(lia)) as [H2 H2m].
  rewrite H2. set (r3 := fst (shr_fexp prec emax m2 e1 loc_Exact)) in *.
  set (e3 := Z.max e1 (fexp prec emax (Zdigits2 m2 + e1))) in *.
  assert (He3 : e1 <= e3) by (subst e3; lia).
  destruct (shr_m r3) as [|q|q] eqn:Hq; [exact I| |exact I].
  destruct (e3 <=? emax - prec); [|exact I].
  split; [lia|].
  assert (Hpow : 0 < 2 ^ (e3 - e1)) by (apply Z.pow_pos_nonneg; lia).
  assert (Hqm : Zpos q * 2 ^ (e3 - e1) <= m2).
  { try rewrite Hq in H2m. rewrite H2m, Z.mul_comm.
    apply Z.mul_div_le. exact Hpow. }
  apply Z.le_trans with (2 := HU).
  apply Z.le_trans with (scaled m2 e1); [|apply scaled_le; lia].
  replace e3 with (e1 + (e3 - e1)) by lia.
  rewrite <- scaled_shift by lia. apply scaled_le; lia.
Qed.

(** Scaling a positive float by 0.95 gives no more than the float. *)
Lemma SFmul_095_le m e :
  valid_binary (S754_finite false m e) = true ->
  match SF64mul (S754_finite false m e) (Prim2SF 0.95) with
  | S754_finite s m' e' =>
      s = false /\ -1200 <= e' /\ scaled (Zpos m') e' <= scaled (Zpos m) e
  | S754_zero _ => True
  | _ => False
  end.
Proof.
  intros Hv. pose proof (SFmul_095_finite false m e Hv) as Hfin.
  destruct (valid_finite false m e Hv) as (Hm & He & Hc).
  rewrite Prim2SF_095 in *. unfold SF64mul, SFmul in *.
  cbn [xorb] in *.
  set (M := (m * Num.mantissa_095)%positive) in *.
  assert (HM : Zpos M < Zpos m * 2 ^ 53).
  { subst M. rewrite Pos2Z.inj_mul. apply Z.mul_lt_mono_pos_l; [lia|].
    vm_compute. reflexivity. }
  assert (HL : Zpos (digits2_pos M) <= Zpos (digits2_pos m) + 53).
  { apply digits_le. rewrite Z.pow_add_r by lia.
    destruct (digits_bounds m) as [_ Hhi].
    apply Z.lt_trans with (1 := HM).
    apply Z.mul_lt_mono_pos_r; [apply Z.pow_pos_nonneg; lia|exact Hhi]. }
  pose proof (binary_round_aux_le false M (e + -53) (scaled (Zpos m) e)) as Hle.
  cbv zeta in Hle. rewrite fexp64 in Hle.
  set (e1 := Z.max (e + -53)
               (Z.max (Zpos (digits2_pos M) + (e + -53) - 53) (-1074))) in *.
  assert (He1 : e + -53 <= e1 <= e) by lia.
  assert (Hb : scaled (Zpos M / 2 ^ (e1 - (e + -53)) + 1) e1
               <= scaled (Zpos m) e).
  { set (k := e1 - (e + -53)).
    assert (Hk : 0 <= k <= 53) by lia.
    assert (Hp : 0 < 2 ^ k) by (apply Z.pow_pos_nonneg; lia).
    assert (Hd : Zpos M / 2 ^ k < Zpos m * 2 ^ (53 - k)).
    { apply Z.div_lt_upper_bound; [exact Hp|].
      rewrite Z.mul_comm, <- Z.mul_assoc, <- Z.pow_add_r by lia.
      now replace (53 - k + k) with 53 by lia. }
    apply Z.le_trans with (scaled (Zpos m * 2 ^ (53 - k)) e1);
      [apply scaled_le; lia|].
    rewrite scaled_shift by lia.
    replace (e1 + (53 - k)) with e by lia. lia. }
  specialize (Hle ltac:(lia) Hb).
  destruct (binary_round_aux prec emax false (Zpos M) (e + -53) loc_Exact)
    as [?|?| |s' m' e'] eqn:Hr; try contradiction; [exact I|].
  split; [|exact Hle].
  revert Hr. unfold binary_round_aux.
  destruct (shr_fexp prec emax (Zpos M) (e + -53) loc_Exact) as [r1 x1].
  destruct (shr_fexp prec emax _ x1 loc_Exact) as [r2 x2].
  destruct (shr_m r2); try discriminate.
  destruct (x2 <=? emax - prec); [|discriminate]. now intros [= <- _ _].
Qed.

(** An integer below [2^53] converts to a float of the same value. *)
Lemma binary_round_small_value s q :
  Zpos q < 2 ^ 53 ->
  exists M E, binary_round prec emax s q 0 = S754_finite s M E
              /\ valid_binary (S754_finite s M E) = true
              /\ scaled (Zpos M) E = scaled (Zpos q) 0.
Proof.
  intros Hq. pose proof (digits_le q 53 Hq) as HL.
  unfold binary_round. rewrite fexp64.
  replace (Z.max (Zpos (digits2_pos q) + 0 - 53) (-1074))
    with (Zpos (digits2_pos q) - 53) by lia.
  unfold shl_align.
  destruct (Zpos (digits2_pos q) - 53 - 0) as [|d|d] eqn:Hd; try lia.
  - exists q, 0.
    assert (Hb : bounded prec emax q 0 = true).
    { unfold bounded, canonical_mantissa. rewrite fexp64.
      apply andb_true_iff. split; [apply Z.eqb_eq; lia|reflexivity]. }
    split; [now apply binary_round_aux_canonical|]. split; [exact Hb|].
    reflexivity.
  - exists (Pos.iter xO q d), (Zpos (digits2_pos q) - 53).
    assert (Hb : bounded prec emax (Pos.iter xO q d)
                   (Zpos (digits2_pos q) - 53) = true).
    { unfold bounded, canonical_mantissa. rewrite fexp64.
      rewrite (digits_shift q (Zpos d)) by (try apply pos_iter_xO; lia).
      apply andb_true_iff. split; [apply Z.eqb_eq; lia|].
      apply Z.leb_le. change (emax - prec) with 971. lia. }
    split; [now apply binary_round_aux_canonical|]. split; [exact Hb|].
    rewrite pos_iter_xO, scaled_shift by lia. f_equal. lia.
Qed.

(** A positive integer that [round] returned converts to a float of the
    same value. *)
Lemma of_int_round_value x q :
  Num.round x = Ok (Zpos q) ->
  exists M E,
    Num.of_int (Zpos q) = Ok (SF2Prim (S754_finite false M E))
    /\ valid_binary (S754_finite false M E) = true
    /\ scaled (Zpos M) E = scaled (Zpos q) 0.
Proof.
  unfold Num.round. pose proof (Prim2SF_valid x) as Hv.
  destruct (Prim2SF x) as [s|s| |s m e] eqn:Hx; try discriminate.
  intros [= Hz].
  assert (Hv' : valid_binary (S754_finite false m e) = true) by exact Hv.
  destruct (valid_finite _ m e Hv') as (Hm & Hr & _).
  pose proof (round_half_even_range m e Hv') as Hrange. cbv zeta in Hrange.
  set (r := Num.round_half_even (Zpos m) e) in *.
  assert (Hs : r = Zpos q).
  { destruct s; [|exact Hz]. destruct Hrange as [[He Hr']|[He Hr']]; [|lia].
    assert (0 <= r); [|lia]. rewrite Hr'.
    apply Z.mul_nonneg_nonneg; [lia|apply Z.pow_nonneg; lia]. }
  assert (Hlim : Zpos q < Num.float_limit).
  { rewrite <- Hs. destruct Hrange as [[He ->]|[He Hr']].
    - apply float_limit_max; lia.
    - assert (2 ^ 53 < Num.float_limit) by (vm_compute; reflexivity). lia. }
  unfold Num.of_int.
  replace (Z.abs (Zpos q) <? Num.float_limit) with true
    by (symmetry; apply Z.ltb_lt; lia).
  cbn [binary_normalize].
  destruct Hrange as [[He Hr']|[He Hr']].
  - exists m, e.
    rewrite (binary_round_exact false q m e Hv' He)
      by (rewrite <- Hs; exact Hr').
    split; [reflexivity|]. split; [exact Hv'|].
    rewrite <- Hs, Hr'. rewrite (scaled_shift (Zpos m) e 0) by lia.
    reflexivity.
  - destruct (binary_round_small_value false q ltac:(lia))
      as (M & E & HM & HV & Hval).
    exists M, E. rewrite HM. auto.
Qed.

(** The product of a positive float and 0.95, rounded to an integer, is
    no more than an integer of the float's value. *)
Lemma mul_095_round M E n z :
  valid_binary (S754_finite false M E) = true ->
  Num.round (PrimFloat.mul (SF2Prim (S754_finite false M E)) 0.95) = Ok n ->
  0 <= z ->
  scaled (Zpos M) E = scaled z 0 ->
  0 <= n <= z.
Proof.
  intros Hv Hn Hz Hval. unfold Num.round in Hn.
  rewrite mul_spec, Prim2SF_SF2Prim in Hn by exact Hv.
  pose proof (SFmul_095_le M E Hv) as Hle.
  destruct (SF64mul (S754_finite false M E) (Prim2SF 0.95))
      as [?|?| |s m e]; try contradiction.
  - injection Hn as <-. split; [apply Z.le_refl|exact Hz].
  - destruct Hle as (-> & He & Hle). injection Hn as <-.
    apply round_half_even_le;
      [apply Pos2Z.is_nonneg|exact He|rewrite <- Hval; exact Hle].
Qed.

Lemma int_mul_float_value z f x y :
  Num.of_int z = Ok f -> Num.int_mul_float z x = Ok y ->
  y = PrimFloat.mul f x.
Proof.
  unfold Num.int_mul_float. intros ->. cbn [rbind]. intros H.
  symmetry. exact (Ok_inj _ _ H).
Qed.

(** [round(n * 0.95)] is between 0 and [n], for [n] that [round] returned
    and that is not negative. *)
Lemma scaled_round_bound x z y n :
  Num.round x = Ok z -> 0 <= z ->
  Num.int_mul_float z 0.95 = Ok y -> Num.round y = Ok n ->
  0 <= n <= z.
Proof.
  intros Hx Hz Hy Hn. destruct z as [|q|q]; [| |lia].
  - assert (H0 : Num.int_mul_float 0 0.95 = Ok 0%float)
      by (vm_compute; reflexivity).
    rewrite H0 in Hy. apply Ok_inj in Hy. subst y.
    assert (H1 : Num.round 0%float = Ok 0) by (vm_compute; reflexivity).
    rewrite H1 in Hn. apply Ok_inj in Hn. subst n. split; apply Z.le_refl.
  - destruct (of_int_round_value x q Hx) as (M & E & Hf & Hv & Hval).
    rewrite (int_mul_float_value _ _ _ _ Hf Hy) in Hn.
    exact (mul_095_round M E n (Zpos q) Hv Hn Hz Hval).
Qed.

(** ** The route, the derivation and the prompt *)

(** X5. The directions of a route are the instructions of the steps of its
    segments, in the order of the payload: a step without an instruction
    is passed over, a segment without steps adds nothing. This holds when
    every segment is an object and its steps, when there, are a list of
    objects. *)
Theorem directions_in_order payload rd segments :
  read_route payload = Ok rd ->
  route_segments payload = Ok (PList segments) ->
  Forall plain_segment segments ->
  directions rd = instructions segments.
Proof.
  unfold read_route. intros H Hseg Hplain.
  repeat bind_ok H. injection H as <-. cbn [directions].
  unfold route_segments in Hseg.
  rewrite E in Hseg. cbn [rbind] in Hseg. rewrite E0 in Hseg.
  cbn [rbind] in Hseg. rewrite E3 in Hseg. cbn [rbind] in Hseg.
  rewrite E11 in Hseg. injection Hseg as ->. cbn [Py.iter] in E12. injection E12 as <-.
  rewrite for_each_segments in E13 by assumption.
  now injection E13 as <-.
Qed.

(** X9. The derivation reads the emissions from the route. A route as the
    route adapter returns it has none: without the assignment of line 249
    the derivation raises [KeyError('emissions')]. *)
Theorem simulate_needs_emissions payload rd :
  read_route payload = Ok rd ->
  simulate_optimized_route rd = Raise (KeyError (PStr (lit "emissions"))).
Proof.
  intros H.
  destruct (read_route_duration payload rd H) as (x & Hx).
  destruct (scaled_round_total x _ Hx) as (y & n & Hy & Hn).
  unfold simulate_optimized_route.
  rewrite Hy. cbn [rbind]. rewrite Hn. cbn [rbind].
  now rewrite (read_route_no_emissions payload rd H).
Qed.

(** X10. The optimized duration is never longer than the duration. For a
    route the adapter read, with a duration that is not negative, the
    derivation returns a duration between 0 and the duration of the route:
    neither the conversion to a float, the product by 0.95 nor [round]
    passes it. *)
Theorem optimized_duration_bound payload rd em o :
  read_route payload = Ok rd ->
  0 <= duration_minutes rd ->
  simulate_optimized_route (with_emissions rd em) = Ok o ->
  0 <= optimized_duration_minutes o <= duration_minutes rd.
Proof.
  intros H Hz Ho.
  destruct (read_route_duration payload rd H) as (x & Hx).
  destruct (simulate_optimized_route_resolved payload rd em H)
    as (y & n & Hy & Hn & Hsim).
  rewrite Hsim in Ho. injection Ho as <-. cbn [optimized_duration_minutes].
  exact (scaled_round_bound x _ y n Hx Hz Hy Hn).
Qed.

Section Extras.

Context {World : Type}.
Variable http : http_call -> World -> result http_response * World.
Variable chat : pyval -> str -> World -> result pyval * World.
Variable B : builtins.

(** ** The handler *)

(** X1. A request body that is no object, or whose [api_keys] is no
    object, is answered with a 500 that carries Python's AttributeError
    text, and no upstream call is made: the state is the one the request
    came in with. *)
Theorem malformed_body_internal_error data s bad :
  data = bad
  \/ (exists fields,
        data = PDict fields /\ Py.lookup (lit "api_keys") fields = Some bad) ->
  not_an_object bad ->
  get_route_recommendation http chat B data s
  = ({| status := 500;
        payload := BodyError
          (lit "Internal server error: '" ++ Py.type_name bad
           ++ lit "' object has no attribute 'get'") |}, s).
Proof.
  intros Hshape Hbad.
  assert (Hraise : read_inputs data
            = Raise (AttributeError
                       (lit "'" ++ Py.type_name bad
                        ++ lit "' object has no attribute 'get'"))).
  { destruct Hshape as [->|(fields & -> & Hk)]; unfold read_inputs.
    - now rewrite get_not_an_object.
    - rewrite !get_object. cbn [rbind]. rewrite Hk.
      now rewrite get_not_an_object. }
  rewrite (run_bad_request http chat B data _ s Hraise). reflexivity.
Qed.

(** X2. The credentials are checked before the coordinates, and each check
    has its message: a missing credential gives "All five API keys are
    required." whatever the coordinates are; with all five credentials, a
    missing coordinate pair gives the message on coordinates. *)
Theorem validation_messages fields keys s :
  credentials fields keys ->
  (existsb (missing keys) credential_names = true ->
   get_route_recommendation http chat B (PDict fields) s
   = ({| status := 400;
         payload := BodyError (lit "All five API keys are required.") |}, s))
  /\ (existsb (missing keys) credential_names = false ->
      missing fields (lit "origin_coords") = true
      \/ missing fields (lit "destination_coords") = true ->
      get_route_recommendation http chat B (PDict fields) s
      = ({| status := 400;
            payload := BodyError
              (lit "Both origin_coords and destination_coords must be provided.") |},
         s)).
Proof.
  intros Hc.
  destruct (read_inputs_object fields keys Hc) as (i & Hi & Hk & Hco).
  split.
  - intros Hm. rewrite Hm in Hk.
    now apply run_keys_missing with (i := i).
  - intros Hm Hmiss. rewrite Hm in Hk.
    apply run_coords_missing with (i := i); try assumption.
    rewrite Hco. destruct Hmiss as [-> | ->]; cbn; [reflexivity|].
    now rewrite andb_false_r.
Qed.

(** X3. The calls of a request, by the status of its answer. Every answer
    is a 200 with the four result fields, or a 400 or 500 with an error
    message. A 200 has made the six calls in the order route, price, weather,
    weather, emissions, recommendation. A 400 has made no call, the route
    call, or the route and the price call. A 500 has made no call or the
    first five: the recommendation service is never called by a request
    that fails. *)
Theorem call_table data s :
  exists calls,
    log (snd (get_route_recommendation http chat B data s)) = log s ++ calls
    /\ let made := map adapter_of calls in
       let answer := fst (get_route_recommendation http chat B data s) in
       (status answer = 200
        /\ (exists route directions comparison recommendation,
              payload answer
              = BodySuccess route directions comparison recommendation)
        /\ made = [RouteAdapter; EnergyPriceAdapter; WeatherAdapter;
                   WeatherAdapter; EmissionsAdapter; RecommendationAdapter])
       \/ (status answer = 400
           /\ (exists message, payload answer = BodyError message)
           /\ (made = [] \/ made = [RouteAdapter]
               \/ made = [RouteAdapter; EnergyPriceAdapter]))
       \/ (status answer = 500
           /\ (exists message, payload answer = BodyError message)
           /\ (made = []
               \/ made = [RouteAdapter; EnergyPriceAdapter; WeatherAdapter;
                          WeatherAdapter; EmissionsAdapter])).
Proof.
  destruct (read_inputs data) as [i|e] eqn:Hi.
  2:{ rewrite (run_bad_request http chat B data e s Hi). exists [].
      rewrite app_nil_r. split; [reflexivity|]. cbv zeta. cbn [fst map].
      right. right. cbn. eauto 6. }
  destruct (keys_present i) eqn:Hk.
  2:{ rewrite (run_keys_missing http chat B data i s Hi Hk). exists [].
      rewrite app_nil_r. split; [reflexivity|]. cbv zeta. cbn [fst map].
      right. left. cbn. eauto 6. }
  destruct (coords_present i) eqn:Hc.
  2:{ rewrite (run_coords_missing http chat B data i s Hi Hk Hc). exists [].
      rewrite app_nil_r. split; [reflexivity|]. cbv zeta. cbn [fst map].
      right. left. cbn. eauto 6. }
  assert (Hv : passes_validation data i) by (repeat split; assumption).
  destruct (get_eco_route http (origin_coords i) (destination_coords i)
              (OPENROUTESERVICE_API_KEY i) s) as [[rd|] s1] eqn:Hr.
  2:{ rewrite (run_route_failed http chat B data i s Hv s1 Hr). cbn [snd fst].
      destruct (get_eco_route_log http (origin_coords i)
                  (destination_coords i) (OPENROUTESERVICE_API_KEY i) s)
        as (calls & Hlog & Hcalls).
      rewrite Hr in Hlog. exists calls. split; [exact Hlog|]. cbv zeta.
      right. left.
      destruct Hcalls as [->|(c & ->)]; cbn; eauto 6. }
  destruct (get_energy_data http (EIA_API_KEY i) s1) as [[en|] s2] eqn:He.
  2:{ rewrite (run_energy_failed http chat B data i s Hv rd s1 Hr s2 He).
      cbn [snd fst].
      destruct (get_eco_route_found http _ _ _ _ _ _ Hr)
        as (fo & fd & r & p & _ & _ & Hreq & _).
      pose proof (requests_log http
                    (PostDirections (OPENROUTESERVICE_API_KEY i)
                       (PList [fo; fd])) s) as H1.
      rewrite Hreq in H1. cbn [snd] in H1.
      pose proof (get_energy_data_state http (EIA_API_KEY i) s1) as H2.
      rewrite He in H2. cbn [snd] in H2.
      rewrite H2, requests_log, H1, <- app_assoc. cbn [app].
      eexists. split; [reflexivity|]. cbv zeta. right. left. cbn. eauto 6. }
  destruct (get_weather_data http (lit "San Francisco") (WEATHER_API_KEY i)
              s2) as [ow s3] eqn:Hwo.
  destruct (get_weather_data http (lit "Los Angeles") (WEATHER_API_KEY i)
              s3) as [dw s4] eqn:Hwd.
  destruct (calculate_emissions http (distance_km rd)
              (CARBON_INTERFACE_API_KEY i) s4) as [found s5] eqn:Hem.
  destruct (run_after_emissions http chat B _ _ _ Hv _ _ Hr _ _ He
              _ _ _ _ Hwo Hwd _ _ Hem) as (scaled & minutes & _ & _ & Hrun).
  destruct (run_log_to_emissions http _ _ _ _ Hr _ _ He
              _ _ _ _ Hwo Hwd _ _ Hem) as (calls & Hlog & Hmap & _).
  cbv zeta in Hrun. rewrite Hrun.
  destruct (generate_openai_prompt B _ en _ _ _ (vehicle i)) as [prompt|e].
  - rewrite get_openai_recommendation_run. cbn [snd fst log].
    exists (calls ++ [ChatCompletionCreate (OPENAI_API_KEY i) prompt]).
    rewrite Hlog, app_assoc. split; [reflexivity|]. cbv zeta. left.
    rewrite map_app, Hmap. cbn. eauto 8.
  - cbn [snd fst]. exists calls. split; [exact Hlog|]. cbv zeta.
    right. right. rewrite Hmap. cbn. eauto 6.
Qed.

(** An estimate of the emissions service has its kilograms from its
    grams. *)
Lemma calculate_emissions_consistent distance key s e s' :
  calculate_emissions http distance key s = (Some e, s') -> consistent e.
Proof.
  unfold calculate_emissions, try_except, bind, lift, ret.
  destruct (requests http (PostEstimate key distance) s) as [[r|x] s0];
    [|discriminate].
  destruct (status_code r =? 201); [|discriminate].
  destruct (json r) as [payload|]; [|discriminate].
  cbv beta iota.
  destruct (rbind (Py.getitem payload (lit "data")) _) as [g|];
    [|discriminate].
  destruct (Num.truediv g 1000) as [kg|] eqn:Hkg; [|discriminate].
  intros [= <- <-]. exact Hkg.
Qed.

(** X13. The figure of the emissions service reaches the comparison. When
    the service returned an estimate and the vehicle is complete, the answer
    is a 200 whose original emissions are the kilograms of the estimate,
    the grams divided by 1000, and whose optimized emissions are that
    figure times 0.9. *)
Theorem emissions_service_value data s i rd en ow dw e s5 :
  gathers http data s i rd en ow dw (Some e) s5 ->
  complete_vehicle (vehicle i) ->
  consistent e
  /\ exists minutes recommendation s6,
       get_route_recommendation http chat B data s
       = ({| status := 200;
             payload :=
               BodySuccess (coordinates rd) (directions rd)
                 {| original :=
                      {| cmp_distance_km := distance_km rd;
                         cmp_duration_minutes := duration_minutes rd;
                         carbon_emissions_kg := carbon_kg e |};
                    optimized :=
                      {| cmp_distance_km := distance_km rd;
                         cmp_duration_minutes := minutes;
                         carbon_emissions_kg :=
                           PrimFloat.mul (carbon_kg e) 0.9 |} |}
                 recommendation |}, s6).
Proof.
  intros (s1 & s2 & s3 & s4 & Hv & Hr & He & Hwo & Hwd & Hem) Hc.
  split; [exact (calculate_emissions_consistent _ _ _ _ _ Hem)|].
  destruct (run_after_emissions http chat B _ _ _ Hv _ _ Hr _ _ He
              _ _ _ _ Hwo Hwd _ _ Hem) as (scaled & minutes & _ & _ & Hrun).
  cbv zeta in Hrun. cbn [or_default] in Hrun.
  destruct (complete_vehicle_prompt B (with_emissions rd e) en e
              (or_default ow default_weather_origin)
              (or_default dw default_weather_destination) _ Hc)
    as (prompt & Hp).
  rewrite Hp in Hrun.
  destruct (get_openai_recommendation chat B prompt (OPENAI_API_KEY i) s5)
    as [recommendation s6].
  exists minutes, recommendation, s6. exact Hrun.
Qed.

(** ** The adapters *)

(** X4. What the route adapter sends. For endpoints given as [lat, lon]
    the one call made carries [[lon, lat], [lon, lat]], origin first. An
    endpoint that is a list of fewer than two components ends the adapter
    with no route and no call. *)
Theorem route_request_axes origin destination key s :
  (forall lat lon lat' lon',
      origin = PList [lat; lon] -> destination = PList [lat'; lon'] ->
      log (snd (get_eco_route http origin destination key s))
      = log s ++ [Requests (PostDirections key
                              (PList [PList [lon; lat]; PList [lon'; lat']]))])
  /\ (forall x,
        origin = PList [x] \/ origin = PList []
        \/ destination = PList [x] \/ destination = PList [] ->
        get_eco_route http origin destination key s = (None, s)).
Proof.
  split.
  - intros lat lon lat' lon' -> ->. rewrite get_eco_route_run.
    change (swap_pair (PList [lat; lon])) with (Ok (PList [lon; lat])).
    change (swap_pair (PList [lat'; lon'])) with (Ok (PList [lon'; lat'])).
    cbv beta iota zeta. cbn [snd]. apply requests_log.
  - intros x H. rewrite get_eco_route_run.
    destruct H as [-> | [-> | [-> | ->]]]; try reflexivity;
      destruct (swap_pair origin); reflexivity.
Qed.

(** X6. What the price adapter reads. It makes one call. A price it returns
    comes from an answer with status 200, and is the value and the period
    of the first entry of [response.data]; an empty series gives no
    price. *)
Theorem energy_latest_entry key s :
  log (snd (get_energy_data http key s))
  = log s ++ [Requests (GetPetroleumPrices key)]
  /\ (forall en,
      fst (get_energy_data http key s) = Some en ->
      exists response data latest,
        fst (http (GetPetroleumPrices key) (world s)) = Ok response
        /\ status_code response = 200
        /\ json response = Ok data
        /\ latest_price data = Ok latest
        /\ Py.getitem latest (lit "value") = Ok (price_per_gallon en)
        /\ Py.getitem latest (lit "period") = Ok (period en))
  /\ (forall response data r,
        fst (http (GetPetroleumPrices key) (world s)) = Ok response ->
        json response = Ok data ->
        Py.getitem data (lit "response") = Ok r ->
        Py.getitem r (lit "data") = Ok (PList []) ->
        fst (get_energy_data http key s) = None).
Proof.
  split; [now rewrite get_energy_data_state, requests_log|].
  pose proof (requests_reply http (GetPetroleumPrices key) s) as Hq.
  unfold get_energy_data, try_except, bind, lift, ret.
  destruct (requests http (GetPetroleumPrices key) s) as [reply s'].
  cbn [fst] in Hq. subst reply. split.
  - intros en.
    destruct (fst (http (GetPetroleumPrices key) (world s))) as [r|x];
      [|discriminate].
    destruct (status_code r =? 200) eqn:Hs; [|discriminate].
    apply Z.eqb_eq in Hs.
    destruct (json r) as [data|] eqn:Hj; [|discriminate]. cbv beta iota.
    fold (latest_price data).
    destruct (latest_price data) as [latest|] eqn:Hl; [|discriminate].
    destruct (Py.getitem latest (lit "value")) as [v|] eqn:Hv;
      [|discriminate].
    destruct (Py.getitem latest (lit "period")) as [p|] eqn:Hp;
      [|discriminate].
    cbn [fst]. intros [= <-]. exists r, data, latest. cbn. auto 10.
  - intros response data r -> Hj Hr Hd.
    destruct (status_code response =? 200); [|reflexivity].
    rewrite Hj. cbv beta iota. rewrite Hr. cbn [rbind]. rewrite Hd.
    reflexivity.
Qed.

(** X7. Only 201 is a success for the emissions service. The adapter
    makes one call, with the distance it was given, and an answer with any
    other status, 200 included, gives no estimate. *)
Theorem emissions_only_created distance key s :
  log (snd (calculate_emissions http distance key s))
  = log s ++ [Requests (PostEstimate key distance)]
  /\ forall response,
       fst (http (PostEstimate key distance) (world s)) = Ok response ->
       status_code response <> 201 ->
       fst (calculate_emissions http distance key s) = None.
Proof.
  split.
  - now rewrite calculate_emissions_state, requests_log.
  - intros response Hreply Hs. apply Z.eqb_neq in Hs.
    unfold calculate_emissions, try_except, bind, lift, ret.
    pose proof (requests_reply http (PostEstimate key distance) s) as Hq.
    destruct (requests http (PostEstimate key distance) s) as [r s'].
    cbn [fst] in Hq. rewrite Hq, Hreply, Hs. reflexivity.
Qed.

(** X8. What the weather adapter reads. It makes one call. Conditions it
    returns come from an answer with status 200: [main.temp], the
    description of the first entry of [weather], and [wind.speed]. An empty
    [weather] list gives no conditions. *)
Theorem weather_fields location key s :
  log (snd (get_weather_data http location key s))
  = log s ++ [Requests (GetWeather location key)]
  /\ (forall c,
      fst (get_weather_data http location key s) = Some c ->
      exists response data,
        fst (http (GetWeather location key) (world s)) = Ok response
        /\ status_code response = 200
        /\ json response = Ok data
        /\ weather_temp data = Ok (temperature c)
        /\ weather_description data = Ok (weather c)
        /\ weather_wind data = Ok (wind_speed c))
  /\ (forall response data,
        fst (http (GetWeather location key) (world s)) = Ok response ->
        json response = Ok data ->
        Py.getitem data (lit "weather") = Ok (PList []) ->
        fst (get_weather_data http location key s) = None).
Proof.
  split; [now rewrite get_weather_data_state, requests_log|].
  pose proof (requests_reply http (GetWeather location key) s) as Hq.
  unfold get_weather_data, try_except, bind, lift, ret.
  destruct (requests http (GetWeather location key) s) as [reply s'].
  cbn [fst] in Hq. subst reply. split.
  - intros c.
    destruct (fst (http (GetWeather location key) (world s))) as [r|x];
      [|discriminate].
    destruct (status_code r =? 200) eqn:Hs; [|discriminate].
    apply Z.eqb_eq in Hs.
    destruct (json r) as [data|] eqn:Hj; [|discriminate]. cbv beta iota.
    fold (weather_temp data). fold (weather_description data).
    fold (weather_wind data).
    destruct (weather_temp data) as [t|] eqn:Ht; [|discriminate].
    destruct (weather_description data) as [d|] eqn:Hd; [|discriminate].
    destruct (weather_wind data) as [w|] eqn:Hw; [|discriminate].
    cbn [fst]. intros [= <-]. exists r, data. cbn. auto 10.
  - intros response data -> Hj Hw.
    destruct (status_code response =? 200); [|reflexivity].
    rewrite Hj. cbv beta iota.
    destruct (rbind (Py.getitem data (lit "main")) _); [|reflexivity].
    rewrite Hw. reflexivity.
Qed.

(** X11. The prompt is built exactly for a complete vehicle: an object
    with the keys [type], [efficiency] and [fuel_type]. Nothing else the
    prompt reads can fail. *)
Theorem prompt_needs_complete_vehicle rd en carbon wo wd v :
  (exists prompt, generate_openai_prompt B rd en carbon wo wd v = Ok prompt)
  <-> complete_vehicle v.
Proof.
  split; [|apply complete_vehicle_prompt].
  intros (prompt & H). unfold generate_openai_prompt in H.
  repeat bind_ok H.
  destruct v as [| | | | | |fields]; try discriminate E.
  exists fields. split; [reflexivity|]. intros k Hk.
  unfold Py.getitem in E, E0, E1. cbn [In] in Hk.
  destruct Hk as [<-|[<-|[<-|[]]]].
  - destruct (Py.lookup (lit "type") fields); [discriminate|discriminate E].
  - destruct (Py.lookup (lit "efficiency") fields);
      [discriminate|discriminate E0].
  - destruct (Py.lookup (lit "fuel_type") fields);
      [discriminate|discriminate E1].
Qed.

(** X12. The text the recommendation adapter returns. It makes one call.
    When the first choice of the completion has a string as its content,
    the text is that string stripped; when the content is no string, the
    completion cannot be read, or the call raised, the text is "Failed to
    generate recommendation.". *)
Theorem recommendation_text prompt key s :
  log (snd (get_openai_recommendation chat B prompt key s))
  = log s ++ [ChatCompletionCreate key prompt]
  /\ (forall response content,
        fst (chat key prompt (world s)) = Ok response ->
        completion_content response = Ok (PStr content) ->
        fst (get_openai_recommendation chat B prompt key s)
        = str_strip B content)
  /\ (forall response content,
        fst (chat key prompt (world s)) = Ok response ->
        completion_content response = Ok content ->
        (forall written, content <> PStr written) ->
        fst (get_openai_recommendation chat B prompt key s)
        = lit "Failed to generate recommendation.")
  /\ (forall response e,
        fst (chat key prompt (world s)) = Ok response ->
        completion_content response = Raise e ->
        fst (get_openai_recommendation chat B prompt key s)
        = lit "Failed to generate recommendation.")
  /\ (forall e,
        fst (chat key prompt (world s)) = Raise e ->
        fst (get_openai_recommendation chat B prompt key s)
        = lit "Failed to generate recommendation.").
Proof.
  rewrite get_openai_recommendation_run. cbn [fst snd log].
  split; [reflexivity|]. split; [|split; [|split]].
  - intros response content -> Hc. cbn [rbind].
    rewrite read_completion_content, Hc. reflexivity.
  - intros response content -> Hc Hn. cbn [rbind].
    rewrite read_completion_content, Hc. cbn [rbind].
    destruct content; try reflexivity. now contradiction (Hn s0).
  - intros response e -> Hc. cbn [rbind].
    rewrite read_completion_content, Hc. reflexivity.
  - intros e ->. reflexivity.
Qed.

End Extras.

(** ** The further properties at work on the scripted world *)

(** X1 at work: the caller sent a string for [api_keys]. *)
Lemma malformed_body_internal_error_witness :
  not_an_object (PStr (lit "secret"))
  /\ serve all_up (PDict [(lit "api_keys", PStr (lit "secret"))])
     = ({| status := 500;
           payload := BodyError
             (lit "Internal server error: 'str' object has no attribute 'get'") |},
        start).
Proof.
  split; [exact I|].
  exact (malformed_body_internal_error (http all_up) (chat all_up) plain
           (PDict [(lit "api_keys", PStr (lit "secret"))]) start
           (PStr (lit "secret"))
           (or_intror (ex_intro _ _ (conj eq_refl eq_refl))) I).
Defined.

(** X2 at work: a body without the fifth credential and a body with all
    five and no destination. *)
Lemma validation_messages_witness :
  exists four five,
    credentials fields_without_openai_key four
    /\ existsb (missing four) credential_names = true
    /\ serve all_up (PDict fields_without_openai_key)
       = ({| status := 400;
             payload := BodyError (lit "All five API keys are required.") |},
          start)
    /\ credentials
         [(lit "origin_coords", origin); (lit "api_keys", PDict five)] five
    /\ existsb (missing five) credential_names = false
    /\ serve all_up
         (PDict [(lit "origin_coords", origin); (lit "api_keys", PDict five)])
       = ({| status := 400;
             payload := BodyError
               (lit "Both origin_coords and destination_coords must be provided.") |},
          start).
Proof.
  pose (four := [(lit "EIA_API_KEY", key "eia");
                 (lit "CARBON_INTERFACE_API_KEY", key "carbon");
                 (lit "WEATHER_API_KEY", key "weather");
                 (lit "OPENROUTESERVICE_API_KEY", key "ors")]).
  assert (C4 : credentials fields_without_openai_key four) by reflexivity.
  pose (five := [(lit "EIA_API_KEY", key "eia");
                 (lit "CARBON_INTERFACE_API_KEY", key "carbon");
                 (lit "WEATHER_API_KEY", key "weather");
                 (lit "OPENROUTESERVICE_API_KEY", key "ors");
                 (lit "OPENAI_API_KEY", key "openai")]).
  assert (C5 : credentials
                 [(lit "origin_coords", origin); (lit "api_keys", PDict five)]
                 five) by reflexivity.
  assert (M4 : existsb (missing four) credential_names = true)
    by (vm_compute; reflexivity).
  assert (M5 : existsb (missing five) credential_names = false)
    by (vm_compute; reflexivity).
  exists four, five.
  split; [exact C4|]. split; [exact M4|]. split.
  - exact (proj1 (validation_messages (http all_up) (chat all_up) plain
                    _ _ start C4) M4).
  - split; [exact C5|]. split; [exact M5|].
    exact (proj2 (validation_messages (http all_up) (chat all_up) plain
                    _ _ start C5) M5 (or_intror eq_refl)).
Defined.

(** X5 at work: the three steps of the scenario, the second one without
    an instruction. *)
Lemma directions_in_order_witness :
  exists rd segments,
    read_route directions_json = Ok rd
    /\ route_segments directions_json = Ok (PList segments)
    /\ Forall plain_segment segments
    /\ directions rd = [PStr (lit "Head south"); PStr (lit "Arrive")].
Proof.
  eassert (R : read_route directions_json = Ok _)
    by (vm_compute; reflexivity).
  eassert (S : route_segments directions_json = Ok (PList _))
    by reflexivity.
  match type of S with
  | _ = Ok (PList ?segments) => assert (P : Forall plain_segment segments)
  end.
  { constructor; [|constructor]. eexists. split; [reflexivity|].
    cbn. repeat constructor; eexists; reflexivity. }
  do 2 eexists. split; [exact R|]. split; [exact S|]. split; [exact P|].
  exact (directions_in_order directions_json _ _ R S P).
Defined.

(** X9 at work: the route of the scenario as the adapter reads it. *)
Lemma simulate_needs_emissions_witness :
  exists rd,
    read_route directions_json = Ok rd
    /\ simulate_optimized_route rd
       = Raise (KeyError (PStr (lit "emissions"))).
Proof.
  eassert (R : read_route directions_json = Ok _)
    by (vm_compute; reflexivity).
  eexists. split; [exact R|].
  exact (simulate_needs_emissions directions_json _ R).
Defined.

(** X10 at work: 300 minutes become 285. *)
Lemma optimized_duration_bound_witness :
  exists rd o,
    read_route directions_json = Ok rd
    /\ 0 <= duration_minutes rd
    /\ simulate_optimized_route
         (with_emissions rd {| carbon_g := PInt 50000; carbon_kg := 50 |})
       = Ok o
    /\ optimized_duration_minutes o = 285
    /\ 0 <= optimized_duration_minutes o <= duration_minutes rd.
Proof.
  eassert (R : read_route directions_json = Ok _)
    by (vm_compute; reflexivity).
  match type of R with
  | _ = Ok ?rd =>
      assert (D : 0 <= duration_minutes rd) by (vm_compute; discriminate);
      eassert (S : simulate_optimized_route
                     (with_emissions rd {| carbon_g := PInt 50000;
                                           carbon_kg := 50 |}) = Ok _)
        by (vm_compute; reflexivity)
  end.
  do 2 eexists. split; [exact R|]. split; [exact D|]. split; [exact S|].
  split; [reflexivity|].
  exact (optimized_duration_bound directions_json _ _ _ R D S).
Defined.

(** X13 at work: every service answers; the estimate of 50000 g gives 50 kg
    and 45 kg. *)
Lemma emissions_service_value_witness :
  exists rd en ow dw e s5,
    gathers (http all_up) request start (sent car) rd en ow dw (Some e) s5
    /\ complete_vehicle car
    /\ carbon_kg e = 50%float
    /\ consistent e
    /\ exists minutes recommendation s6,
         serve all_up request
         = ({| status := 200;
               payload :=
                 BodySuccess (coordinates rd) (directions rd)
                   {| original :=
                        {| cmp_distance_km := distance_km rd;
                           cmp_duration_minutes := duration_minutes rd;
                           carbon_emissions_kg := carbon_kg e |};
                      optimized :=
                        {| cmp_distance_km := distance_km rd;
                           cmp_duration_minutes := minutes;
                           carbon_emissions_kg :=
                             PrimFloat.mul (carbon_kg e) 0.9 |} |}
                   recommendation |}, s6).
Proof.
  eassert (G : gathers (http all_up) request start (sent car)
                 _ _ _ _ (Some _) _) by gather.
  assert (V : complete_vehicle car).
  { eexists. split; [reflexivity|]. intros k Hk. cbn [In] in Hk.
    destruct Hk as [<-|[<-|[<-|[]]]]; vm_compute; discriminate. }
  do 6 eexists. split; [exact G|]. split; [exact V|].
  split; [reflexivity|].
  exact (emissions_service_value (http all_up) (chat all_up) plain
           request start (sent car) _ _ _ _ _ _ G V).
Defined.
